(** * DrowsyVision: the drowsiness state tracker

    The repository holds the tracker twice:

    - [Server]: class [DrowsinessDetector] of [backend/detector.py]
      (given in the backend set-up document);
    - [Client]: class [EyeDetector] of [src/lib/eyeDetector.ts].

    Both are embedded below, each from its own source.

    Conventions of the embedding.

    - Floating-point numbers are idealised as exact rationals [Q]; equality
      of numbers is [Qeq] ([==]).  Rounding parts the two: in binary64 a
      blend of a value with itself need not give it back.  Statements on
      the smoothed signal and on the thresholds therefore name the code's
      own expressions or put a hypothesis on the values the code reports,
      and module [Binary64] gives the baseline arithmetic in binary64.
    - The landmark detector is a black box.  A frame is given to the tracker
      as [option Q]: [None] when no face was found, [Some raw] with the mean
      eye aspect ratio otherwise.
    - The wall clock is an argument [now] of the frame operation.  The
      client reads [Date.now()] once per frame; the server reads
      [time.time()] up to three times within one frame, and these reads are
      identified with the single instant [now]. *)

From Stdlib Require Import QArith Qminmax ZArith List Bool Sorted Lia Lqa.
From Stdlib Require String.
From Stdlib Require PrimFloat.
Import ListNotations.

Open Scope Q_scope.

(** ** Numbers and lists shared by both trackers *)

Inductive EyeState : Type := OPEN | CLOSED.

Definition EyeState_eqb (a b : EyeState) : bool :=
  match a, b with
  | OPEN, OPEN | CLOSED, CLOSED => true
  | _, _ => false
  end.

(** [x < y] on numbers, as a boolean. *)
Definition Qltb (x y : Q) : bool := negb (Qle_bool y x).

(** Ascending numeric sort ([np.sort], [sort((a, b) => a - b)]). *)
Fixpoint insert (x : Q) (l : list Q) : list Q :=
  match l with
  | [] => [x]
  | y :: l' => if Qle_bool x y then x :: l else y :: insert x l'
  end.

Fixpoint sort (l : list Q) : list Q :=
  match l with
  | [] => []
  | x :: l' => insert x (sort l')
  end.

(** ** The server tracker: [DrowsinessDetector] *)

Module Server.

(** The object's fields.  [TH_LOW] and [TH_HIGH] are assigned only together
    ([__init__], [process_frame], [reset_baseline]), so the pair is one
    optional field [thresholds]; [TH_LOW] and [TH_HIGH] project it. *)
Record Detector : Type := mkDetector {
  CLOSED_SECONDS : Q;
  REFRACTORY : Q;
  SMOOTHING_FACTOR : Q;
  BASELINE_FRAMES : Z;
  FRAMES_REQUIRED : Z;
  baseline_buffer : list Q;
  thresholds : option (Q * Q);
  smoothed_eye : option Q;
  current_state : EyeState;
  closed_start : option Q;
  last_alarm_time : option Q;
  consecutive_detections : Z
}.

Definition TH_LOW (d : Detector) : option Q := option_map fst (thresholds d).
Definition TH_HIGH (d : Detector) : option Q := option_map snd (thresholds d).

(** The dataclass [DetectorState] returned for every frame. *)
Record DetectorState : Type := mkDetectorState {
  state : EyeState;
  eye_openness : Q;
  th_low : Q;
  th_high : Q;
  baseline_ready : bool;
  closed_for : Q;
  alarm : bool;
  detected : bool
}.

(** [__init__] *)
Definition init (closed_seconds refractory smoothing_factor : Q)
    (baseline_frames frames_required : Z) : Detector :=
  {| CLOSED_SECONDS := closed_seconds;
     REFRACTORY := refractory;
     SMOOTHING_FACTOR := smoothing_factor;
     BASELINE_FRAMES := baseline_frames;
     FRAMES_REQUIRED := frames_required;
     baseline_buffer := [];
     thresholds := None;
     smoothed_eye := None;
     current_state := OPEN;
     closed_start := None;
     last_alarm_time := None;
     consecutive_detections := 0%Z |}.

(** The constructor's default arguments. *)
Definition default : Detector := init 1.2 2.5 0.7 60 5.

(** Field assignments. *)
Definition set_smoothed_eye (v : option Q) (d : Detector) : Detector :=
  mkDetector (CLOSED_SECONDS d) (REFRACTORY d) (SMOOTHING_FACTOR d)
    (BASELINE_FRAMES d) (FRAMES_REQUIRED d) (baseline_buffer d) (thresholds d)
    v (current_state d) (closed_start d) (last_alarm_time d)
    (consecutive_detections d).

Definition set_baseline_buffer (v : list Q) (d : Detector) : Detector :=
  mkDetector (CLOSED_SECONDS d) (REFRACTORY d) (SMOOTHING_FACTOR d)
    (BASELINE_FRAMES d) (FRAMES_REQUIRED d) v (thresholds d)
    (smoothed_eye d) (current_state d) (closed_start d) (last_alarm_time d)
    (consecutive_detections d).

Definition set_thresholds (v : option (Q * Q)) (d : Detector) : Detector :=
  mkDetector (CLOSED_SECONDS d) (REFRACTORY d) (SMOOTHING_FACTOR d)
    (BASELINE_FRAMES d) (FRAMES_REQUIRED d) (baseline_buffer d) v
    (smoothed_eye d) (current_state d) (closed_start d) (last_alarm_time d)
    (consecutive_detections d).

Definition set_current_state (v : EyeState) (d : Detector) : Detector :=
  mkDetector (CLOSED_SECONDS d) (REFRACTORY d) (SMOOTHING_FACTOR d)
    (BASELINE_FRAMES d) (FRAMES_REQUIRED d) (baseline_buffer d) (thresholds d)
    (smoothed_eye d) v (closed_start d) (last_alarm_time d)
    (consecutive_detections d).

Definition set_closed_start (v : option Q) (d : Detector) : Detector :=
  mkDetector (CLOSED_SECONDS d) (REFRACTORY d) (SMOOTHING_FACTOR d)
    (BASELINE_FRAMES d) (FRAMES_REQUIRED d) (baseline_buffer d) (thresholds d)
    (smoothed_eye d) (current_state d) v (last_alarm_time d)
    (consecutive_detections d).

Definition set_last_alarm_time (v : option Q) (d : Detector) : Detector :=
  mkDetector (CLOSED_SECONDS d) (REFRACTORY d) (SMOOTHING_FACTOR d)
    (BASELINE_FRAMES d) (FRAMES_REQUIRED d) (baseline_buffer d) (thresholds d)
    (smoothed_eye d) (current_state d) (closed_start d) v
    (consecutive_detections d).

Definition set_consecutive_detections (v : Z) (d : Detector) : Detector :=
  mkDetector (CLOSED_SECONDS d) (REFRACTORY d) (SMOOTHING_FACTOR d)
    (BASELINE_FRAMES d) (FRAMES_REQUIRED d) (baseline_buffer d) (thresholds d)
    (smoothed_eye d) (current_state d) (closed_start d) (last_alarm_time d) v.

(** [x or 0.0] on an optional number: [None] and [0.0] are both falsy. *)
Definition or_zero (x : option Q) : Q :=
  match x with
  | Some v => v
  | None => 0
  end.

(** Truthiness of an optional number, as tested by [and self.closed_start]:
    [None] and [0.0] are falsy. *)
Definition truthy (x : option Q) : bool :=
  match x with
  | Some v => negb (Qeq_bool v 0)
  | None => false
  end.

Definition is_some {A : Type} (x : option A) : bool :=
  match x with
  | Some _ => true
  | None => false
  end.

(** [np.median]: the middle element of the sorted data, or the mean of the
    two middle elements when the length is even.  The buffer is never empty
    where [process_frame] takes its median. *)
Definition median (l : list Q) : Q :=
  let s := sort l in
  let n := length s in
  if Nat.even n
  then (nth (n / 2 - 1) s 0 + nth (n / 2) s 0) / 2
  else nth (n / 2) s 0.

(** [_get_current_state] *)
Definition _get_current_state (d : Detector) (detected : bool)
    : DetectorState :=
  {| state := current_state d;
     eye_openness := or_zero (smoothed_eye d);
     th_low := or_zero (TH_LOW d);
     th_high := or_zero (TH_HIGH d);
     baseline_ready := is_some (TH_LOW d);
     closed_for := 0.0;
     alarm := false;
     detected := detected |}.

(** The smoothing step of [process_frame]. *)
Definition smooth (d : Detector) (raw_eye : Q) : Q :=
  match smoothed_eye d with
  | None => raw_eye
  | Some prev =>
      SMOOTHING_FACTOR d * prev + (1 - SMOOTHING_FACTOR d) * raw_eye
  end.

(** The baseline branch of [process_frame] ([TH_LOW is None]); [d] already
    holds the new smoothed value [s]. *)
Definition calibrate (d : Detector) (s : Q) : Detector :=
  let d1 := set_baseline_buffer (baseline_buffer d ++ [s]) d in
  if (BASELINE_FRAMES d1 <=? Z.of_nat (length (baseline_buffer d1)))%Z
  then
    let m := median (baseline_buffer d1) in
    set_thresholds (Some (m * 0.75, m * 0.85)) d1
  else d1.

(** The state machine of [process_frame], for thresholds [lo] and [hi]. *)
Definition state_machine (d : Detector) (s lo hi now : Q) : Detector :=
  if Qltb s lo then
    match current_state d with
    | OPEN =>
        set_consecutive_detections 1
          (set_closed_start (Some now) (set_current_state CLOSED d))
    | CLOSED =>
        set_consecutive_detections (consecutive_detections d + 1) d
    end
  else if Qltb hi s then
    set_consecutive_detections 0
      (set_closed_start None (set_current_state OPEN d))
  else d.

(** The guard of the alarm block: the state is CLOSED, [closed_start] is
    truthy and the streak has reached [FRAMES_REQUIRED]. *)
Definition closed_confirmed (d : Detector) : bool :=
  EyeState_eqb (current_state d) CLOSED
  && truthy (closed_start d)
  && (FRAMES_REQUIRED d <=? consecutive_detections d)%Z.

(** The refractory test: no alarm yet, or the last one is old enough. *)
Definition refractory_over (d : Detector) (now : Q) : bool :=
  match last_alarm_time d with
  | None => true
  | Some last => Qle_bool (REFRACTORY d) (now - last)
  end.

(** The alarm block of [process_frame] and its final [DetectorState]. *)
Definition check_alarm (d : Detector) (s lo hi now : Q)
    : Detector * DetectorState :=
  let closed_for :=
    if closed_confirmed d then now - or_zero (closed_start d) else 0.0 in
  let alarm :=
    closed_confirmed d
    && Qle_bool (CLOSED_SECONDS d) closed_for
    && refractory_over d now in
  let d' := if alarm then set_last_alarm_time (Some now) d else d in
  (d',
   {| state := current_state d';
      eye_openness := s;
      th_low := lo;
      th_high := hi;
      baseline_ready := true;
      closed_for := closed_for;
      alarm := alarm;
      detected := true |}).

(** [process_frame], on the outcome [raw] of the landmark detection. *)
Definition process_frame (d : Detector) (raw : option Q) (now : Q)
    : Detector * DetectorState :=
  match raw with
  | None =>
      (d,
       {| state := current_state d;
          eye_openness := or_zero (smoothed_eye d);
          th_low := or_zero (TH_LOW d);
          th_high := or_zero (TH_HIGH d);
          baseline_ready := is_some (TH_LOW d);
          closed_for := 0.0;
          alarm := false;
          detected := false |})
  | Some raw_eye =>
      let s := smooth d raw_eye in
      let d1 := set_smoothed_eye (Some s) d in
      match thresholds d1 with
      | None =>
          let d2 := calibrate d1 s in
          (d2, _get_current_state d2 true)
      | Some (lo, hi) =>
          check_alarm (state_machine d1 s lo hi now) s lo hi now
      end
  end.

(** [reset_baseline] *)
Definition reset_baseline (d : Detector) : Detector :=
  set_closed_start None
    (set_current_state OPEN
       (set_thresholds None (set_baseline_buffer [] d))).

(** [update_params]: each argument given is stored. *)
Definition update_params (closed_seconds refractory smoothing_factor : option Q)
    (d : Detector) : Detector :=
  mkDetector
    (match closed_seconds with Some v => v | None => CLOSED_SECONDS d end)
    (match refractory with Some v => v | None => REFRACTORY d end)
    (match smoothing_factor with Some v => v | None => SMOOTHING_FACTOR d end)
    (BASELINE_FRAMES d) (FRAMES_REQUIRED d) (baseline_buffer d) (thresholds d)
    (smoothed_eye d) (current_state d) (closed_start d) (last_alarm_time d)
    (consecutive_detections d).

(** A session: frames processed in order, each with its clock reading. *)
Fixpoint run (d : Detector) (frames : list (option Q * Q))
    : Detector * list DetectorState :=
  match frames with
  | [] => (d, [])
  | (raw, now) :: rest =>
      let (d1, r) := process_frame d raw now in
      let (d2, rs) := run d1 rest in
      (d2, r :: rs)
  end.

End Server.

(** ** The client tracker: [EyeDetector] *)

Module Client.

(** The object's fields, but for [faceLandmarker]: the embedding starts
    after [initialize], where [processFrame] runs the landmark detection
    (before it, [processFrame] returns [null] and touches nothing). *)
Record EyeDetector : Type := mkEyeDetector {
  baseline : list Q;
  isCalibrating : bool;
  TH_LOW : Q;
  TH_HIGH : Q;
  smoothedEye : Q;
  smoothingFactor : Q;
  closedFrames : Z;
  openFrames : Z;
  FRAMES_REQUIRED : Z;
  eyeState : EyeState;
  closedStartTime : Q;
  refractoryUntil : Q;
  CLOSED_SECONDS : Q;
  REFRACTORY : Q
}.

(** The object literal returned by [processFrame]; its keys [TH_LOW] and
    [TH_HIGH] are written [th_low] and [th_high]. *)
Record FrameResult : Type := mkFrameResult {
  detected : bool;
  state : EyeState;
  eye : Q;
  th_low : Q;
  th_high : Q;
  baseline_ready : bool;
  closed_for : Q;
  alarm : bool
}.

(** The field initialisers of the class. *)
Definition init : EyeDetector :=
  {| baseline := [];
     isCalibrating := false;
     TH_LOW := 0.015;
     TH_HIGH := 0.02;
     smoothedEye := 0.03;
     smoothingFactor := 0.7;
     closedFrames := 0%Z;
     openFrames := 0%Z;
     FRAMES_REQUIRED := 5%Z;
     eyeState := OPEN;
     closedStartTime := 0;
     refractoryUntil := 0;
     CLOSED_SECONDS := 1.2;
     REFRACTORY := 2.5 |}.

(** [this.baseline.length >= 20] *)
Definition baseline_full (d : EyeDetector) : bool :=
  (20 <=? length (baseline d))%nat.

(** The smoothing assignment of [processFrame]. *)
Definition smooth (d : EyeDetector) (rawEye : Q) : EyeDetector :=
  mkEyeDetector (baseline d) (isCalibrating d) (TH_LOW d) (TH_HIGH d)
    (smoothingFactor d * smoothedEye d + (1 - smoothingFactor d) * rawEye)
    (smoothingFactor d) (closedFrames d) (openFrames d) (FRAMES_REQUIRED d)
    (eyeState d) (closedStartTime d) (refractoryUntil d) (CLOSED_SECONDS d)
    (REFRACTORY d).

(** [sorted[Math.floor(sorted.length / 2)]] of the sorted copy. *)
Definition median (l : list Q) : Q :=
  let sorted := sort l in
  nth (length sorted / 2) sorted 0.

(** The baseline block of [processFrame]. *)
Definition calibrate (d : EyeDetector) : EyeDetector :=
  if isCalibrating d then
    let b := baseline d ++ [smoothedEye d] in
    if (20 <=? length b)%nat then
      let m := median b in
      mkEyeDetector b false (m * 0.75) (m * 0.85)
        (smoothedEye d) (smoothingFactor d) (closedFrames d) (openFrames d)
        (FRAMES_REQUIRED d) (eyeState d) (closedStartTime d)
        (refractoryUntil d) (CLOSED_SECONDS d) (REFRACTORY d)
    else
      mkEyeDetector b true (TH_LOW d) (TH_HIGH d)
        (smoothedEye d) (smoothingFactor d) (closedFrames d) (openFrames d)
        (FRAMES_REQUIRED d) (eyeState d) (closedStartTime d)
        (refractoryUntil d) (CLOSED_SECONDS d) (REFRACTORY d)
  else d.

(** Assignment of the four fields the state machine writes. *)
Definition set_machine (cf opf : Z) (st : EyeState) (start : Q)
    (d : EyeDetector) : EyeDetector :=
  mkEyeDetector (baseline d) (isCalibrating d) (TH_LOW d) (TH_HIGH d)
    (smoothedEye d) (smoothingFactor d) cf opf (FRAMES_REQUIRED d)
    st start (refractoryUntil d) (CLOSED_SECONDS d) (REFRACTORY d).

(** The state machine of [processFrame]. *)
Definition state_machine (d : EyeDetector) (now : Q) : EyeDetector :=
  if Qltb (smoothedEye d) (TH_LOW d) then
    let cf := (closedFrames d + 1)%Z in
    if (FRAMES_REQUIRED d <=? cf)%Z && EyeState_eqb (eyeState d) OPEN
    then set_machine cf 0 CLOSED now d
    else set_machine cf 0 (eyeState d) (closedStartTime d) d
  else if Qltb (TH_HIGH d) (smoothedEye d) then
    let opf := (openFrames d + 1)%Z in
    if (FRAMES_REQUIRED d <=? opf)%Z && EyeState_eqb (eyeState d) CLOSED
    then set_machine 0 opf OPEN 0 d
    else set_machine 0 opf (eyeState d) (closedStartTime d) d
  else d.

Definition set_refractoryUntil (v : Q) (d : EyeDetector) : EyeDetector :=
  mkEyeDetector (baseline d) (isCalibrating d) (TH_LOW d) (TH_HIGH d)
    (smoothedEye d) (smoothingFactor d) (closedFrames d) (openFrames d)
    (FRAMES_REQUIRED d) (eyeState d) (closedStartTime d) v
    (CLOSED_SECONDS d) (REFRACTORY d).

(** The guard [eyeState === "CLOSED" && closedStartTime > 0]. *)
Definition closed_timed (d : EyeDetector) : bool :=
  EyeState_eqb (eyeState d) CLOSED && Qltb 0 (closedStartTime d).

(** The alarm block of [processFrame] and the object it returns. *)
Definition check_alarm (d : EyeDetector) (now : Q)
    : EyeDetector * FrameResult :=
  let closedFor := if closed_timed d then now - closedStartTime d else 0 in
  let alarm :=
    closed_timed d
    && Qle_bool (CLOSED_SECONDS d) closedFor
    && Qltb (refractoryUntil d) now in
  let d' := if alarm then set_refractoryUntil (now + REFRACTORY d) d else d in
  (d',
   {| detected := true;
      state := eyeState d';
      eye := smoothedEye d';
      th_low := TH_LOW d';
      th_high := TH_HIGH d';
      baseline_ready := baseline_full d';
      closed_for := closedFor;
      alarm := alarm |}).

(** [processFrame], on the outcome [raw] of the landmark detection, with
    [now] the value of [Date.now() / 1000]. *)
Definition processFrame (d : EyeDetector) (raw : option Q) (now : Q)
    : EyeDetector * FrameResult :=
  match raw with
  | None =>
      (d,
       {| detected := false;
          state := eyeState d;
          eye := smoothedEye d;
          th_low := TH_LOW d;
          th_high := TH_HIGH d;
          baseline_ready := baseline_full d;
          closed_for := 0;
          alarm := false |})
  | Some rawEye =>
      check_alarm (state_machine (calibrate (smooth d rawEye)) now) now
  end.

(** [startCalibration] *)
Definition startCalibration (d : EyeDetector) : EyeDetector :=
  mkEyeDetector [] true (TH_LOW d) (TH_HIGH d)
    (smoothedEye d) (smoothingFactor d) (closedFrames d) (openFrames d)
    (FRAMES_REQUIRED d) (eyeState d) (closedStartTime d)
    (refractoryUntil d) (CLOSED_SECONDS d) (REFRACTORY d).

(** [updateSettings]: each setting given is stored. *)
Definition updateSettings (closedSeconds refractory smoothing : option Q)
    (d : EyeDetector) : EyeDetector :=
  mkEyeDetector (baseline d) (isCalibrating d) (TH_LOW d) (TH_HIGH d)
    (smoothedEye d)
    (match smoothing with Some v => v | None => smoothingFactor d end)
    (closedFrames d) (openFrames d) (FRAMES_REQUIRED d) (eyeState d)
    (closedStartTime d) (refractoryUntil d)
    (match closedSeconds with Some v => v | None => CLOSED_SECONDS d end)
    (match refractory with Some v => v | None => REFRACTORY d end).

(** A session: frames processed in order, each with its clock reading. *)
Fixpoint run (d : EyeDetector) (frames : list (option Q * Q))
    : EyeDetector * list FrameResult :=
  match frames with
  | [] => (d, [])
  | (raw, now) :: rest =>
      let (d1, r) := processFrame d raw now in
      let (d2, rs) := run d1 rest in
      (d2, r :: rs)
  end.

End Client.

(** ** Sessions, sample trackers and session invariants *)

(** Concrete trackers with closed eyes: a calibrated server tracker closed
    since [t = 3] with a confirmed streak, and the client tracker closed
    since [t = 3]. *)
Definition server_closed : Server.Detector :=
  Server.mkDetector 1.2 2.5 0.7 60 5 [] (Some (0.225, 0.255)) (Some 0.1)
    CLOSED (Some 3) None 7.

Definition client_closed : Client.EyeDetector :=
  Client.mkEyeDetector [] false 0.015 0.02 0.01 0.7 7 0 5 CLOSED 3 0 1.2 2.5.

(** A calibrated server tracker and the client tracker with eyes open, each
    with a streak under way. *)
Definition server_open : Server.Detector :=
  Server.mkDetector 1.2 2.5 0.7 60 5 [] (Some (0.225, 0.255)) (Some 0.24)
    OPEN None None 3.

Definition client_open : Client.EyeDetector :=
  Client.mkEyeDetector [] false 0.015 0.02 0.018 0.7 4 0 5 OPEN 0 0 1.2 2.5.


(** The client tracker five frames into a calibration, eyes shut. *)
Definition client_calibrating : Client.EyeDetector :=
  fst (Client.run (Client.startCalibration Client.init)
         [(Some 0, 1); (Some 0, 2); (Some 0, 3); (Some 0, 4); (Some 0, 5)]).

(** The tracker [d] with another calibration buffer and flag. *)
Definition client_with_buffer (b : list Q) (flag : bool)
    (d : Client.EyeDetector) : Client.EyeDetector :=
  Client.mkEyeDetector b flag (Client.TH_LOW d)
    (Client.TH_HIGH d) (Client.smoothedEye d) (Client.smoothingFactor d)
    (Client.closedFrames d) (Client.openFrames d) (Client.FRAMES_REQUIRED d)
    (Client.eyeState d) (Client.closedStartTime d) (Client.refractoryUntil d)
    (Client.CLOSED_SECONDS d) (Client.REFRACTORY d).

(** The tracker [d] with the calibrating flag lowered. *)
Definition client_not_calibrating (d : Client.EyeDetector)
    : Client.EyeDetector :=
  client_with_buffer (Client.baseline d) false d.

(** The server tracker calibrated on sixty samples of 0.3. *)
Definition server_calibrated : Server.Detector :=
  fst (Server.run Server.default (repeat (Some 0.3, 0) 60)).

(** The client tracker after one frame below TH_LOW and one in the dead
    band: eye state OPEN, closed streak 1. *)
Definition client_one_below : Client.EyeDetector :=
  fst (Client.run Client.init [(Some 0, 1); (Some 0, 2); (Some 0.0257, 3)]).

(** The client tracker after its first frame, which is above TH_HIGH. *)
Definition client_first : Client.EyeDetector :=
  fst (Client.processFrame Client.init (Some 0) 1).

(** The frames of a run that feeds the same raw value [v] at the clock
    readings [ts]. *)
Definition constant_frames (v : Q) (ts : list Q) : list (option Q * Q) :=
  map (fun t => (Some v, t)) ts.


(** A server tracker with a two-sample baseline, calibrated on two frames
    of 0.3 and closed by a frame of 0.04 at [t = 3]: its streak is 1, short
    of [FRAMES_REQUIRED = 5]. *)
Definition server_just_closed : Server.Detector :=
  fst (Server.run (Server.init 1.2 2.5 0.7 2 5)
         [(Some 0.3, 1); (Some 0.3, 2); (Some 0.04, 3)]).

(** What holds of a server tracker throughout a session whose operations
    stay within the documented domain (given further down). *)
Definition server_inv (d : Server.Detector) : Prop :=
  0 <= Server.SMOOTHING_FACTOR d /\
  Server.SMOOTHING_FACTOR d <= 1 /\
  (forall p, Server.smoothed_eye d = Some p -> 0 < p) /\
  Forall (fun x => 0 < x) (Server.baseline_buffer d) /\
  (forall lo hi, Server.thresholds d = Some (lo, hi) -> lo < hi).

(** What holds of the client tracker throughout such a session. *)
Definition client_inv (d : Client.EyeDetector) : Prop :=
  0 <= Client.smoothingFactor d /\
  Client.smoothingFactor d <= 1 /\
  0 < Client.smoothedEye d /\
  Forall (fun x => 0 < x) (Client.baseline d) /\
  Client.TH_LOW d < Client.TH_HIGH d.

(** The client session of [client_asleep], continued at [t = 8] and at
    [t = 10.5] with the eyes still shut. *)
Definition client_boundary_results : list Client.FrameResult :=
  snd (Client.run Client.init
         [(Some 0, 1); (Some 0, 2); (Some 0, 3); (Some 0, 4); (Some 0, 5);
          (Some 0, 6); (Some 0, 8); (Some 0, 10.5)]).

(** A server tracker with [CLOSED_SECONDS = 0] and a two-sample baseline,
    calibrated on two samples of 0.3. *)
Definition server_zero_seconds : Server.Detector :=
  fst (Server.run (Server.init 0 2.5 0.7 2 5) [(Some 0.3, 1); (Some 0.3, 2)]).

(** ** The client's calibration read-outs *)

Module ClientApi.

(** [isCalibrationInProgress] *)
Definition isCalibrationInProgress (d : Client.EyeDetector) : bool :=
  Client.isCalibrating d.

(** [getCalibrationProgress]:
    [Math.min((this.baseline.length / 20) * 100, 100)]. *)
Definition getCalibrationProgress (d : Client.EyeDetector) : Q :=
  Qmin (inject_Z (Z.of_nat (length (Client.baseline d))) / 20 * 100) 100.

End ClientApi.

(** ** Operations in sequence *)

(** The public operations of the server tracker. *)
Inductive ServerOp : Type :=
| SFrame (raw : option Q) (now : Q)
| SReset
| SParams (closed_seconds refractory smoothing_factor : option Q).

Definition server_apply (d : Server.Detector) (op : ServerOp)
    : Server.Detector :=
  match op with
  | SFrame raw now => fst (Server.process_frame d raw now)
  | SReset => Server.reset_baseline d
  | SParams cs r sf => Server.update_params cs r sf d
  end.

(** The tracker after the operations [ops], applied in order. *)
Definition server_exec (d : Server.Detector) (ops : list ServerOp)
    : Server.Detector :=
  fold_left server_apply ops d.

(** The public operations of the client tracker. *)
Inductive ClientOp : Type :=
| CFrame (raw : option Q) (now : Q)
| CStartCalibration
| CSettings (closedSeconds refractory smoothingFactor : option Q).

Definition client_apply (d : Client.EyeDetector) (op : ClientOp)
    : Client.EyeDetector :=
  match op with
  | CFrame raw now => fst (Client.processFrame d raw now)
  | CStartCalibration => Client.startCalibration d
  | CSettings cs r sf => Client.updateSettings cs r sf d
  end.

Definition client_exec (d : Client.EyeDetector) (ops : list ClientOp)
    : Client.EyeDetector :=
  fold_left client_apply ops d.

(** The clock reading of a frame operation is positive (as
    [Date.now() / 1000] is). *)
Definition client_clock_positive (op : ClientOp) : Prop :=
  match op with
  | CFrame _ now => 0 < now
  | _ => True
  end.

(** The frame carries a face. *)
Definition has_face (f : option Q * Q) : bool :=
  match fst f with
  | Some _ => true
  | None => false
  end.

(** Frames that all carry a face: raw value and clock reading. *)
Definition face_frames (fs : list (Q * Q)) : list (option Q * Q) :=
  map (fun f => (Some (fst f), snd f)) fs.

(** The second of two optional arguments when given, else the first. *)
Definition later_or {A : Type} (first second : option A) : option A :=
  match second with
  | Some v => Some v
  | None => first
  end.

(** ** The documented domain of the operations *)

(** Raw samples are positive and a smoothing factor, where one is given, is
    a weight in [0, 1].  Neither tracker checks any of this. *)
Definition server_op_in_domain (op : ServerOp) : Prop :=
  match op with
  | SFrame (Some raw) _ => 0 < raw
  | SParams _ _ (Some a) => 0 <= a /\ a <= 1
  | _ => True
  end.

Definition client_op_in_domain (op : ClientOp) : Prop :=
  match op with
  | CFrame (Some raw) _ => 0 < raw
  | CSettings _ _ (Some a) => 0 <= a /\ a <= 1
  | _ => True
  end.

(** Sessions within the domain: two frames of 0.3 for a server tracker
    with a two-sample baseline, and [startCalibration] with one frame of
    0.3 for the client tracker. *)
Definition server_two_frames : list ServerOp :=
  [SFrame (Some 0.3) 1; SFrame (Some 0.3) 2].

Definition client_one_frame : list ClientOp :=
  [CStartCalibration; CFrame (Some 0.3) 1].

(** Sessions outside the domain.  Two frames of raw value 0 for a server
    tracker with a two-sample baseline; the smoothing factor set to 2 and
    then frames of 0.1 and 0.5 for such a server tracker; the smoothing
    factor set to 2 and then a calibration on twenty frames of 0.3 for the
    client tracker. *)
Definition server_zero_samples : list ServerOp :=
  [SFrame (Some 0) 1; SFrame (Some 0) 2].

Definition server_overshoot : list ServerOp :=
  [SParams None None (Some 2); SFrame (Some 0.1) 1; SFrame (Some 0.5) 2].

Definition client_overshoot : list ClientOp :=
  CSettings None None (Some 2) :: CStartCalibration
  :: map (fun t => CFrame (Some 0.3) t) (repeat 1 20).

(** ** The server's WebSocket endpoint ([backend/main.py]) *)

Module ServerApp.
Import String.

(** What decoding the [data] of a frame message yields: an exception
    (no comma, bad base64, no image), or an image on which the landmark
    detection finds a face with the given eye openness, or none. *)
Inductive FrameData : Type :=
| Undecodable
| Image (raw : option Q).

(** The object under the key [params]; each field is what [params.get]
    returns. *)
Record Params : Type := mkParams {
  CLOSED_SECONDS : option Q;
  REFRACTORY : option Q;
  SMOOTHING_FACTOR : option Q
}.

(** A JSON message from the client; [None] is a missing key. *)
Record Message : Type := mkMessage {
  type : option string;
  data : option FrameData;
  cmd : option string;
  params : option Params
}.

(** A JSON message to the client: [{type: "state", payload}] or
    [{type: "info", message}]. *)
Inductive Reply : Type :=
| State (payload : Server.DetectorState)
| Info (message : string).

(** One turn of the loop of [websocket_endpoint]: [None] when the turn
    raises (a missing key, an undecodable frame), which ends the session. *)
Definition handle (detector : Server.Detector) (now : Q) (m : Message)
    : option (Server.Detector * list Reply) :=
  match type m with
  | None => None
  | Some t =>
      if (t =? "frame")%string then
        match data m with
        | None => None
        | Some Undecodable => None
        | Some (Image raw) =>
            Some (fst (Server.process_frame detector raw now),
                  [State (snd (Server.process_frame detector raw now))])
        end
      else if (t =? "cmd")%string then
        match cmd m with
        | None => None
        | Some c =>
            if (c =? "begin_baseline")%string then
              Some (Server.reset_baseline detector,
                    [Info "baseline_started"%string])
            else if (c =? "set_params")%string then
              let p :=
                match params m with
                | Some p => p
                | None => mkParams None None None
                end in
              Some (Server.update_params (CLOSED_SECONDS p) (REFRACTORY p)
                      (SMOOTHING_FACTOR p) detector,
                    [Info "parameters_updated"%string])
            else Some (detector, [])
        end
      else Some (detector, [])
  end.

(** The loop: messages with their clock readings, handled in order until
    one raises or the client disconnects.  It yields the detector, the
    replies sent, and whether the session is still open. *)
Fixpoint serve (detector : Server.Detector) (msgs : list (Message * Q))
    : Server.Detector * list Reply * bool :=
  match msgs with
  | [] => (detector, [], true)
  | (m, now) :: rest =>
      match handle detector now m with
      | None => (detector, [], false)
      | Some (d', out) =>
          let '(d2, replies, open) := serve d' rest in
          (d2, out ++ replies, open)
      end
  end.


(** The messages the front end sends: a frame, and the recalibration
    command. *)
Definition frame_message (d : FrameData) : Message :=
  mkMessage (Some "frame"%string) (Some d) None None.

Definition begin_baseline_message : Message :=
  mkMessage (Some "cmd"%string) None (Some "begin_baseline"%string) None.

(** The [set_params] command of the protocol. *)
Definition set_params_message (p : option Params) : Message :=
  mkMessage (Some "cmd"%string) None (Some "set_params"%string) p.

End ServerApp.

(** ** The detection page's log ([Detect.tsx]) *)

Module DetectPage.
Import String.

(** The entry [addLog] builds from the time of day and the message. *)
Definition entry (timestamp message : string) : string :=
  ("[" ++ timestamp ++ "] " ++ message)%string.

(** [addLog]: [[entry, ...prev].slice(0, 10)]. *)
Definition addLog (timestamp message : string) (prev : list string)
    : list string :=
  firstn 10 (entry timestamp message :: prev).

(** The log after the calls [addLog] for the given (time, message) pairs,
    in order. *)
Definition logs_after (calls : list (string * string)) (prev : list string)
    : list string :=
  fold_left (fun l c => addLog (fst c) (snd c) l) calls prev.

End DetectPage.

(** The frame messages of a session: each frame decoded to an image with
    the outcome of its landmark detection. *)
Definition frame_messages (frames : list (option Q * Q))
    : list (ServerApp.Message * Q) :=
  map (fun f => (ServerApp.frame_message (ServerApp.Image (fst f)), snd f))
    frames.

(** ** The baseline arithmetic in binary64 *)

(** The trackers compute in IEEE 754 binary64 ([float] in Python, [number]
    in TypeScript).  This module gives the smoothing step, the buffer of a
    calibration and its median in that arithmetic, to show where it parts
    from the exact one. *)
Module Binary64.
Import PrimFloat.
#[local] Open Scope float_scope.
#[local] Set Warnings "-inexact-float".



(** Ascending numeric sort. *)
Fixpoint insert (x : float) (l : list float) : list float :=
  match l with
  | [] => [x]
  | y :: l' => if x <=? y then x :: l else y :: insert x l'
  end.

Fixpoint sort (l : list float) : list float :=
  match l with
  | [] => []
  | x :: l' => insert x (sort l')
  end.





(** The thresholds set from the median [m] of a full buffer. *)
Definition thresholds (m : float) : float * float := (m * 0.75, m * 0.85).





End Binary64.

(** ** Comparisons and sorting *)

Lemma Qltb_true_iff (x y : Q) : Qltb x y = true <-> x < y.
Proof.
  unfold Qltb. rewrite negb_true_iff. split.
  - intros H. apply Qnot_le_lt. intros Hle.
    apply Qle_bool_iff in Hle. congruence.
  - intros H. destruct (Qle_bool y x) eqn:E; [| reflexivity].
    apply Qle_bool_iff in E. exfalso. exact (Qlt_not_le _ _ H E).
Qed.

Lemma Qltb_false_iff (x y : Q) : Qltb x y = false <-> y <= x.
Proof.
  unfold Qltb. rewrite negb_false_iff. apply Qle_bool_iff.
Qed.

Lemma EyeState_eqb_eq (a b : EyeState) : EyeState_eqb a b = true <-> a = b.
Proof. destruct a, b; simpl; split; congruence. Qed.

Lemma insert_length (x : Q) (l : list Q) : length (insert x l) = S (length l).
Proof.
  induction l as [| y l IH]; simpl; [reflexivity |].
  destruct (Qle_bool x y); simpl; [reflexivity | now rewrite IH].
Qed.

Lemma sort_length (l : list Q) : length (sort l) = length l.
Proof.
  induction l as [| x l IH]; simpl; [reflexivity |].
  now rewrite insert_length, IH.
Qed.

Lemma insert_Forall (P : Q -> Prop) (x : Q) (l : list Q) :
  P x -> Forall P l -> Forall P (insert x l).
Proof.
  intros Hx Hl. induction Hl as [| y l Hy Hl IH]; simpl.
  - constructor; [exact Hx | constructor].
  - destruct (Qle_bool x y); repeat constructor; assumption.
Qed.

Lemma sort_Forall (P : Q -> Prop) (l : list Q) :
  Forall P l -> Forall P (sort l).
Proof.
  induction 1 as [| x l Hx Hl IH]; simpl; [constructor |].
  now apply insert_Forall.
Qed.

(** Any element of the sorted data, taken at a valid index, has every
    property that all the data have. *)
Lemma sort_nth (P : Q -> Prop) (l : list Q) (i : nat) :
  Forall P l -> (i < length l)%nat -> P (nth i (sort l) 0).
Proof.
  intros Hl Hi. apply sort_Forall in Hl.
  rewrite Forall_forall in Hl. apply Hl, nth_In.
  now rewrite sort_length.
Qed.

Lemma half_lt (n : nat) : (0 < n)%nat -> (n / 2 < n)%nat.
Proof. intros H. apply Nat.div_lt; lia. Qed.

(** ** No face detected *)

(** C8.  A frame in which no face is detected returns [detected = false]
    and leaves the whole tracker as it was (eye state, thresholds, smoothed
    signal, calibration buffer, streak counters, closed timer); repeated any
    number of times, at any clock readings, it gives the same result each
    time.  This holds for the server and for the client tracker. *)
Theorem no_face_idempotent :
  (forall (d : Server.Detector) (now : Q),
      fst (Server.process_frame d None now) = d /\
      Server.detected (snd (Server.process_frame d None now)) = false) /\
  (forall (d : Server.Detector) (t0 : Q) (ts : list Q),
      Server.run d (map (fun t => (None, t)) ts)
      = (d, map (fun _ => snd (Server.process_frame d None t0)) ts)) /\
  (forall (d : Client.EyeDetector) (now : Q),
      fst (Client.processFrame d None now) = d /\
      Client.detected (snd (Client.processFrame d None now)) = false) /\
  (forall (d : Client.EyeDetector) (t0 : Q) (ts : list Q),
      Client.run d (map (fun t => (None, t)) ts)
      = (d, map (fun _ => snd (Client.processFrame d None t0)) ts)).
Proof.
  repeat split.
  - intros d t0 ts. induction ts as [| t ts IH]; simpl; [reflexivity |].
    simpl in IH. rewrite IH. reflexivity.
  - intros d t0 ts. induction ts as [| t ts IH]; simpl; [reflexivity |].
    simpl in IH. rewrite IH. reflexivity.
Qed.

(** ** Facts on the parts of the server's [process_frame] *)

Module ServerFacts.
Import Server.

(** The alarm block writes [last_alarm_time] only. *)
Lemma check_alarm_writes (d : Detector) (s lo hi now : Q) :
  fst (check_alarm d s lo hi now) = d \/
  (alarm (snd (check_alarm d s lo hi now)) = true /\
   fst (check_alarm d s lo hi now) = set_last_alarm_time (Some now) d).
Proof.
  unfold check_alarm. simpl.
  destruct (closed_confirmed d && _ && refractory_over d now); simpl; auto.
Qed.

Lemma check_alarm_current_state (d : Detector) (s lo hi now : Q) :
  current_state (fst (check_alarm d s lo hi now)) = current_state d.
Proof.
  destruct (check_alarm_writes d s lo hi now) as [-> | [_ ->]]; reflexivity.
Qed.

Lemma check_alarm_closed_start (d : Detector) (s lo hi now : Q) :
  closed_start (fst (check_alarm d s lo hi now)) = closed_start d.
Proof.
  destruct (check_alarm_writes d s lo hi now) as [-> | [_ ->]]; reflexivity.
Qed.

Lemma check_alarm_consecutive (d : Detector) (s lo hi now : Q) :
  consecutive_detections (fst (check_alarm d s lo hi now))
  = consecutive_detections d.
Proof.
  destruct (check_alarm_writes d s lo hi now) as [-> | [_ ->]]; reflexivity.
Qed.

Lemma check_alarm_thresholds (d : Detector) (s lo hi now : Q) :
  thresholds (fst (check_alarm d s lo hi now)) = thresholds d.
Proof.
  destruct (check_alarm_writes d s lo hi now) as [-> | [_ ->]]; reflexivity.
Qed.

Lemma check_alarm_confirmed (d : Detector) (s lo hi now : Q) :
  closed_confirmed (fst (check_alarm d s lo hi now)) = closed_confirmed d.
Proof.
  destruct (check_alarm_writes d s lo hi now) as [-> | [_ ->]]; reflexivity.
Qed.

(** The state machine leaves a CLOSED tracker CLOSED with its closed-start
    time, or opens it. *)
Lemma state_machine_from_closed (d : Detector) (s lo hi now : Q) :
  current_state d = CLOSED ->
  current_state (state_machine d s lo hi now) = OPEN \/
  (current_state (state_machine d s lo hi now) = CLOSED /\
   closed_start (state_machine d s lo hi now) = closed_start d).
Proof.
  intros Hst. unfold state_machine. rewrite Hst.
  destruct (Qltb s lo); [| destruct (Qltb hi s)]; simpl; auto.
Qed.

(** On a calibrated tracker a frame with a face runs the state machine and
    then the alarm block. *)
Lemma process_frame_calibrated (d : Detector) (raw now lo hi : Q) :
  thresholds d = Some (lo, hi) ->
  process_frame d (Some raw) now
  = check_alarm
      (state_machine (set_smoothed_eye (Some (smooth d raw)) d)
         (smooth d raw) lo hi now)
      (smooth d raw) lo hi now.
Proof.
  intros H. unfold process_frame. simpl. rewrite H. reflexivity.
Qed.

(** On an uncalibrated tracker it runs the baseline branch. *)
Lemma process_frame_uncalibrated (d : Detector) (raw now : Q) :
  thresholds d = None ->
  process_frame d (Some raw) now
  = (calibrate (set_smoothed_eye (Some (smooth d raw)) d) (smooth d raw),
     _get_current_state
       (calibrate (set_smoothed_eye (Some (smooth d raw)) d) (smooth d raw))
       true).
Proof.
  intros H. unfold process_frame. simpl. rewrite H. reflexivity.
Qed.

End ServerFacts.

(** ** Facts on the parts of the client's [processFrame] *)

Module ClientFacts.
Import Client.

(** The alarm block writes [refractoryUntil] only. *)
Lemma check_alarm_effect (d : EyeDetector) (now : Q) :
  fst (check_alarm d now) = d \/
  (alarm (snd (check_alarm d now)) = true /\
   fst (check_alarm d now) = set_refractoryUntil (now + REFRACTORY d) d).
Proof.
  unfold check_alarm. simpl.
  destruct (closed_timed d && _ && Qltb (refractoryUntil d) now); simpl; auto.
Qed.

Lemma check_alarm_eyeState (d : EyeDetector) (now : Q) :
  eyeState (fst (check_alarm d now)) = eyeState d.
Proof.
  destruct (check_alarm_effect d now) as [-> | [_ ->]]; reflexivity.
Qed.

Lemma check_alarm_closedStartTime (d : EyeDetector) (now : Q) :
  closedStartTime (fst (check_alarm d now)) = closedStartTime d.
Proof.
  destruct (check_alarm_effect d now) as [-> | [_ ->]]; reflexivity.
Qed.

Lemma check_alarm_counters (d : EyeDetector) (now : Q) :
  closedFrames (fst (check_alarm d now)) = closedFrames d /\
  openFrames (fst (check_alarm d now)) = openFrames d.
Proof.
  destruct (check_alarm_effect d now) as [-> | [_ ->]]; split; reflexivity.
Qed.

Lemma check_alarm_signal (d : EyeDetector) (now : Q) :
  smoothedEye (fst (check_alarm d now)) = smoothedEye d /\
  TH_LOW (fst (check_alarm d now)) = TH_LOW d /\
  TH_HIGH (fst (check_alarm d now)) = TH_HIGH d.
Proof.
  destruct (check_alarm_effect d now) as [-> | [_ ->]];
    repeat split; reflexivity.
Qed.

(** The state machine writes neither the signal nor the thresholds. *)
Lemma state_machine_signal (d : EyeDetector) (now : Q) :
  smoothedEye (state_machine d now) = smoothedEye d /\
  TH_LOW (state_machine d now) = TH_LOW d /\
  TH_HIGH (state_machine d now) = TH_HIGH d.
Proof.
  unfold state_machine.
  destruct (Qltb (smoothedEye d) (TH_LOW d));
    [| destruct (Qltb (TH_HIGH d) (smoothedEye d))];
    repeat match goal with
    | |- context [if ?c then _ else _] => destruct c
    end; repeat split; reflexivity.
Qed.

(** The state machine leaves a CLOSED tracker CLOSED with its closed-start
    time, or opens it. *)
Lemma state_machine_when_closed (d : EyeDetector) (now : Q) :
  eyeState d = CLOSED ->
  eyeState (state_machine d now) = OPEN \/
  (eyeState (state_machine d now) = CLOSED /\
   closedStartTime (state_machine d now) = closedStartTime d).
Proof.
  intros Hst. unfold state_machine. rewrite Hst. simpl.
  rewrite andb_false_r, andb_true_r.
  destruct (Qltb (smoothedEye d) (TH_LOW d));
    [| destruct (Qltb (TH_HIGH d) (smoothedEye d))]; simpl; auto.
  destruct (FRAMES_REQUIRED d <=? openFrames d + 1)%Z; simpl; auto.
Qed.

(** The baseline block writes the buffer, the flag and the thresholds. *)
Lemma calibrate_machine (d : EyeDetector) :
  eyeState (calibrate d) = eyeState d /\
  closedStartTime (calibrate d) = closedStartTime d /\
  closedFrames (calibrate d) = closedFrames d /\
  openFrames (calibrate d) = openFrames d /\
  smoothedEye (calibrate d) = smoothedEye d.
Proof.
  unfold calibrate. destruct (isCalibrating d);
    [destruct (20 <=? length (baseline d ++ [smoothedEye d]))%nat |];
    simpl; repeat split; reflexivity.
Qed.

Lemma calibrate_config (d : EyeDetector) :
  FRAMES_REQUIRED (calibrate d) = FRAMES_REQUIRED d /\
  refractoryUntil (calibrate d) = refractoryUntil d /\
  CLOSED_SECONDS (calibrate d) = CLOSED_SECONDS d /\
  REFRACTORY (calibrate d) = REFRACTORY d.
Proof.
  unfold calibrate. destruct (isCalibrating d);
    [destruct (20 <=? length (baseline d ++ [smoothedEye d]))%nat |];
    simpl; repeat split; reflexivity.
Qed.

(** The state machine writes the counters, the eye state and the
    closed-start time only. *)
Lemma state_machine_config (d : EyeDetector) (now : Q) :
  FRAMES_REQUIRED (state_machine d now) = FRAMES_REQUIRED d /\
  isCalibrating (state_machine d now) = isCalibrating d /\
  baseline (state_machine d now) = baseline d /\
  refractoryUntil (state_machine d now) = refractoryUntil d /\
  CLOSED_SECONDS (state_machine d now) = CLOSED_SECONDS d /\
  REFRACTORY (state_machine d now) = REFRACTORY d.
Proof.
  unfold state_machine.
  destruct (Qltb (smoothedEye d) (TH_LOW d));
    [| destruct (Qltb (TH_HIGH d) (smoothedEye d))];
    repeat match goal with
    | |- context [if ?c then _ else _] => destruct c
    end; repeat split; reflexivity.
Qed.

Lemma calibrate_idle (d : EyeDetector) :
  isCalibrating d = false -> calibrate d = d.
Proof. intros H. unfold calibrate. now rewrite H. Qed.

End ClientFacts.

(** ** No face while the eyes are closed *)

(** On the server a closure that is not yet confirmed reports no duration.
    The tracker, calibrated on two frames of 0.3, is closed by a frame of
    0.04 at [t = 3] with a streak of 1, short of [FRAMES_REQUIRED = 5].
    After a frame without a face at [t = 4], the frame of 0.04 at [t = 5]
    leaves the state CLOSED and reports [closed_for = 0], not [5 - 3]. *)
Lemma server_unconfirmed_closure_reports_zero :
  Server.current_state server_just_closed = CLOSED /\
  Server.closed_start server_just_closed = Some 3 /\
  let d1 := fst (Server.process_frame server_just_closed None 4) in
  let d2 := fst (Server.process_frame d1 (Some 0.04) 5) in
  let r2 := snd (Server.process_frame d1 (Some 0.04) 5) in
  Server.current_state d2 = CLOSED /\
  Server.closed_start d2 = Some 3 /\
  Server.detected r2 = true /\
  Server.closed_for r2 == 0 /\
  ~ Server.closed_for r2 == 5 - 3.
Proof.
  vm_compute. repeat split; discriminate.
Qed.

(** C10, amended.  With the eye state CLOSED and a closed-start time
    recorded, a frame without a face reports [closed_for = 0] but keeps the
    closed-start time, and a following frame with a face that leaves the
    state CLOSED keeps it too.  The client then reports the time since the
    original closure.  The server reports it only when the tracker was
    calibrated before that frame and the closure is confirmed (the streak
    has reached [FRAMES_REQUIRED] and the closed-start time is not 0);
    otherwise it reports 0. *)
Theorem no_face_keeps_closed_timer :
  (forall (d : Server.Detector) (t0 t : Q),
      Server.current_state d = CLOSED ->
      Server.closed_start d = Some t0 ->
      let d1 := fst (Server.process_frame d None t) in
      let r1 := snd (Server.process_frame d None t) in
      Server.closed_for r1 == 0 /\
      Server.current_state d1 = CLOSED /\
      Server.closed_start d1 = Some t0 /\
      forall (raw t' : Q),
        let d2 := fst (Server.process_frame d1 (Some raw) t') in
        let r2 := snd (Server.process_frame d1 (Some raw) t') in
        (Server.current_state d2 = CLOSED ->
         Server.closed_start d2 = Some t0) /\
        Server.closed_for r2
        = (if Server.is_some (Server.thresholds d)
              && Server.closed_confirmed d2
           then t' - t0 else 0.0)) /\
  (forall (d : Client.EyeDetector) (t : Q),
      Client.eyeState d = CLOSED ->
      0 < Client.closedStartTime d ->
      let d1 := fst (Client.processFrame d None t) in
      let r1 := snd (Client.processFrame d None t) in
      Client.closed_for r1 == 0 /\
      Client.eyeState d1 = CLOSED /\
      Client.closedStartTime d1 = Client.closedStartTime d /\
      forall (raw t' : Q),
        let d2 := fst (Client.processFrame d1 (Some raw) t') in
        let r2 := snd (Client.processFrame d1 (Some raw) t') in
        Client.eyeState d2 = CLOSED ->
        Client.closedStartTime d2 = Client.closedStartTime d /\
        Client.closed_for r2 = t' - Client.closedStartTime d).
Proof.
  split.
  - intros d t0 t Hst Hcs. cbv zeta.
    change (fst (Server.process_frame d None t)) with d.
    split; [reflexivity |]. split; [exact Hst |]. split; [exact Hcs |].
    intros raw t'.
    destruct (Server.thresholds d) as [[lo hi] |] eqn:E.
    + rewrite (ServerFacts.process_frame_calibrated d raw t' lo hi E).
      set (m := Server.state_machine _ _ lo hi t').
      rewrite ServerFacts.check_alarm_confirmed,
        ServerFacts.check_alarm_closed_start,
        ServerFacts.check_alarm_current_state.
      assert (Hm : Server.current_state m = CLOSED ->
                   Server.closed_start m = Some t0).
      { intros Hc.
        destruct (ServerFacts.state_machine_from_closed
                    (Server.set_smoothed_eye
                       (Some (Server.smooth d raw)) d)
                    (Server.smooth d raw) lo hi t' Hst) as [Ho | [_ Hk]].
        - fold m in Ho. rewrite Ho in Hc. discriminate.
        - fold m in Hk. rewrite Hk. exact Hcs. }
      split; [exact Hm |].
      unfold Server.check_alarm. cbn [snd Server.closed_for Server.is_some
                                      andb].
      destruct (Server.closed_confirmed m) eqn:Hc; [| reflexivity].
      rewrite Hm; [reflexivity |].
      unfold Server.closed_confirmed in Hc.
      destruct (Server.current_state m); [discriminate | reflexivity].
    + rewrite (ServerFacts.process_frame_uncalibrated d raw t' E).
      cbn [fst snd Server.is_some andb Server._get_current_state
           Server.closed_for].
      split; [| reflexivity].
      intros _. unfold Server.calibrate.
      destruct (_ <=? _)%Z; exact Hcs.
  - intros d t Hst Hpos. cbv zeta.
    change (fst (Client.processFrame d None t)) with d.
    split; [reflexivity |]. split; [exact Hst |]. split; [reflexivity |].
    intros raw t'. unfold Client.processFrame.
    set (c := Client.calibrate (Client.smooth d raw)).
    rewrite ClientFacts.check_alarm_eyeState,
      ClientFacts.check_alarm_closedStartTime.
    intros Hc.
    assert (Hcst : Client.eyeState c = CLOSED).
    { unfold c.
      destruct (ClientFacts.calibrate_machine (Client.smooth d raw))
        as [-> _]. exact Hst. }
    assert (Hcstart : Client.closedStartTime c = Client.closedStartTime d).
    { unfold c.
      destruct (ClientFacts.calibrate_machine (Client.smooth d raw))
        as [_ [-> _]]. reflexivity. }
    destruct (ClientFacts.state_machine_when_closed c t' Hcst)
      as [Ho | [_ Hk]]; [congruence |].
    rewrite Hk, Hcstart. split; [reflexivity |].
    unfold Client.check_alarm, Client.closed_timed. simpl.
    rewrite Hc, Hk, Hcstart. simpl.
    apply Qltb_true_iff in Hpos. rewrite Hpos. reflexivity.
Qed.

Lemma no_face_keeps_closed_timer_witness :
  Server.closed_for
    (snd (Server.process_frame
            (fst (Server.process_frame server_closed None 4)) (Some 0.1) 5))
  = 5 - 3 /\
  Client.closed_for
    (snd (Client.processFrame
            (fst (Client.processFrame client_closed None 4)) (Some 0.01) 5))
  = 5 - 3.
Proof.
  split.
  - exact (proj2 (proj2 (proj2 (proj2
             (proj1 no_face_keeps_closed_timer server_closed 3 4
                eq_refl eq_refl))) 0.1 5)).
  - apply (proj2 no_face_keeps_closed_timer client_closed 4
             eq_refl eq_refl).
    reflexivity.
Defined.

(** ** The dead band *)

Lemma server_dead_band_idle (d : Server.Detector) (s lo hi now : Q) :
  lo <= s -> s <= hi -> Server.state_machine d s lo hi now = d.
Proof.
  intros Hlo Hhi. unfold Server.state_machine.
  apply Qltb_false_iff in Hlo, Hhi. now rewrite Hlo, Hhi.
Qed.

Lemma client_dead_band_idle (d : Client.EyeDetector) (now : Q) :
  Client.TH_LOW d <= Client.smoothedEye d ->
  Client.smoothedEye d <= Client.TH_HIGH d ->
  Client.state_machine d now = d.
Proof.
  intros Hlo Hhi. unfold Client.state_machine.
  apply Qltb_false_iff in Hlo, Hhi. now rewrite Hlo, Hhi.
Qed.

(** C4.  On a calibrated tracker, a frame whose updated smoothed signal
    lies strictly between TH_LOW and TH_HIGH changes neither the eye state
    nor a streak counter, whatever the counters were.  (The server keeps one
    streak counter, the client two.) *)
Theorem dead_band_holds_state :
  (forall (d : Server.Detector) (raw now lo hi : Q),
      Server.thresholds d = Some (lo, hi) ->
      let d' := fst (Server.process_frame d (Some raw) now) in
      let r := snd (Server.process_frame d (Some raw) now) in
      lo < Server.eye_openness r ->
      Server.eye_openness r < hi ->
      Server.current_state d' = Server.current_state d /\
      Server.state r = Server.current_state d /\
      Server.consecutive_detections d' = Server.consecutive_detections d) /\
  (forall (d : Client.EyeDetector) (raw now : Q),
      Client.isCalibrating d = false ->
      let d' := fst (Client.processFrame d (Some raw) now) in
      let r := snd (Client.processFrame d (Some raw) now) in
      Client.TH_LOW d < Client.smoothedEye d' ->
      Client.smoothedEye d' < Client.TH_HIGH d ->
      Client.eyeState d' = Client.eyeState d /\
      Client.state r = Client.eyeState d /\
      Client.closedFrames d' = Client.closedFrames d /\
      Client.openFrames d' = Client.openFrames d).
Proof.
  split.
  - intros d raw now lo hi Hth. cbv zeta.
    rewrite (ServerFacts.process_frame_calibrated d raw now lo hi Hth).
    rewrite ServerFacts.check_alarm_current_state,
      ServerFacts.check_alarm_consecutive.
    unfold Server.check_alarm at 1 2 3. simpl Server.eye_openness.
    simpl Server.state. intros Hlo Hhi.
    rewrite server_dead_band_idle by (apply Qlt_le_weak; assumption).
    repeat split.
    match goal with
    | |- context [if ?c then _ else _] => destruct c
    end; reflexivity.
  - intros d raw now Hcal. cbv zeta. unfold Client.processFrame.
    rewrite (ClientFacts.calibrate_idle (Client.smooth d raw) Hcal).
    destruct (ClientFacts.check_alarm_signal
                (Client.state_machine (Client.smooth d raw) now) now)
      as [-> _].
    destruct (ClientFacts.state_machine_signal (Client.smooth d raw) now)
      as [-> _].
    intros Hlo Hhi.
    rewrite client_dead_band_idle by (apply Qlt_le_weak; assumption).
    rewrite ClientFacts.check_alarm_eyeState.
    destruct (ClientFacts.check_alarm_counters (Client.smooth d raw) now)
      as [-> ->].
    repeat split.
    unfold Client.check_alarm. simpl Client.state.
    match goal with
    | |- context [if ?c then _ else _] => destruct c
    end; reflexivity.
Qed.

Lemma dead_band_holds_state_witness :
  (Server.current_state
     (fst (Server.process_frame server_open (Some 0.24) 10)) = OPEN /\
   Server.consecutive_detections
     (fst (Server.process_frame server_open (Some 0.24) 10)) = 3%Z) /\
  (Client.eyeState
     (fst (Client.processFrame client_open (Some 0.018) 10)) = OPEN /\
   Client.closedFrames
     (fst (Client.processFrame client_open (Some 0.018) 10)) = 4%Z).
Proof.
  split.
  - assert (Hlo : 0.225 < Server.eye_openness
                    (snd (Server.process_frame server_open (Some 0.24) 10)))
      by reflexivity.
    assert (Hhi : Server.eye_openness
                    (snd (Server.process_frame server_open (Some 0.24) 10))
                  < 0.255) by reflexivity.
    destruct (proj1 dead_band_holds_state server_open 0.24 10 0.225 0.255
                eq_refl Hlo Hhi) as [H1 [_ H2]].
    split; [exact H1 | exact H2].
  - assert (Hlo : Client.TH_LOW client_open < Client.smoothedEye
                    (fst (Client.processFrame client_open (Some 0.018) 10)))
      by reflexivity.
    assert (Hhi : Client.smoothedEye
                    (fst (Client.processFrame client_open (Some 0.018) 10))
                  < Client.TH_HIGH client_open) by reflexivity.
    destruct (proj2 dead_band_holds_state client_open 0.018 10
                eq_refl Hlo Hhi) as [H1 [_ [H2 _]]].
    split; [exact H1 | exact H2].
Defined.

(** ** Recalibration *)



(** ** Smoothing *)

Lemma server_calibrate_smoothed (d : Server.Detector) (s : Q) :
  Server.smoothed_eye (Server.calibrate d s) = Server.smoothed_eye d.
Proof.
  unfold Server.calibrate.
  destruct (_ <=? _)%Z; reflexivity.
Qed.

Lemma server_state_machine_smoothed (d : Server.Detector) (s lo hi now : Q) :
  Server.smoothed_eye (Server.state_machine d s lo hi now)
  = Server.smoothed_eye d.
Proof.
  unfold Server.state_machine.
  destruct (Qltb s lo); [destruct (Server.current_state d) |
                         destruct (Qltb hi s)]; reflexivity.
Qed.

Lemma server_check_alarm_smoothed (d : Server.Detector) (s lo hi now : Q) :
  Server.smoothed_eye (fst (Server.check_alarm d s lo hi now))
  = Server.smoothed_eye d.
Proof.
  destruct (ServerFacts.check_alarm_writes d s lo hi now) as [-> | [_ ->]];
    reflexivity.
Qed.

(** Every frame with a face stores the smoothed value [smooth d raw]. *)
Lemma server_process_frame_smoothed (d : Server.Detector) (raw now : Q) :
  Server.smoothed_eye (fst (Server.process_frame d (Some raw) now))
  = Some (Server.smooth d raw).
Proof.
  destruct (Server.thresholds d) as [[lo hi] |] eqn:E.
  - rewrite (ServerFacts.process_frame_calibrated d raw now lo hi E).
    now rewrite server_check_alarm_smoothed, server_state_machine_smoothed.
  - rewrite (ServerFacts.process_frame_uncalibrated d raw now E).
    simpl fst. now rewrite server_calibrate_smoothed.
Qed.

Lemma client_process_frame_smoothed (d : Client.EyeDetector) (raw now : Q) :
  Client.smoothedEye (fst (Client.processFrame d (Some raw) now))
  = Client.smoothingFactor d * Client.smoothedEye d
    + (1 - Client.smoothingFactor d) * raw.
Proof.
  unfold Client.processFrame.
  destruct (ClientFacts.check_alarm_signal
              (Client.state_machine
                 (Client.calibrate (Client.smooth d raw)) now) now)
    as [-> _].
  destruct (ClientFacts.state_machine_signal
              (Client.calibrate (Client.smooth d raw)) now) as [-> _].
  destruct (ClientFacts.calibrate_machine (Client.smooth d raw))
    as [_ [_ [_ [_ ->]]]].
  reflexivity.
Qed.

(** The client's first frame with a face, raw value 0.3: the smoothed
    signal is 0.7 * 0.03 + 0.3 * 0.3 = 0.111, not 0.3. *)
Lemma client_first_sample_is_blended :
  Client.smoothedEye (fst (Client.processFrame Client.init (Some 0.3) 1))
  == 0.111 /\
  ~ Client.smoothedEye (fst (Client.processFrame Client.init (Some 0.3) 1))
    == 0.3.
Proof.
  split; vm_compute; congruence.
Qed.

(** C7, amended.  On the server, the first frame with a face (no smoothed
    value yet) sets the smoothed signal to the raw value, and every later
    one to [SMOOTHING_FACTOR * previous + (1 - SMOOTHING_FACTOR) * raw].
    The client has no first-sample case: its smoothed signal starts at 0.03
    and every frame with a face, the first too, applies the blend. *)
Theorem smoothing_update :
  (forall (d : Server.Detector) (raw now : Q),
      Server.smoothed_eye d = None ->
      Server.smoothed_eye (fst (Server.process_frame d (Some raw) now))
      = Some raw) /\
  (forall (d : Server.Detector) (prev raw now : Q),
      Server.smoothed_eye d = Some prev ->
      Server.smoothed_eye (fst (Server.process_frame d (Some raw) now))
      = Some (Server.SMOOTHING_FACTOR d * prev
              + (1 - Server.SMOOTHING_FACTOR d) * raw)) /\
  (forall (cs r sf : Q) (bf fr : Z),
      Server.smoothed_eye (Server.init cs r sf bf fr) = None) /\
  Client.smoothedEye Client.init = 0.03 /\
  (forall (d : Client.EyeDetector) (raw now : Q),
      Client.smoothedEye (fst (Client.processFrame d (Some raw) now))
      = Client.smoothingFactor d * Client.smoothedEye d
        + (1 - Client.smoothingFactor d) * raw).
Proof.
  split; [| split; [| split; [| split]]].
  - intros d raw now H. rewrite server_process_frame_smoothed.
    unfold Server.smooth. now rewrite H.
  - intros d prev raw now H. rewrite server_process_frame_smoothed.
    unfold Server.smooth. now rewrite H.
  - reflexivity.
  - reflexivity.
  - apply client_process_frame_smoothed.
Qed.

Lemma smoothing_update_witness :
  Server.smoothed_eye (fst (Server.process_frame Server.default (Some 0.3) 1))
  = Some 0.3 /\
  Server.smoothed_eye (fst (Server.process_frame server_open (Some 0.3) 1))
  = Some (0.7 * 0.24 + (1 - 0.7) * 0.3).
Proof.
  split.
  - apply (proj1 smoothing_update Server.default 0.3 1). reflexivity.
  - apply (proj1 (proj2 smoothing_update) server_open 0.24 0.3 1).
    reflexivity.
Defined.

(** ** Frames during calibration *)

(** While the client calibrates (buffer not yet full), the sixth frame
    below TH_LOW closes the eye state, and a later frame raises the alarm
    with a non-zero closed duration. *)
Lemma client_calibrating_runs_machine :
  Client.isCalibrating client_calibrating = true /\
  Client.eyeState client_calibrating = OPEN /\
  Client.baseline_ready
    (snd (Client.processFrame client_calibrating (Some 0) 6)) = false /\
  Client.eyeState
    (fst (Client.processFrame client_calibrating (Some 0) 6)) <> OPEN /\
  Client.alarm
    (snd (Client.processFrame
            (fst (Client.processFrame client_calibrating (Some 0) 6))
            (Some 0) 8)) = true /\
  Client.baseline_ready
    (snd (Client.processFrame
            (fst (Client.processFrame client_calibrating (Some 0) 6))
            (Some 0) 8)) = false /\
  ~ Client.closed_for
      (snd (Client.processFrame
              (fst (Client.processFrame client_calibrating (Some 0) 6))
              (Some 0) 8)) == 0.
Proof.
  vm_compute. repeat split; discriminate.
Qed.

(** The state machine and the alarm block read neither the buffer nor the
    flag. *)
Lemma client_state_machine_buffer (b : list Q) (flag : bool)
    (d : Client.EyeDetector) (now : Q) :
  Client.state_machine (client_with_buffer b flag d) now
  = client_with_buffer b flag (Client.state_machine d now).
Proof.
  destruct d. unfold Client.state_machine, client_with_buffer.
  cbn [Client.smoothedEye Client.TH_LOW Client.TH_HIGH Client.closedFrames
       Client.openFrames Client.FRAMES_REQUIRED Client.eyeState].
  destruct (Qltb _ _); [| destruct (Qltb _ _)];
    try destruct (_ && _); reflexivity.
Qed.

Lemma client_check_alarm_buffer (b : list Q) (flag : bool)
    (d : Client.EyeDetector) (now : Q) :
  fst (Client.check_alarm (client_with_buffer b flag d) now)
  = client_with_buffer b flag (fst (Client.check_alarm d now)) /\
  (Client.baseline_full (client_with_buffer b flag d)
   = Client.baseline_full d ->
   snd (Client.check_alarm (client_with_buffer b flag d) now)
   = snd (Client.check_alarm d now)).
Proof.
  destruct d. unfold Client.check_alarm, client_with_buffer,
    Client.closed_timed, Client.baseline_full.
  cbn [Client.smoothedEye Client.TH_LOW Client.TH_HIGH Client.eyeState
       Client.closedStartTime Client.refractoryUntil Client.CLOSED_SECONDS
       Client.REFRACTORY Client.baseline fst snd].
  destruct (_ && _ && _); cbn; split; try reflexivity; intros ->; reflexivity.
Qed.

(** C5, amended.  On the server, a frame with a face on an uncalibrated
    tracker returns [detected = true], [alarm = false], [closed_for = 0] and
    leaves the eye state unchanged; [baseline_ready] is false unless this
    frame fills the buffer, and true on the frame that fills it.  On the
    client, a frame with a face during calibration that does not fill the
    buffer returns [detected = true] and [baseline_ready = false] and keeps
    the thresholds, but the state machine and the alarm run as when not
    calibrating: the result is the one the same tracker gives with the
    calibrating flag lowered. *)
Theorem frame_while_uncalibrated :
  (forall (d : Server.Detector) (raw now : Q),
      Server.thresholds d = None ->
      let d' := fst (Server.process_frame d (Some raw) now) in
      let r := snd (Server.process_frame d (Some raw) now) in
      Server.detected r = true /\
      Server.alarm r = false /\
      Server.closed_for r == 0 /\
      Server.state r = Server.current_state d /\
      Server.current_state d' = Server.current_state d /\
      Server.baseline_ready r
      = (Server.BASELINE_FRAMES d
         <=? Z.of_nat (S (length (Server.baseline_buffer d))))%Z) /\
  (forall (d : Client.EyeDetector) (raw now : Q),
      Client.isCalibrating d = true ->
      (S (length (Client.baseline d)) < 20)%nat ->
      let d' := fst (Client.processFrame d (Some raw) now) in
      let r := snd (Client.processFrame d (Some raw) now) in
      Client.detected r = true /\
      Client.baseline_ready r = false /\
      Client.TH_LOW d' = Client.TH_LOW d /\
      Client.TH_HIGH d' = Client.TH_HIGH d /\
      r = snd (Client.processFrame (client_not_calibrating d) (Some raw) now)).
Proof.
  split.
  - intros d raw now Hth. cbv zeta.
    rewrite (ServerFacts.process_frame_uncalibrated d raw now Hth).
    unfold Server.calibrate. cbn [fst snd].
    cbn [Server.set_baseline_buffer Server.BASELINE_FRAMES
         Server.baseline_buffer Server.set_smoothed_eye].
    rewrite length_app, Nat.add_comm. cbn [length Nat.add].
    destruct (_ <=? _)%Z;
      unfold Server._get_current_state, Server.TH_LOW, Server.TH_HIGH;
      cbn; rewrite ?Hth; repeat split; reflexivity.
  - intros d raw now Hcal Hlen. cbv zeta. unfold Client.processFrame.
    assert (Hc : Client.calibrate (Client.smooth d raw)
                 = client_with_buffer
                     (Client.baseline d ++ [Client.smoothedEye
                                              (Client.smooth d raw)])
                     true (Client.smooth d raw)).
    { unfold Client.calibrate.
      cbn [Client.isCalibrating Client.smooth Client.baseline].
      rewrite Hcal.
      replace (20 <=? length (Client.baseline d ++ _))%nat with false
        by (symmetry; apply Nat.leb_gt; rewrite length_app; simpl; lia).
      reflexivity. }
    assert (Hi : Client.calibrate
                   (Client.smooth (client_not_calibrating d) raw)
                 = client_with_buffer (Client.baseline d) false
                     (Client.smooth d raw)) by reflexivity.
    rewrite Hc, Hi, !client_state_machine_buffer.
    set (m := Client.state_machine (Client.smooth d raw) now).
    assert (Hb : Client.baseline m = Client.baseline d).
    { destruct (ClientFacts.state_machine_config (Client.smooth d raw) now)
        as [_ [_ [Hb _]]]. exact Hb. }
    assert (Hf : forall (l : list Q) (flag : bool),
               (length l < 20)%nat ->
               Client.baseline_full (client_with_buffer l flag m)
               = Client.baseline_full m).
    { intros l flag Hl. unfold Client.baseline_full. cbn [Client.baseline
        client_with_buffer]. rewrite Hb.
      transitivity false; [| symmetry]; apply Nat.leb_gt; lia. }
    destruct (client_check_alarm_buffer
                (Client.baseline d ++ [Client.smoothedEye
                                         (Client.smooth d raw)])
                true m now) as [H1 H2].
    destruct (client_check_alarm_buffer (Client.baseline d) false m now)
      as [_ H3].
    rewrite H1, H2, H3
      by (apply Hf; rewrite ?length_app; simpl; lia).
    destruct (ClientFacts.check_alarm_signal m now) as [_ [Hlo Hhi]].
    destruct (ClientFacts.state_machine_signal (Client.smooth d raw) now)
      as [_ [Hlo' Hhi']].
    fold m in Hlo', Hhi'.
    cbn [client_with_buffer Client.TH_LOW Client.TH_HIGH].
    rewrite Hlo, Hhi, Hlo', Hhi'.
    repeat split.
    change (Client.baseline_ready (snd (Client.check_alarm m now)))
      with (Client.baseline_full (fst (Client.check_alarm m now))).
    unfold Client.baseline_full.
    destruct (ClientFacts.check_alarm_effect m now) as [-> | [_ ->]];
      cbn [Client.baseline Client.set_refractoryUntil]; rewrite Hb;
      apply Nat.leb_gt; lia.
Qed.

Lemma frame_while_uncalibrated_witness :
  Server.baseline_ready
    (snd (Server.process_frame Server.default (Some 0.3) 1)) = false /\
  Client.baseline_ready
    (snd (Client.processFrame client_calibrating (Some 0) 6)) = false.
Proof.
  split.
  - destruct (proj1 frame_while_uncalibrated Server.default 0.3 1 eq_refl)
      as [_ [_ [_ [_ [_ H]]]]].
    rewrite H. reflexivity.
  - assert (Hlen : (S (length (Client.baseline client_calibrating)) < 20)%nat)
      by (vm_compute; lia).
    destruct (proj2 frame_while_uncalibrated client_calibrating 0 6
                eq_refl Hlen) as [_ [H _]].
    exact H.
Defined.

(** ** Debounce: from OPEN to CLOSED *)

(** What a client frame does not write. *)
Lemma client_frame_config (d : Client.EyeDetector) (raw : option Q) (now : Q) :
  Client.FRAMES_REQUIRED (fst (Client.processFrame d raw now))
  = Client.FRAMES_REQUIRED d /\
  (Client.isCalibrating d = false ->
   Client.isCalibrating (fst (Client.processFrame d raw now)) = false /\
   Client.TH_LOW (fst (Client.processFrame d raw now)) = Client.TH_LOW d /\
   Client.TH_HIGH (fst (Client.processFrame d raw now)) = Client.TH_HIGH d).
Proof.
  destruct raw as [raw |]; [| simpl; auto].
  unfold Client.processFrame.
  set (c := Client.calibrate (Client.smooth d raw)).
  set (m := Client.state_machine c now).
  destruct (ClientFacts.state_machine_config c now) as [Hm1 [Hm2 _]].
  fold m in Hm1, Hm2.
  destruct (ClientFacts.calibrate_config (Client.smooth d raw)) as [Hc _].
  fold c in Hc. simpl in Hc.
  destruct (ClientFacts.check_alarm_signal m now) as [_ [Hlo Hhi]].
  destruct (ClientFacts.state_machine_signal c now) as [_ [Hlo' Hhi']].
  fold m in Hlo', Hhi'.
  split.
  - destruct (ClientFacts.check_alarm_effect m now) as [-> | [_ ->]];
      cbn [Client.FRAMES_REQUIRED Client.set_refractoryUntil]; congruence.
  - intros Hcal.
    assert (Hcd : c = Client.smooth d raw)
      by (apply ClientFacts.calibrate_idle; exact Hcal).
    rewrite Hlo, Hhi, Hlo', Hhi', Hcd. repeat split.
    destruct (ClientFacts.check_alarm_effect m now) as [-> | [_ ->]];
      cbn [Client.isCalibrating Client.set_refractoryUntil];
      rewrite Hm2, Hcd; exact Hcal.
Qed.

(** The client's state machine closes an OPEN tracker only on a value below
    TH_LOW that brings the closed streak to [FRAMES_REQUIRED]. *)
Lemma client_state_machine_closes (c : Client.EyeDetector) (now : Q) :
  Client.eyeState c = OPEN ->
  Client.eyeState (Client.state_machine c now) = CLOSED ->
  Client.smoothedEye c < Client.TH_LOW c /\
  (Client.FRAMES_REQUIRED c <= Client.closedFrames c + 1)%Z /\
  Client.closedStartTime (Client.state_machine c now) = now.
Proof.
  intros Hopen. unfold Client.state_machine. rewrite Hopen. simpl.
  rewrite andb_true_r, andb_false_r.
  destruct (Qltb (Client.smoothedEye c) (Client.TH_LOW c)) eqn:Elo.
  - destruct (Client.FRAMES_REQUIRED c <=? Client.closedFrames c + 1)%Z
      eqn:Efr; simpl; [| congruence].
    intros _. apply Qltb_true_iff in Elo. apply Z.leb_le in Efr. auto.
  - destruct (Qltb (Client.TH_HIGH c) (Client.smoothedEye c)); simpl;
      congruence.
Qed.

(** A value below TH_LOW lengthens the client's closed streak by one. *)
Lemma client_state_machine_counts (c : Client.EyeDetector) (now : Q) :
  Client.smoothedEye c < Client.TH_LOW c ->
  Client.closedFrames (Client.state_machine c now)
  = (Client.closedFrames c + 1)%Z.
Proof.
  intros Hlo. apply Qltb_true_iff in Hlo. unfold Client.state_machine.
  rewrite Hlo. destruct (_ && _); reflexivity.
Qed.

(** The same two facts for a whole frame. *)
Lemma client_frame_closes (d : Client.EyeDetector) (raw now : Q) :
  Client.eyeState d = OPEN ->
  Client.eyeState (fst (Client.processFrame d (Some raw) now)) = CLOSED ->
  Client.smoothedEye (fst (Client.processFrame d (Some raw) now))
  < Client.TH_LOW (fst (Client.processFrame d (Some raw) now)) /\
  Client.closedFrames (fst (Client.processFrame d (Some raw) now))
  = (Client.closedFrames d + 1)%Z /\
  (Client.FRAMES_REQUIRED d
   <= Client.closedFrames (fst (Client.processFrame d (Some raw) now)))%Z /\
  Client.closedStartTime (fst (Client.processFrame d (Some raw) now)) = now.
Proof.
  intros Hopen. unfold Client.processFrame.
  set (c := Client.calibrate (Client.smooth d raw)).
  destruct (ClientFacts.calibrate_machine (Client.smooth d raw))
    as [Hs [_ [Hcf _]]]. fold c in Hs, Hcf.
  destruct (ClientFacts.calibrate_config (Client.smooth d raw)) as [Hfr _].
  fold c in Hfr. simpl in Hfr.
  rewrite ClientFacts.check_alarm_eyeState,
    ClientFacts.check_alarm_closedStartTime.
  destruct (ClientFacts.check_alarm_counters (Client.state_machine c now) now)
    as [-> _].
  destruct (ClientFacts.check_alarm_signal (Client.state_machine c now) now)
    as [-> [-> _]].
  destruct (ClientFacts.state_machine_signal c now) as [-> [-> _]].
  intros Hclosed.
  destruct (client_state_machine_closes c now) as [Hlo [Hreq Hstart]];
    [rewrite Hs; exact Hopen | exact Hclosed |].
  rewrite (client_state_machine_counts c now Hlo).
  rewrite <- Hfr, Hcf in *. simpl in Hcf. auto.
Qed.

Lemma client_frame_counts (d : Client.EyeDetector) (raw now : Q) :
  Client.smoothedEye (fst (Client.processFrame d (Some raw) now))
  < Client.TH_LOW (fst (Client.processFrame d (Some raw) now)) ->
  Client.closedFrames (fst (Client.processFrame d (Some raw) now))
  = (Client.closedFrames d + 1)%Z.
Proof.
  unfold Client.processFrame.
  set (c := Client.calibrate (Client.smooth d raw)).
  destruct (ClientFacts.calibrate_machine (Client.smooth d raw))
    as [_ [_ [Hcf _]]]. fold c in Hcf.
  destruct (ClientFacts.check_alarm_counters (Client.state_machine c now) now)
    as [-> _].
  destruct (ClientFacts.check_alarm_signal (Client.state_machine c now) now)
    as [-> [-> _]].
  destruct (ClientFacts.state_machine_signal c now) as [-> [-> _]].
  intros Hlo. rewrite (client_state_machine_counts c now Hlo).
  rewrite Hcf. reflexivity.
Qed.

(** A frame below TH_LOW on an OPEN client tracker whose streak stays short
    of [FRAMES_REQUIRED]: the tracker stays OPEN and the streak grows. *)
Lemma client_below_step (d : Client.EyeDetector) (raw now : Q) :
  Client.isCalibrating d = false ->
  Client.eyeState d = OPEN ->
  (Client.closedFrames d + 1 < Client.FRAMES_REQUIRED d)%Z ->
  let d' := fst (Client.processFrame d (Some raw) now) in
  Client.smoothedEye d' < Client.TH_LOW d ->
  Client.isCalibrating d' = false /\
  Client.eyeState d' = OPEN /\
  Client.closedFrames d' = (Client.closedFrames d + 1)%Z /\
  Client.FRAMES_REQUIRED d' = Client.FRAMES_REQUIRED d /\
  Client.TH_LOW d' = Client.TH_LOW d /\
  Client.TH_HIGH d' = Client.TH_HIGH d.
Proof.
  intros Hcal Hopen Hshort d' Hlo.
  destruct (client_frame_config d (Some raw) now) as [Hfr Hidle].
  destruct (Hidle Hcal) as [Hcal' [Hlo' Hhi']].
  fold d' in Hfr, Hcal', Hlo', Hhi'.
  assert (Hcf : Client.closedFrames d' = (Client.closedFrames d + 1)%Z).
  { apply client_frame_counts. fold d'. rewrite Hlo'. exact Hlo. }
  repeat split; try assumption.
  destruct (Client.eyeState d') eqn:E; [reflexivity |].
  destruct (client_frame_closes d raw now Hopen E) as [_ [_ [Hreq _]]].
  fold d' in Hreq. lia.
Qed.

(** A frame that is not below TH_LOW leaves an OPEN client tracker OPEN. *)
Lemma client_not_below_step (d : Client.EyeDetector) (raw now : Q) :
  Client.isCalibrating d = false ->
  Client.eyeState d = OPEN ->
  let d' := fst (Client.processFrame d (Some raw) now) in
  Client.TH_LOW d <= Client.smoothedEye d' ->
  Client.eyeState d' = OPEN.
Proof.
  intros Hcal Hopen d' Hge.
  destruct (client_frame_config d (Some raw) now) as [_ Hidle].
  destruct (Hidle Hcal) as [_ [Hlo' _]]. fold d' in Hlo'.
  destruct (Client.eyeState d') eqn:E; [reflexivity |].
  destruct (client_frame_closes d raw now Hopen E) as [Hlt _].
  fold d' in Hlt. rewrite Hlo' in Hlt.
  exfalso. exact (Qlt_not_le _ _ Hlt Hge).
Qed.

(** On the server the second sample of 0.1 is the first one below TH_LOW
    and closes the eye state at once, with a streak of 1 for
    [FRAMES_REQUIRED = 5].  On the client, an OPEN tracker whose closed
    streak stands at 1 is closed by the fourth of four frames below TH_LOW
    and is still CLOSED after the frame above TH_HIGH that follows. *)
Lemma closes_before_five_frames :
  (Server.current_state server_calibrated = OPEN /\
   Server.FRAMES_REQUIRED server_calibrated = 5%Z /\
   map Server.state
     (snd (Server.run server_calibrated [(Some 0.1, 0); (Some 0.1, 0.15)]))
   = [OPEN; CLOSED] /\
   Server.consecutive_detections
     (fst (Server.run server_calibrated [(Some 0.1, 0); (Some 0.1, 0.15)]))
   = 1%Z) /\
  (Client.isCalibrating client_one_below = false /\
   Client.eyeState client_one_below = OPEN /\
   Client.closedFrames client_one_below = 1%Z /\
   Client.FRAMES_REQUIRED client_one_below = 5%Z /\
   let rs :=
     snd (Client.run client_one_below
            [(Some 0, 4); (Some 0, 5); (Some 0, 6); (Some 0, 7);
             (Some 1, 8)]) in
   map Client.state rs = [OPEN; OPEN; OPEN; CLOSED; CLOSED] /\
   map (fun r => Qltb (Client.eye r) (Client.th_low r)) rs
   = [true; true; true; true; false] /\
   map (fun r => Qltb (Client.th_high r) (Client.eye r)) rs
   = [false; false; false; false; true]).
Proof.
  vm_compute. repeat split.
Qed.

(** C2, amended.  On the client, an OPEN tracker becomes CLOSED only on a
    frame below TH_LOW that brings the closed streak to [FRAMES_REQUIRED];
    with [FRAMES_REQUIRED = 5], a calibrated OPEN tracker whose closed
    streak is 0 stays OPEN through four frames below TH_LOW followed by one
    frame above TH_HIGH.  The server does not debounce the transition: its
    first frame below TH_LOW closes an OPEN tracker and sets the streak
    to 1. *)
Theorem open_to_closed_debounce :
  (forall (d : Client.EyeDetector) (raw now : Q),
      Client.eyeState d = OPEN ->
      let d' := fst (Client.processFrame d (Some raw) now) in
      Client.eyeState d' = CLOSED ->
      Client.smoothedEye d' < Client.TH_LOW d' /\
      Client.closedFrames d' = (Client.closedFrames d + 1)%Z /\
      (Client.FRAMES_REQUIRED d <= Client.closedFrames d')%Z /\
      Client.closedStartTime d' = now) /\
  (forall (d : Client.EyeDetector)
          (raw1 raw2 raw3 raw4 raw5 t1 t2 t3 t4 t5 : Q),
      Client.isCalibrating d = false ->
      Client.TH_LOW d <= Client.TH_HIGH d ->
      Client.FRAMES_REQUIRED d = 5%Z ->
      Client.eyeState d = OPEN ->
      Client.closedFrames d = 0%Z ->
      let d1 := fst (Client.processFrame d (Some raw1) t1) in
      let d2 := fst (Client.processFrame d1 (Some raw2) t2) in
      let d3 := fst (Client.processFrame d2 (Some raw3) t3) in
      let d4 := fst (Client.processFrame d3 (Some raw4) t4) in
      let d5 := fst (Client.processFrame d4 (Some raw5) t5) in
      Client.smoothedEye d1 < Client.TH_LOW d ->
      Client.smoothedEye d2 < Client.TH_LOW d ->
      Client.smoothedEye d3 < Client.TH_LOW d ->
      Client.smoothedEye d4 < Client.TH_LOW d ->
      Client.TH_HIGH d < Client.smoothedEye d5 ->
      Client.eyeState d1 = OPEN /\
      Client.eyeState d2 = OPEN /\
      Client.eyeState d3 = OPEN /\
      Client.eyeState d4 = OPEN /\
      Client.eyeState d5 = OPEN) /\
  (forall (d : Server.Detector) (raw now lo hi : Q),
      Server.thresholds d = Some (lo, hi) ->
      Server.current_state d = OPEN ->
      let d' := fst (Server.process_frame d (Some raw) now) in
      let r := snd (Server.process_frame d (Some raw) now) in
      Server.eye_openness r < lo ->
      Server.current_state d' = CLOSED /\
      Server.state r = CLOSED /\
      Server.consecutive_detections d' = 1%Z /\
      Server.closed_start d' = Some now).
Proof.
  split; [| split].
  - intros d raw now Hopen d' Hclosed.
    exact (client_frame_closes d raw now Hopen Hclosed).
  - intros d raw1 raw2 raw3 raw4 raw5 t1 t2 t3 t4 t5
      Hcal Hth Hfr Hopen Hcf d1 d2 d3 d4 d5 H1 H2 H3 H4 H5.
    destruct (client_below_step d raw1 t1 Hcal Hopen ltac:(lia) H1)
      as [Hcal1 [Hopen1 [Hcf1 [Hfr1 [Hlo1 Hhi1]]]]].
    fold d1 in Hcal1, Hopen1, Hcf1, Hfr1, Hlo1, Hhi1.
    rewrite <- Hlo1 in H2.
    destruct (client_below_step d1 raw2 t2 Hcal1 Hopen1 ltac:(lia) H2)
      as [Hcal2 [Hopen2 [Hcf2 [Hfr2 [Hlo2 Hhi2]]]]].
    fold d2 in Hcal2, Hopen2, Hcf2, Hfr2, Hlo2, Hhi2.
    rewrite <- Hlo1, <- Hlo2 in H3.
    destruct (client_below_step d2 raw3 t3 Hcal2 Hopen2 ltac:(lia) H3)
      as [Hcal3 [Hopen3 [Hcf3 [Hfr3 [Hlo3 Hhi3]]]]].
    fold d3 in Hcal3, Hopen3, Hcf3, Hfr3, Hlo3, Hhi3.
    rewrite <- Hlo1, <- Hlo2, <- Hlo3 in H4.
    destruct (client_below_step d3 raw4 t4 Hcal3 Hopen3 ltac:(lia) H4)
      as [Hcal4 [Hopen4 [Hcf4 [Hfr4 [Hlo4 Hhi4]]]]].
    fold d4 in Hcal4, Hopen4, Hcf4, Hfr4, Hlo4, Hhi4.
    repeat split; try assumption.
    apply (client_not_below_step d4 raw5 t5 Hcal4 Hopen4). fold d5.
    rewrite Hlo4, Hlo3, Hlo2, Hlo1.
    apply Qlt_le_weak. apply Qle_lt_trans with (y := Client.TH_HIGH d);
      assumption.
  - intros d raw now lo hi Hth Hopen. cbv zeta.
    rewrite (ServerFacts.process_frame_calibrated d raw now lo hi Hth).
    rewrite ServerFacts.check_alarm_current_state,
      ServerFacts.check_alarm_consecutive,
      ServerFacts.check_alarm_closed_start.
    change (Server.eye_openness (snd (Server.check_alarm ?m ?s lo hi now)))
      with s.
    intros Hlo. apply Qltb_true_iff in Hlo.
    assert (Hm : Server.state_machine
                   (Server.set_smoothed_eye (Some (Server.smooth d raw)) d)
                   (Server.smooth d raw) lo hi now
                 = Server.set_consecutive_detections 1
                     (Server.set_closed_start (Some now)
                        (Server.set_current_state CLOSED
                           (Server.set_smoothed_eye
                              (Some (Server.smooth d raw)) d)))).
    { unfold Server.state_machine. rewrite Hlo.
      cbn [Server.current_state Server.set_smoothed_eye].
      rewrite Hopen. reflexivity. }
    rewrite Hm. repeat split.
    unfold Server.check_alarm. cbn [snd Server.state].
    match goal with
    | |- context [if ?c then _ else _] => destruct c
    end; reflexivity.
Qed.

Lemma open_to_closed_debounce_witness :
  Client.eyeState
    (fst (Client.processFrame
       (fst (Client.processFrame
          (fst (Client.processFrame
             (fst (Client.processFrame
                (fst (Client.processFrame client_first (Some 0) 2))
                (Some 0) 3))
             (Some 0) 4))
          (Some 0) 5))
       (Some 1) 6)) = OPEN /\
  Server.current_state
    (fst (Server.process_frame server_open (Some 0.1) 7)) = CLOSED.
Proof.
  split.
  - assert (Hth : Client.TH_LOW client_first <= Client.TH_HIGH client_first)
      by (vm_compute; discriminate).
    assert (H1 : Client.smoothedEye
                   (fst (Client.processFrame client_first (Some 0) 2))
                 < Client.TH_LOW client_first) by (vm_compute; reflexivity).
    assert (H2 : Client.smoothedEye
                   (fst (Client.processFrame
                      (fst (Client.processFrame client_first (Some 0) 2))
                      (Some 0) 3))
                 < Client.TH_LOW client_first) by (vm_compute; reflexivity).
    assert (H3 : Client.smoothedEye
                   (fst (Client.processFrame
                      (fst (Client.processFrame
                         (fst (Client.processFrame client_first (Some 0) 2))
                         (Some 0) 3))
                      (Some 0) 4))
                 < Client.TH_LOW client_first) by (vm_compute; reflexivity).
    assert (H4 : Client.smoothedEye
                   (fst (Client.processFrame
                      (fst (Client.processFrame
                         (fst (Client.processFrame
                            (fst (Client.processFrame client_first
                                    (Some 0) 2))
                            (Some 0) 3))
                         (Some 0) 4))
                      (Some 0) 5))
                 < Client.TH_LOW client_first) by (vm_compute; reflexivity).
    assert (H5 : Client.TH_HIGH client_first
                 < Client.smoothedEye
                     (fst (Client.processFrame
                        (fst (Client.processFrame
                           (fst (Client.processFrame
                              (fst (Client.processFrame
                                 (fst (Client.processFrame client_first
                                         (Some 0) 2))
                                 (Some 0) 3))
                              (Some 0) 4))
                           (Some 0) 5))
                        (Some 1) 6))) by (vm_compute; reflexivity).
    exact (proj2 (proj2 (proj2 (proj2
      (proj1 (proj2 open_to_closed_debounce) client_first
         0 0 0 0 1 2 3 4 5 6 eq_refl Hth eq_refl eq_refl eq_refl
         H1 H2 H3 H4 H5))))).
  - assert (Hlo : Server.eye_openness
                    (snd (Server.process_frame server_open (Some 0.1) 7))
                  < 0.225) by (vm_compute; reflexivity).
    exact (proj1 (proj2 (proj2 open_to_closed_debounce)
                    server_open 0.1 7 0.225 0.255 eq_refl eq_refl Hlo)).
Defined.

(** ** The baseline block and its median *)



(** What a client frame with a face leaves of the baseline block. *)
Lemma client_frame_calibration (d : Client.EyeDetector) (raw now : Q) :
  let c := Client.calibrate (Client.smooth d raw) in
  let d1 := fst (Client.processFrame d (Some raw) now) in
  Client.baseline d1 = Client.baseline c /\
  Client.isCalibrating d1 = Client.isCalibrating c /\
  Client.TH_LOW d1 = Client.TH_LOW c /\
  Client.TH_HIGH d1 = Client.TH_HIGH c /\
  Client.smoothedEye d1 = Client.smoothedEye c /\
  Client.baseline_ready (snd (Client.processFrame d (Some raw) now))
  = Client.baseline_full c.
Proof.
  intros c d1. unfold d1, Client.processFrame. fold c.
  set (m := Client.state_machine c now).
  destruct (ClientFacts.state_machine_config c now) as [_ [Hcal [Hb _]]].
  destruct (ClientFacts.state_machine_signal c now) as [Hs [Hlo Hhi]].
  fold m in Hcal, Hb, Hs, Hlo, Hhi.
  change (Client.baseline_ready (snd (Client.check_alarm m now)))
    with (Client.baseline_full (fst (Client.check_alarm m now))).
  unfold Client.baseline_full.
  destruct (ClientFacts.check_alarm_effect m now) as [-> | [_ ->]];
    cbn [Client.baseline Client.isCalibrating Client.TH_LOW Client.TH_HIGH
         Client.smoothedEye Client.set_refractoryUntil];
    rewrite Hcal, Hb, Hs, Hlo, Hhi; repeat split; reflexivity.
Qed.

(** ** Thresholds *)

Lemma server_median_pos (l : list Q) :
  Forall (fun x => 0 < x) l -> l <> [] -> 0 < Server.median l.
Proof.
  intros Hall Hne. unfold Server.median. rewrite sort_length.
  assert (Hpos : (0 < length l)%nat)
    by (destruct l; [congruence | simpl; lia]).
  assert (Hmid : 0 < nth (length l / 2) (sort l) 0)
    by (apply (sort_nth (fun x => 0 < x)); [exact Hall | now apply half_lt]).
  destruct (Nat.even (length l)); [| exact Hmid].
  assert (Hlow : 0 < nth (length l / 2 - 1) (sort l) 0).
  { apply (sort_nth (fun x => 0 < x)); [exact Hall |].
    pose proof (half_lt _ Hpos). lia. }
  apply Qlt_shift_div_l; [reflexivity | lra].
Qed.

Lemma client_median_pos (l : list Q) :
  Forall (fun x => 0 < x) l -> l <> [] -> 0 < Client.median l.
Proof.
  intros Hall Hne. unfold Client.median. rewrite sort_length.
  apply (sort_nth (fun x => 0 < x)); [exact Hall |].
  apply half_lt. destruct l; [congruence | simpl; lia].
Qed.

(** A blend of two positive values with a weight in [0, 1] is positive. *)
Lemma blend_pos (a p v : Q) :
  0 <= a -> a <= 1 -> 0 < p -> 0 < v -> 0 < a * p + (1 - a) * v.
Proof.
  intros Ha0 Ha1 Hp Hv.
  destruct (Qlt_le_dec 0 a) as [Hpos | Hzero].
  - assert (H1 : 0 < a * p) by (apply Qmult_lt_0_compat; assumption).
    assert (H2 : 0 <= (1 - a) * v)
      by (apply Qmult_le_0_compat; lra).
    lra.
  - assert (Ha : a == 0) by lra.
    rewrite Ha. lra.
Qed.

Lemma scaled_thresholds_ordered (m : Q) : 0 < m -> m * 0.75 < m * 0.85.
Proof. intros H. lra. Qed.

Lemma server_smooth_pos (d : Server.Detector) (raw : Q) :
  server_inv d -> 0 < raw -> 0 < Server.smooth d raw.
Proof.
  intros [Ha0 [Ha1 [Hsm _]]] Hraw. unfold Server.smooth.
  destruct (Server.smoothed_eye d) as [p |]; [| exact Hraw].
  apply blend_pos; auto.
Qed.

(** A frame on a calibrated server tracker keeps thresholds, buffer and
    smoothing factor. *)
Lemma server_frame_calibrated_keeps (d : Server.Detector) (raw now lo hi : Q) :
  Server.thresholds d = Some (lo, hi) ->
  let d' := fst (Server.process_frame d (Some raw) now) in
  Server.thresholds d' = Some (lo, hi) /\
  Server.baseline_buffer d' = Server.baseline_buffer d /\
  Server.SMOOTHING_FACTOR d' = Server.SMOOTHING_FACTOR d.
Proof.
  intros Hth d'. unfold d'.
  rewrite (ServerFacts.process_frame_calibrated d raw now lo hi Hth).
  set (m := Server.state_machine _ _ lo hi now).
  assert (Hm : Server.thresholds m = Some (lo, hi) /\
               Server.baseline_buffer m = Server.baseline_buffer d /\
               Server.SMOOTHING_FACTOR m = Server.SMOOTHING_FACTOR d).
  { unfold m, Server.state_machine.
    destruct (Qltb (Server.smooth d raw) lo);
      [destruct (Server.current_state _) |
       destruct (Qltb hi (Server.smooth d raw))];
      cbn; rewrite Hth; repeat split. }
  destruct (ServerFacts.check_alarm_writes m (Server.smooth d raw) lo hi now)
    as [-> | [_ ->]]; exact Hm.
Qed.

(** A frame on an uncalibrated server tracker appends the smoothed value
    and, when that fills the buffer, sets the thresholds from the median. *)
Lemma server_frame_uncalibrated_sets (d : Server.Detector) (raw now : Q) :
  Server.thresholds d = None ->
  let d' := fst (Server.process_frame d (Some raw) now) in
  Server.baseline_buffer d'
  = Server.baseline_buffer d ++ [Server.smooth d raw] /\
  Server.SMOOTHING_FACTOR d' = Server.SMOOTHING_FACTOR d /\
  (Server.thresholds d' = None \/
   ((Server.BASELINE_FRAMES d
     <= Z.of_nat (length (Server.baseline_buffer d')))%Z /\
    Server.thresholds d'
    = Some (Server.median (Server.baseline_buffer d') * 0.75,
            Server.median (Server.baseline_buffer d') * 0.85))).
Proof.
  intros Hth d'. unfold d'.
  rewrite (ServerFacts.process_frame_uncalibrated d raw now Hth).
  cbn [fst]. unfold Server.calibrate.
  cbn [Server.set_baseline_buffer Server.BASELINE_FRAMES
       Server.baseline_buffer Server.set_smoothed_eye].
  destruct (Server.BASELINE_FRAMES d
            <=? Z.of_nat (length (Server.baseline_buffer d
                                    ++ [Server.smooth d raw])))%Z eqn:E.
  - apply Z.leb_le in E. cbn. repeat split. right. split; [exact E |].
    reflexivity.
  - cbn. repeat split. left. exact Hth.
Qed.

(** The baseline block: idle when not calibrating; otherwise it appends the
    smoothed value and, when that fills the buffer, sets the thresholds from
    the median and lowers the flag. *)
Lemma client_calibrate_cases (d : Client.EyeDetector) :
  let c := Client.calibrate d in
  Client.smoothingFactor c = Client.smoothingFactor d /\
  ((Client.isCalibrating d = false /\ c = d) \/
   (Client.isCalibrating d = true /\
    Client.baseline c = Client.baseline d ++ [Client.smoothedEye d] /\
    ((Client.isCalibrating c = true /\
      Client.TH_LOW c = Client.TH_LOW d /\
      Client.TH_HIGH c = Client.TH_HIGH d) \/
     (Client.isCalibrating c = false /\
      (20 <= length (Client.baseline c))%nat /\
      Client.TH_LOW c = Client.median (Client.baseline c) * 0.75 /\
      Client.TH_HIGH c = Client.median (Client.baseline c) * 0.85)))).
Proof.
  unfold Client.calibrate.
  destruct (Client.isCalibrating d) eqn:Hcal; [| auto].
  destruct (20 <=? length (Client.baseline d ++ [Client.smoothedEye d]))%nat
    eqn:Hfull; cbn; (split; [reflexivity | right]);
    (split; [reflexivity |]); (split; [reflexivity |]).
  - right. apply Nat.leb_le in Hfull. auto.
  - left. auto.
Qed.

Lemma client_frame_smoothingFactor (d : Client.EyeDetector) (raw now : Q) :
  Client.smoothingFactor (fst (Client.processFrame d (Some raw) now))
  = Client.smoothingFactor d.
Proof.
  unfold Client.processFrame.
  set (c := Client.calibrate (Client.smooth d raw)).
  assert (Hc : Client.smoothingFactor c = Client.smoothingFactor d)
    by (destruct (client_calibrate_cases (Client.smooth d raw)) as [H _];
        exact H).
  assert (Hm : Client.smoothingFactor (Client.state_machine c now)
               = Client.smoothingFactor c).
  { unfold Client.state_machine.
    destruct (Qltb (Client.smoothedEye c) (Client.TH_LOW c));
      [| destruct (Qltb (Client.TH_HIGH c) (Client.smoothedEye c))];
      repeat match goal with
      | |- context [if ?b then _ else _] => destruct b
      end; reflexivity. }
  destruct (ClientFacts.check_alarm_effect (Client.state_machine c now) now)
    as [-> | [_ ->]]; cbn [Client.smoothingFactor Client.set_refractoryUntil];
    congruence.
Qed.

(** ** The alarm and its refractory period *)

(** The server's state machine and baseline branch write neither the alarm
    time nor the alarm parameters. *)
Lemma server_state_machine_alarm_fields (d : Server.Detector)
    (s lo hi now : Q) :
  let m := Server.state_machine d s lo hi now in
  Server.last_alarm_time m = Server.last_alarm_time d /\
  Server.REFRACTORY m = Server.REFRACTORY d /\
  Server.CLOSED_SECONDS m = Server.CLOSED_SECONDS d /\
  Server.FRAMES_REQUIRED m = Server.FRAMES_REQUIRED d.
Proof.
  unfold Server.state_machine.
  destruct (Qltb s lo); [destruct (Server.current_state d) |
                         destruct (Qltb hi s)]; cbn; repeat split.
Qed.

Lemma server_calibrate_alarm_fields (d : Server.Detector) (s : Q) :
  Server.last_alarm_time (Server.calibrate d s) = Server.last_alarm_time d /\
  Server.REFRACTORY (Server.calibrate d s) = Server.REFRACTORY d.
Proof.
  unfold Server.calibrate.
  destruct (_ <=? _)%Z; cbn; split; reflexivity.
Qed.

(** The alarm block raises the alarm exactly when its three tests pass. *)
Lemma server_check_alarm_iff (d : Server.Detector) (s lo hi now : Q) :
  Server.alarm (snd (Server.check_alarm d s lo hi now)) = true <->
  Server.closed_confirmed d = true /\
  Server.CLOSED_SECONDS d <= now - Server.or_zero (Server.closed_start d) /\
  Server.refractory_over d now = true.
Proof.
  unfold Server.check_alarm. cbn [snd Server.alarm].
  destruct (Server.closed_confirmed d); cbn [andb].
  - rewrite andb_true_iff, Qle_bool_iff. tauto.
  - split; [discriminate | intros [H _]; discriminate H].
Qed.

Lemma server_refractory_over_iff (d : Server.Detector) (now : Q) :
  Server.refractory_over d now = true <->
  (Server.last_alarm_time d = None \/
   exists last, Server.last_alarm_time d = Some last /\
                Server.REFRACTORY d <= now - last).
Proof.
  unfold Server.refractory_over.
  destruct (Server.last_alarm_time d) as [last |].
  - rewrite Qle_bool_iff. split.
    + intros H. right. exists last. auto.
    + intros [H | [l [H1 H2]]]; [discriminate | now inversion H1].
  - split; auto.
Qed.

Lemma server_closed_confirmed_iff (d : Server.Detector) :
  Server.closed_confirmed d = true <->
  Server.current_state d = CLOSED /\
  (exists t0, Server.closed_start d = Some t0 /\ ~ t0 == 0) /\
  (Server.FRAMES_REQUIRED d <= Server.consecutive_detections d)%Z.
Proof.
  unfold Server.closed_confirmed, Server.truthy.
  rewrite !andb_true_iff, EyeState_eqb_eq, Z.leb_le.
  destruct (Server.closed_start d) as [t0 |].
  - rewrite negb_true_iff. split.
    + intros [[H1 H2] H3]. repeat split; try assumption.
      exists t0. split; [reflexivity |].
      intros Heq. apply Qeq_bool_iff in Heq. congruence.
    + intros [H1 [[t [Ht Hne]] H3]]. inversion Ht. subst t.
      repeat split; try assumption.
      destruct (Qeq_bool t0 0) eqn:E; [| reflexivity].
      apply Qeq_bool_iff in E. contradiction.
  - split.
    + intros [[_ H] _]. discriminate H.
    + intros [_ [[t [Ht _]] _]]. discriminate Ht.
Qed.

(** What a server frame does to the alarm time. *)
Lemma server_frame_alarm (d : Server.Detector) (raw : option Q) (now : Q) :
  let d' := fst (Server.process_frame d raw now) in
  let r := snd (Server.process_frame d raw now) in
  Server.REFRACTORY d' = Server.REFRACTORY d /\
  (Server.alarm r = true ->
   Server.last_alarm_time d' = Some now /\
   Server.refractory_over d now = true) /\
  (Server.alarm r = false ->
   Server.last_alarm_time d' = Server.last_alarm_time d).
Proof.
  destruct raw as [raw |]; cbv zeta.
  2: { cbn. repeat split; [discriminate | discriminate]. }
  destruct (Server.thresholds d) as [[lo hi] |] eqn:Hth.
  - rewrite (ServerFacts.process_frame_calibrated d raw now lo hi Hth).
    set (m := Server.state_machine _ _ lo hi now).
    destruct (server_state_machine_alarm_fields
                (Server.set_smoothed_eye (Some (Server.smooth d raw)) d)
                (Server.smooth d raw) lo hi now) as [Hl [Hr _]].
    fold m in Hl, Hr. cbn in Hl, Hr.
    assert (Hro : Server.refractory_over m now
                  = Server.refractory_over d now)
      by (unfold Server.refractory_over; rewrite Hl, Hr; reflexivity).
    unfold Server.check_alarm. cbn [fst snd Server.alarm].
    destruct (Server.closed_confirmed m && _ && Server.refractory_over m now)
      eqn:Hb.
    + apply andb_true_iff in Hb. destruct Hb as [_ Hb].
      rewrite Hro in Hb.
      cbn [Server.set_last_alarm_time Server.REFRACTORY
           Server.last_alarm_time].
      split; [exact Hr |]. split; [auto | discriminate].
    + split; [exact Hr |]. split; [discriminate | intros _; exact Hl].
  - rewrite (ServerFacts.process_frame_uncalibrated d raw now Hth).
    cbn [fst snd Server._get_current_state Server.alarm].
    destruct (server_calibrate_alarm_fields
                (Server.set_smoothed_eye (Some (Server.smooth d raw)) d)
                (Server.smooth d raw)) as [Hl Hr].
    cbn in Hl, Hr.
    split; [exact Hr |]. split; [discriminate | intros _; exact Hl].
Qed.

Lemma server_run_cons (d : Server.Detector) (raw : option Q) (now : Q)
    (rest : list (option Q * Q)) :
  Server.run d ((raw, now) :: rest)
  = (fst (Server.run (fst (Server.process_frame d raw now)) rest),
     snd (Server.process_frame d raw now)
     :: snd (Server.run (fst (Server.process_frame d raw now)) rest)).
Proof.
  cbn [Server.run].
  destruct (Server.process_frame d raw now) as [d1 r].
  cbn [fst snd].
  destruct (Server.run d1 rest) as [d2 rs]. reflexivity.
Qed.

(** Once the server has raised an alarm at [tl], no sooner than [t0], any
    alarm of the frames that follow comes at least [REFRACTORY] after
    [t0]. *)
Lemma server_alarm_after (frames : list (option Q * Q)) :
  forall (d : Server.Detector) (t0 tl : Q) (j : nat)
         (fj : option Q * Q) (rj : Server.DetectorState),
    Server.last_alarm_time d = Some tl ->
    t0 <= tl ->
    Forall (fun f => t0 <= snd f) frames ->
    nth_error frames j = Some fj ->
    nth_error (snd (Server.run d frames)) j = Some rj ->
    Server.alarm rj = true ->
    Server.REFRACTORY d <= snd fj - t0.
Proof.
  induction frames as [| [raw now] rest IH];
    intros d t0 tl j fj rj Hlast Hle Hall Hfj Hrj Hal.
  - destruct j; discriminate Hfj.
  - rewrite server_run_cons in Hrj. cbn [snd] in Hrj.
    destruct (server_frame_alarm d raw now) as [Hr [Hon Hoff]].
    inversion Hall as [| f fs Hnow Hrest]. subst f fs. cbn [snd] in Hnow.
    destruct j as [| j].
    + cbn in Hfj, Hrj. inversion Hfj. inversion Hrj. subst fj rj.
      destruct (Hon Hal) as [_ Hover].
      unfold Server.refractory_over in Hover. rewrite Hlast in Hover.
      apply Qle_bool_iff in Hover. cbn [snd]. lra.
    + cbn [nth_error] in Hfj, Hrj. rewrite <- Hr.
      destruct (Server.alarm (snd (Server.process_frame d raw now))) eqn:E.
      * destruct (Hon eq_refl) as [Hlast' _].
        exact (IH _ t0 now j fj rj Hlast' Hnow Hrest Hfj Hrj Hal).
      * pose proof (Hoff eq_refl) as Hlast'. rewrite Hlast in Hlast'.
        exact (IH _ t0 tl j fj rj Hlast' Hle Hrest Hfj Hrj Hal).
Qed.

(** Two alarms of one server session with nondecreasing clock readings are
    at least [REFRACTORY] apart. *)
Lemma server_alarms_spaced (frames : list (option Q * Q)) :
  forall (d : Server.Detector) (i j : nat) (fi fj : option Q * Q)
         (ri rj : Server.DetectorState),
    StronglySorted Qle (map snd frames) ->
    (i < j)%nat ->
    nth_error frames i = Some fi ->
    nth_error frames j = Some fj ->
    nth_error (snd (Server.run d frames)) i = Some ri ->
    nth_error (snd (Server.run d frames)) j = Some rj ->
    Server.alarm ri = true ->
    Server.alarm rj = true ->
    Server.REFRACTORY d <= snd fj - snd fi.
Proof.
  induction frames as [| [raw now] rest IH];
    intros d i j fi fj ri rj Hsorted Hij Hfi Hfj Hri Hrj Hai Haj.
  - destruct i; discriminate Hfi.
  - rewrite server_run_cons in Hri, Hrj. cbn [snd] in Hri, Hrj.
    cbn [map snd] in Hsorted.
    apply StronglySorted_inv in Hsorted. destruct Hsorted as [Hs Hhead].
    destruct (server_frame_alarm d raw now) as [Hr [Hon _]].
    destruct j as [| j]; [lia |].
    cbn [nth_error] in Hfj, Hrj.
    destruct i as [| i].
    + cbn in Hfi, Hri. inversion Hfi. inversion Hri. subst fi ri.
      destruct (Hon Hai) as [Hlast _]. rewrite <- Hr. cbn [snd].
      apply (server_alarm_after rest _ now now j fj rj Hlast);
        try assumption; [apply Qle_refl |].
      rewrite Forall_map in Hhead. exact Hhead.
    + cbn [nth_error] in Hfi, Hri. rewrite <- Hr.
      apply (IH _ i j fi fj ri rj); try assumption. lia.
Qed.

(** The client's alarm block raises the alarm exactly when its three tests
    pass. *)
Lemma client_check_alarm_iff (d : Client.EyeDetector) (now : Q) :
  Client.alarm (snd (Client.check_alarm d now)) = true <->
  Client.closed_timed d = true /\
  Client.CLOSED_SECONDS d <= now - Client.closedStartTime d /\
  Client.refractoryUntil d < now.
Proof.
  unfold Client.check_alarm. cbn [snd Client.alarm].
  destruct (Client.closed_timed d); cbn [andb].
  - rewrite andb_true_iff, Qle_bool_iff, Qltb_true_iff. tauto.
  - split; [discriminate | intros [H _]; discriminate H].
Qed.

Lemma client_closed_timed_iff (d : Client.EyeDetector) :
  Client.closed_timed d = true <->
  Client.eyeState d = CLOSED /\ 0 < Client.closedStartTime d.
Proof.
  unfold Client.closed_timed.
  now rewrite andb_true_iff, EyeState_eqb_eq, Qltb_true_iff.
Qed.

(** Before the alarm block, a client frame has written none of the alarm
    fields. *)
Lemma client_before_alarm_fields (d : Client.EyeDetector) (raw now : Q) :
  let m := Client.state_machine (Client.calibrate (Client.smooth d raw)) now in
  Client.refractoryUntil m = Client.refractoryUntil d /\
  Client.CLOSED_SECONDS m = Client.CLOSED_SECONDS d /\
  Client.REFRACTORY m = Client.REFRACTORY d.
Proof.
  cbv zeta.
  destruct (ClientFacts.state_machine_config
              (Client.calibrate (Client.smooth d raw)) now)
    as [_ [_ [_ [-> [-> ->]]]]].
  destruct (ClientFacts.calibrate_config (Client.smooth d raw))
    as [_ [-> [-> ->]]].
  repeat split.
Qed.

(** What a client frame does to the refractory deadline. *)
Lemma client_frame_alarm (d : Client.EyeDetector) (raw : option Q) (now : Q) :
  let d' := fst (Client.processFrame d raw now) in
  let r := snd (Client.processFrame d raw now) in
  Client.REFRACTORY d' = Client.REFRACTORY d /\
  (Client.alarm r = true ->
   Client.refractoryUntil d' = now + Client.REFRACTORY d /\
   Client.refractoryUntil d < now) /\
  (Client.alarm r = false ->
   Client.refractoryUntil d' = Client.refractoryUntil d).
Proof.
  destruct raw as [raw |]; cbv zeta.
  2: { cbn. repeat split; [discriminate | discriminate]. }
  unfold Client.processFrame.
  destruct (client_before_alarm_fields d raw now) as [Hu [_ Hr]].
  set (m := Client.state_machine _ now) in *.
  unfold Client.check_alarm. cbn [fst snd Client.alarm].
  destruct (Client.closed_timed m && _ && Qltb (Client.refractoryUntil m) now)
    eqn:Hb.
  - apply andb_true_iff in Hb. destruct Hb as [_ Hb].
    apply Qltb_true_iff in Hb. rewrite Hu in Hb.
    cbn [Client.set_refractoryUntil Client.REFRACTORY
         Client.refractoryUntil].
    rewrite Hr. split; [reflexivity |]. split; [auto | discriminate].
  - split; [exact Hr |]. split; [discriminate | intros _; exact Hu].
Qed.

Lemma client_run_cons (d : Client.EyeDetector) (raw : option Q) (now : Q)
    (rest : list (option Q * Q)) :
  Client.run d ((raw, now) :: rest)
  = (fst (Client.run (fst (Client.processFrame d raw now)) rest),
     snd (Client.processFrame d raw now)
     :: snd (Client.run (fst (Client.processFrame d raw now)) rest)).
Proof.
  cbn [Client.run].
  destruct (Client.processFrame d raw now) as [d1 r].
  cbn [fst snd].
  destruct (Client.run d1 rest) as [d2 rs]. reflexivity.
Qed.

(** Once the client's refractory deadline is at least [t0 + REFRACTORY],
    any alarm of the frames that follow, none of them before [t0], comes
    more than [REFRACTORY] after [t0]. *)
Lemma client_alarm_after (frames : list (option Q * Q)) :
  forall (d : Client.EyeDetector) (t0 : Q) (j : nat)
         (fj : option Q * Q) (rj : Client.FrameResult),
    t0 + Client.REFRACTORY d <= Client.refractoryUntil d ->
    Forall (fun f => t0 <= snd f) frames ->
    nth_error frames j = Some fj ->
    nth_error (snd (Client.run d frames)) j = Some rj ->
    Client.alarm rj = true ->
    Client.REFRACTORY d < snd fj - t0.
Proof.
  induction frames as [| [raw now] rest IH];
    intros d t0 j fj rj Hdead Hall Hfj Hrj Hal.
  - destruct j; discriminate Hfj.
  - rewrite client_run_cons in Hrj. cbn [snd] in Hrj.
    destruct (client_frame_alarm d raw now) as [Hr [Hon Hoff]].
    inversion Hall as [| f fs Hnow Hrest]. subst f fs. cbn [snd] in Hnow.
    destruct j as [| j].
    + cbn in Hfj, Hrj. inversion Hfj. inversion Hrj. subst fj rj.
      destruct (Hon Hal) as [_ Hover]. cbn [snd]. lra.
    + cbn [nth_error] in Hfj, Hrj. rewrite <- Hr.
      apply (IH _ t0 j fj rj); try assumption. rewrite Hr.
      destruct (Client.alarm (snd (Client.processFrame d raw now))) eqn:E.
      * destruct (Hon eq_refl) as [-> _]. lra.
      * rewrite (Hoff eq_refl). exact Hdead.
Qed.

(** Two alarms of one client session with nondecreasing clock readings are
    more than [REFRACTORY] apart. *)
Lemma client_alarms_spaced (frames : list (option Q * Q)) :
  forall (d : Client.EyeDetector) (i j : nat) (fi fj : option Q * Q)
         (ri rj : Client.FrameResult),
    StronglySorted Qle (map snd frames) ->
    (i < j)%nat ->
    nth_error frames i = Some fi ->
    nth_error frames j = Some fj ->
    nth_error (snd (Client.run d frames)) i = Some ri ->
    nth_error (snd (Client.run d frames)) j = Some rj ->
    Client.alarm ri = true ->
    Client.alarm rj = true ->
    Client.REFRACTORY d < snd fj - snd fi.
Proof.
  induction frames as [| [raw now] rest IH];
    intros d i j fi fj ri rj Hsorted Hij Hfi Hfj Hri Hrj Hai Haj.
  - destruct i; discriminate Hfi.
  - rewrite client_run_cons in Hri, Hrj. cbn [snd] in Hri, Hrj.
    cbn [map snd] in Hsorted.
    apply StronglySorted_inv in Hsorted. destruct Hsorted as [Hs Hhead].
    destruct (client_frame_alarm d raw now) as [Hr [Hon _]].
    destruct j as [| j]; [lia |].
    cbn [nth_error] in Hfj, Hrj.
    destruct i as [| i].
    + cbn in Hfi, Hri. inversion Hfi. inversion Hri. subst fi ri.
      destruct (Hon Hai) as [Hdead _]. rewrite <- Hr. cbn [snd].
      apply (client_alarm_after rest _ now j fj rj); try assumption.
      * rewrite Hdead, Hr. apply Qle_refl.
      * rewrite Forall_map in Hhead. exact Hhead.
    + cbn [nth_error] in Hfi, Hri. rewrite <- Hr.
      apply (IH _ i j fi fj ri rj); try assumption. lia.
Qed.

(** The client raises its first alarm at [t = 8].  At [t = 10.5] the state
    is CLOSED, the closed duration 4.5 is at least [CLOSED_SECONDS] and the
    time since the last alarm, 2.5, is at least [REFRACTORY]; yet no alarm
    is raised, since 10.5 is not after the deadline 8 + 2.5.  On the server
    with [CLOSED_SECONDS = 0], a frame with the eyes shut closes the eye
    state and reports
    [closed_for = 0], which is at least [CLOSED_SECONDS], and no alarm was
    raised before; yet no alarm is raised, since the streak is 1. *)
Lemma alarm_not_exactly_as_claimed :
  (map Client.alarm client_boundary_results
   = [false; false; false; false; false; false; true; false] /\
   exists r,
     nth_error client_boundary_results 7 = Some r /\
     Client.state r = CLOSED /\
     Client.CLOSED_SECONDS Client.init <= Client.closed_for r /\
     Client.REFRACTORY Client.init <= 10.5 - 8 /\
     Client.alarm r = false) /\
  (Server.last_alarm_time server_zero_seconds = None /\
   let r := snd (Server.process_frame server_zero_seconds (Some 0) 3) in
   Server.state r = CLOSED /\
   Server.CLOSED_SECONDS server_zero_seconds <= Server.closed_for r /\
   Server.alarm r = false).
Proof.
  split.
  - split; [vm_compute; reflexivity |].
    eexists. split; [vm_compute; reflexivity |].
    vm_compute. repeat split; discriminate.
  - vm_compute. repeat split; discriminate.
Qed.

(** C1, amended.  In a session with nondecreasing clock readings, two
    alarms of the server are at least [REFRACTORY] apart and two alarms of
    the client more than [REFRACTORY] apart.  With [CLOSED_SECONDS]
    positive, a frame with a face on a calibrated server tracker raises the
    alarm exactly when the state is CLOSED, the reported [closed_for] is at
    least [CLOSED_SECONDS], and no alarm was raised before or the last one
    is at least [REFRACTORY] old; the call then records [now] as the last
    alarm time.  The server reports a closed duration only once the closed
    streak has reached [FRAMES_REQUIRED].  On the client the alarm is
    raised exactly when the state is CLOSED, the reported [closed_for] is at
    least [CLOSED_SECONDS] and [now] is after the deadline
    [refractoryUntil] (0 before the first alarm); the call then sets the
    deadline to [now + REFRACTORY]. *)
Theorem alarm_rate_limited :
  (forall (d : Server.Detector) (raw now lo hi : Q),
      Server.thresholds d = Some (lo, hi) ->
      0 < Server.CLOSED_SECONDS d ->
      let d' := fst (Server.process_frame d (Some raw) now) in
      let r := snd (Server.process_frame d (Some raw) now) in
      (Server.alarm r = true <->
       Server.state r = CLOSED /\
       Server.CLOSED_SECONDS d <= Server.closed_for r /\
       (Server.last_alarm_time d = None \/
        exists last, Server.last_alarm_time d = Some last /\
                     Server.REFRACTORY d <= now - last)) /\
      Server.closed_for r
      = (if Server.closed_confirmed d'
         then now - Server.or_zero (Server.closed_start d') else 0.0) /\
      (Server.alarm r = true -> Server.last_alarm_time d' = Some now) /\
      (Server.alarm r = false ->
       Server.last_alarm_time d' = Server.last_alarm_time d)) /\
  (forall (d : Server.Detector) (frames : list (option Q * Q)) (i j : nat)
          (fi fj : option Q * Q) (ri rj : Server.DetectorState),
      StronglySorted Qle (map snd frames) ->
      (i < j)%nat ->
      nth_error frames i = Some fi ->
      nth_error frames j = Some fj ->
      nth_error (snd (Server.run d frames)) i = Some ri ->
      nth_error (snd (Server.run d frames)) j = Some rj ->
      Server.alarm ri = true ->
      Server.alarm rj = true ->
      Server.REFRACTORY d <= snd fj - snd fi) /\
  (forall (d : Client.EyeDetector) (raw now : Q),
      0 < Client.CLOSED_SECONDS d ->
      let d' := fst (Client.processFrame d (Some raw) now) in
      let r := snd (Client.processFrame d (Some raw) now) in
      (Client.alarm r = true <->
       Client.state r = CLOSED /\
       Client.CLOSED_SECONDS d <= Client.closed_for r /\
       Client.refractoryUntil d < now) /\
      Client.closed_for r
      = (if Client.closed_timed d'
         then now - Client.closedStartTime d' else 0) /\
      (Client.alarm r = true ->
       Client.refractoryUntil d' = now + Client.REFRACTORY d) /\
      (Client.alarm r = false ->
       Client.refractoryUntil d' = Client.refractoryUntil d)) /\
  (forall (d : Client.EyeDetector) (frames : list (option Q * Q)) (i j : nat)
          (fi fj : option Q * Q) (ri rj : Client.FrameResult),
      StronglySorted Qle (map snd frames) ->
      (i < j)%nat ->
      nth_error frames i = Some fi ->
      nth_error frames j = Some fj ->
      nth_error (snd (Client.run d frames)) i = Some ri ->
      nth_error (snd (Client.run d frames)) j = Some rj ->
      Client.alarm ri = true ->
      Client.alarm rj = true ->
      Client.REFRACTORY d < snd fj - snd fi).
Proof.
  split; [| split; [| split]].
  - intros d raw now lo hi Hth Hcs. cbv zeta.
    destruct (server_frame_alarm d (Some raw) now) as [_ [Hon Hoff]].
    split; [| split; [| split; [intros H; exact (proj1 (Hon H)) |
                                 exact Hoff]]].
    + rewrite (ServerFacts.process_frame_calibrated d raw now lo hi Hth).
      set (m := Server.state_machine _ _ lo hi now).
      destruct (server_state_machine_alarm_fields
                  (Server.set_smoothed_eye (Some (Server.smooth d raw)) d)
                  (Server.smooth d raw) lo hi now) as [Hl [Hr [Hc _]]].
      fold m in Hl, Hr, Hc. cbn in Hl, Hr, Hc.
      rewrite server_check_alarm_iff, server_refractory_over_iff.
      rewrite Hl, Hr, Hc.
      change (Server.state (snd (Server.check_alarm m (Server.smooth d raw)
                                   lo hi now)))
        with (Server.current_state
                (fst (Server.check_alarm m (Server.smooth d raw) lo hi now))).
      rewrite ServerFacts.check_alarm_current_state.
      unfold Server.check_alarm. cbn [snd Server.closed_for].
      destruct (Server.closed_confirmed m) eqn:Hconf.
      * apply server_closed_confirmed_iff in Hconf.
        destruct Hconf as [Hst _]. tauto.
      * split; [intros [H _]; discriminate H |].
        intros [_ [Hbad _]]. exfalso.
        assert (Hz : 0.0 == 0) by reflexivity. rewrite Hz in Hbad.
        exact (Qlt_not_le _ _ Hcs Hbad).
    + rewrite (ServerFacts.process_frame_calibrated d raw now lo hi Hth).
      rewrite ServerFacts.check_alarm_confirmed,
        ServerFacts.check_alarm_closed_start.
      reflexivity.
  - intros d frames. apply server_alarms_spaced.
  - intros d raw now Hcs. cbv zeta.
    destruct (client_frame_alarm d (Some raw) now) as [_ [Hon Hoff]].
    split; [| split; [| split; [intros H; exact (proj1 (Hon H)) |
                                 exact Hoff]]].
    + unfold Client.processFrame.
      destruct (client_before_alarm_fields d raw now) as [Hu [Hc _]].
      set (m := Client.state_machine _ now) in *.
      rewrite client_check_alarm_iff. rewrite Hu, Hc.
      change (Client.state (snd (Client.check_alarm m now)))
        with (Client.eyeState (fst (Client.check_alarm m now))).
      rewrite ClientFacts.check_alarm_eyeState.
      unfold Client.check_alarm. cbn [snd Client.closed_for].
      destruct (Client.closed_timed m) eqn:Htimed.
      * apply client_closed_timed_iff in Htimed.
        destruct Htimed as [Hst _]. tauto.
      * split; [intros [H _]; discriminate H |].
        intros [_ [Hbad _]]. exfalso.
        exact (Qlt_not_le _ _ Hcs Hbad).
    + unfold Client.processFrame.
      set (m := Client.state_machine _ now).
      assert (Ht : Client.closed_timed (fst (Client.check_alarm m now))
                   = Client.closed_timed m).
      { unfold Client.closed_timed.
        now rewrite ClientFacts.check_alarm_eyeState,
          ClientFacts.check_alarm_closedStartTime. }
      rewrite Ht, ClientFacts.check_alarm_closedStartTime. reflexivity.
  - intros d frames. apply client_alarms_spaced.
Qed.

Lemma alarm_rate_limited_witness :
  Server.last_alarm_time
    (fst (Server.process_frame server_closed (Some 0.1) 5)) = Some 5 /\
  Server.REFRACTORY server_closed <= 8 - 5 /\
  Client.refractoryUntil
    (fst (Client.processFrame client_closed (Some 0.01) 5)) = 5 + 2.5 /\
  Client.REFRACTORY client_closed < 8 - 5.
Proof.
  assert (Hsorted : StronglySorted Qle
                      (map snd [(Some 0.1, 5); (Some 0.1, 8)])).
  { repeat constructor; vm_compute; discriminate. }
  assert (Hsorted' : StronglySorted Qle
                       (map snd [(Some 0.01, 5); (Some 0.01, 8)])).
  { repeat constructor; vm_compute; discriminate. }
  split; [| split; [| split]].
  - assert (Hal : Server.alarm
                    (snd (Server.process_frame server_closed (Some 0.1) 5))
                  = true) by (vm_compute; reflexivity).
    assert (Hcs : 0 < Server.CLOSED_SECONDS server_closed) by reflexivity.
    exact (proj1 (proj2 (proj2
             (proj1 alarm_rate_limited server_closed 0.1 5 0.225 0.255
                eq_refl Hcs))) Hal).
  - exact (proj1 (proj2 alarm_rate_limited) server_closed
             [(Some 0.1, 5); (Some 0.1, 8)] 0%nat 1%nat
             (Some 0.1, 5) (Some 0.1, 8)
             (snd (Server.process_frame server_closed (Some 0.1) 5))
             (snd (Server.process_frame
                     (fst (Server.process_frame server_closed (Some 0.1) 5))
                     (Some 0.1) 8))
             Hsorted (le_n 1) eq_refl eq_refl eq_refl eq_refl
             eq_refl eq_refl).
  - assert (Hal : Client.alarm
                    (snd (Client.processFrame client_closed (Some 0.01) 5))
                  = true) by (vm_compute; reflexivity).
    assert (Hcs : 0 < Client.CLOSED_SECONDS client_closed) by reflexivity.
    exact (proj1 (proj2 (proj2
             (proj1 (proj2 (proj2 alarm_rate_limited))
                client_closed 0.01 5 Hcs))) Hal).
  - exact (proj2 (proj2 (proj2 alarm_rate_limited)) client_closed
             [(Some 0.01, 5); (Some 0.01, 8)] 0%nat 1%nat
             (Some 0.01, 5) (Some 0.01, 8)
             (snd (Client.processFrame client_closed (Some 0.01) 5))
             (snd (Client.processFrame
                     (fst (Client.processFrame client_closed (Some 0.01) 5))
                     (Some 0.01) 8))
             Hsorted' (le_n 1) eq_refl eq_refl eq_refl eq_refl
             eq_refl eq_refl).
Defined.

(** ** Invariants of client sessions *)

(** A property kept by every operation holds after any sequence of them. *)
Lemma client_exec_invariant (P : Client.EyeDetector -> Prop) :
  (forall d op, P d -> P (client_apply d op)) ->
  forall ops d, P d -> P (client_exec d ops).
Proof.
  intros Hstep ops. unfold client_exec.
  induction ops as [| op ops IH]; intros d Hd; [exact Hd |].
  cbn [fold_left]. apply IH, Hstep, Hd.
Qed.

(** The same for operations that meet a condition [C]. *)
Lemma client_exec_invariant_when (P : Client.EyeDetector -> Prop)
    (C : ClientOp -> Prop) :
  (forall d op, C op -> P d -> P (client_apply d op)) ->
  forall ops, Forall C ops -> forall d, P d -> P (client_exec d ops).
Proof.
  intros Hstep ops Hall. unfold client_exec.
  induction Hall as [| op ops Hop _ IH]; intros d Hd; [exact Hd |].
  cbn [fold_left]. apply IH, Hstep; assumption.
Qed.

(** The client's state machine either leaves the counters, or counts one
    more frame below TH_LOW and clears the open streak, or counts one more
    frame above TH_HIGH and clears the closed streak. *)
Lemma client_state_machine_counters (c : Client.EyeDetector) (now : Q) :
  let m := Client.state_machine c now in
  (Client.closedFrames m = Client.closedFrames c /\
   Client.openFrames m = Client.openFrames c) \/
  (Client.closedFrames m = (Client.closedFrames c + 1)%Z /\
   Client.openFrames m = 0%Z) \/
  (Client.closedFrames m = 0%Z /\
   Client.openFrames m = (Client.openFrames c + 1)%Z).
Proof.
  unfold Client.state_machine.
  destruct (Qltb (Client.smoothedEye c) (Client.TH_LOW c)).
  - right. left.
    destruct ((Client.FRAMES_REQUIRED c <=? Client.closedFrames c + 1)%Z
              && EyeState_eqb (Client.eyeState c) OPEN); split; reflexivity.
  - destruct (Qltb (Client.TH_HIGH c) (Client.smoothedEye c)).
    + right. right.
      destruct ((Client.FRAMES_REQUIRED c <=? Client.openFrames c + 1)%Z
                && EyeState_eqb (Client.eyeState c) CLOSED);
        split; reflexivity.
    + left. split; reflexivity.
Qed.

(** It either leaves eye state and closed-start time, or closes at [now],
    or opens and clears the time. *)
Lemma client_state_machine_timer (c : Client.EyeDetector) (now : Q) :
  let m := Client.state_machine c now in
  (Client.eyeState m = Client.eyeState c /\
   Client.closedStartTime m = Client.closedStartTime c) \/
  (Client.eyeState c = OPEN /\ Client.eyeState m = CLOSED /\
   Client.closedStartTime m = now) \/
  (Client.eyeState c = CLOSED /\ Client.eyeState m = OPEN /\
   Client.closedStartTime m = 0).
Proof.
  unfold Client.state_machine.
  destruct (Qltb (Client.smoothedEye c) (Client.TH_LOW c)).
  - destruct ((Client.FRAMES_REQUIRED c <=? Client.closedFrames c + 1)%Z
              && EyeState_eqb (Client.eyeState c) OPEN) eqn:E.
    + apply andb_true_iff in E. destruct E as [_ E].
      apply EyeState_eqb_eq in E. right. left. auto.
    + left. split; reflexivity.
  - destruct (Qltb (Client.TH_HIGH c) (Client.smoothedEye c)).
    + destruct ((Client.FRAMES_REQUIRED c <=? Client.openFrames c + 1)%Z
                && EyeState_eqb (Client.eyeState c) CLOSED) eqn:E.
      * apply andb_true_iff in E. destruct E as [_ E].
        apply EyeState_eqb_eq in E. right. right. auto.
      * left. split; reflexivity.
    + left. split; reflexivity.
Qed.

(** X1.  [getCalibrationProgress] is a percentage between 0 and 100, and it
    reads 100 exactly when the buffer holds at least 20 samples, that is
    when a frame result reports [baseline_ready]. *)
Theorem calibration_progress_range (d : Client.EyeDetector) :
  0 <= ClientApi.getCalibrationProgress d /\
  ClientApi.getCalibrationProgress d <= 100 /\
  (ClientApi.getCalibrationProgress d == 100 <->
   Client.baseline_full d = true).
Proof.
  unfold ClientApi.getCalibrationProgress, Client.baseline_full.
  set (n := length (Client.baseline d)).
  assert (Hn : 0 <= inject_Z (Z.of_nat n))
    by (change 0 with (inject_Z 0); rewrite <- Zle_Qle; lia).
  assert (Hx : inject_Z (Z.of_nat n) / 20 * 100 == 5 * inject_Z (Z.of_nat n))
    by field.
  assert (Hfull : (20 <= n)%nat <-> 20 <= inject_Z (Z.of_nat n)).
  { change 20 with (inject_Z 20). rewrite <- Zle_Qle. lia. }
  rewrite Nat.leb_le, Hfull.
  destruct (Q.min_spec (inject_Z (Z.of_nat n) / 20 * 100) 100)
    as [[Hlt ->] | [Hge ->]].
  - rewrite Hx in *. split; [lra |]. split; [lra |]. split; lra.
  - rewrite Hx in *. split; [lra |]. split; [lra |]. split; [lra |].
    intros _. reflexivity.
Qed.

Lemma calibration_progress_range_witness :
  ClientApi.getCalibrationProgress client_calibrating == 25 /\
  Client.baseline_full
    (fst (Client.run (Client.startCalibration Client.init)
            (constant_frames 0.03 (repeat 0 20)))) = true.
Proof.
  split; [reflexivity |].
  apply (proj2 (proj2 (calibration_progress_range _))).
  vm_compute. reflexivity.
Defined.

(** What every client operation keeps of the calibration buffer. *)
Lemma client_apply_buffer (d : Client.EyeDetector) (op : ClientOp) :
  (if Client.isCalibrating d
   then (length (Client.baseline d) < 20)%nat
   else Client.baseline d = [] \/ length (Client.baseline d) = 20%nat) ->
  if Client.isCalibrating (client_apply d op)
  then (length (Client.baseline (client_apply d op)) < 20)%nat
  else Client.baseline (client_apply d op) = [] \/
       length (Client.baseline (client_apply d op)) = 20%nat.
Proof.
  intros Hd. destruct op as [[raw |] now | | cs r sf]; cbn [client_apply].
  - destruct (client_frame_calibration d raw now) as [-> [-> _]].
    unfold Client.calibrate.
    cbn [Client.smooth Client.isCalibrating Client.baseline].
    destruct (Client.isCalibrating d) eqn:Hcal.
    + destruct (20 <=? length (Client.baseline d ++ _))%nat eqn:Hfull;
        cbn [Client.isCalibrating Client.baseline].
      * right. apply Nat.leb_le in Hfull.
        rewrite length_app in *. simpl in *. lia.
      * apply Nat.leb_gt in Hfull. exact Hfull.
    + cbn [Client.smooth Client.isCalibrating Client.baseline].
      rewrite Hcal. exact Hd.
  - exact Hd.
  - cbn. lia.
  - exact Hd.
Qed.

(** X2.  In every client session the calibration buffer never holds more
    than 20 samples: fewer than 20 while calibrating, and none or exactly 20
    otherwise.  So [baseline_ready] is reported exactly when a calibration
    has run to its end and none has been started since. *)
Theorem client_buffer_bounded (ops : list ClientOp) :
  let d := client_exec Client.init ops in
  (length (Client.baseline d) <= 20)%nat /\
  (if Client.isCalibrating d
   then (length (Client.baseline d) < 20)%nat
   else Client.baseline d = [] \/ length (Client.baseline d) = 20%nat) /\
  Client.baseline_full d
  = negb (Client.isCalibrating d)
    && negb (Nat.eqb (length (Client.baseline d)) 0).
Proof.
  cbv zeta.
  assert (H : if Client.isCalibrating (client_exec Client.init ops)
              then (length (Client.baseline (client_exec Client.init ops))
                    < 20)%nat
              else Client.baseline (client_exec Client.init ops) = [] \/
                   length (Client.baseline (client_exec Client.init ops))
                   = 20%nat).
  { apply (client_exec_invariant
             (fun d => if Client.isCalibrating d
                       then (length (Client.baseline d) < 20)%nat
                       else Client.baseline d = [] \/
                            length (Client.baseline d) = 20%nat)).
    - exact client_apply_buffer.
    - cbn. left. reflexivity. }
  unfold Client.baseline_full.
  destruct (Client.isCalibrating (client_exec Client.init ops)).
  - split; [lia |]. split; [exact H |].
    cbn [negb andb]. apply Nat.leb_gt. exact H.
  - destruct H as [H | H].
    + rewrite H. cbn. repeat split; auto; lia.
    + rewrite H. cbn. repeat split; auto.
Qed.

(** What every client operation keeps of the streak counters. *)
Lemma client_apply_counters (d : Client.EyeDetector) (op : ClientOp) :
  (0 <= Client.closedFrames d)%Z /\ (0 <= Client.openFrames d)%Z /\
  (Client.closedFrames d = 0%Z \/ Client.openFrames d = 0%Z) ->
  (0 <= Client.closedFrames (client_apply d op))%Z /\
  (0 <= Client.openFrames (client_apply d op))%Z /\
  (Client.closedFrames (client_apply d op) = 0%Z \/
   Client.openFrames (client_apply d op) = 0%Z).
Proof.
  intros Hd. destruct op as [[raw |] now | | cs r sf]; cbn [client_apply];
    try exact Hd.
  unfold Client.processFrame.
  destruct (ClientFacts.check_alarm_counters
              (Client.state_machine
                 (Client.calibrate (Client.smooth d raw)) now) now)
    as [-> ->].
  destruct (ClientFacts.calibrate_machine (Client.smooth d raw))
    as [_ [_ [Hcf [Hof _]]]].
  cbn [Client.smooth Client.closedFrames Client.openFrames] in Hcf, Hof.
  destruct (client_state_machine_counters
              (Client.calibrate (Client.smooth d raw)) now)
    as [[-> ->] | [[-> ->] | [-> ->]]]; rewrite ?Hcf, ?Hof; lia.
Qed.

(** X3.  In every client session both streak counters are non-negative and
    at most one of them is running: a frame below TH_LOW clears the open
    streak and a frame above TH_HIGH clears the closed streak. *)
Theorem client_streaks_exclusive (ops : list ClientOp) :
  let d := client_exec Client.init ops in
  (0 <= Client.closedFrames d)%Z /\ (0 <= Client.openFrames d)%Z /\
  (Client.closedFrames d = 0%Z \/ Client.openFrames d = 0%Z).
Proof.
  cbv zeta.
  apply (client_exec_invariant
           (fun d => (0 <= Client.closedFrames d)%Z /\
                     (0 <= Client.openFrames d)%Z /\
                     (Client.closedFrames d = 0%Z \/
                      Client.openFrames d = 0%Z))).
  - exact client_apply_counters.
  - cbn. lia.
Qed.

(** What every client operation keeps of the closed-start time, when its
    clock reading is positive. *)
Lemma client_apply_timer (d : Client.EyeDetector) (op : ClientOp) :
  client_clock_positive op ->
  (Client.eyeState d = OPEN -> Client.closedStartTime d = 0) /\
  (Client.eyeState d = CLOSED -> 0 < Client.closedStartTime d) ->
  (Client.eyeState (client_apply d op) = OPEN ->
   Client.closedStartTime (client_apply d op) = 0) /\
  (Client.eyeState (client_apply d op) = CLOSED ->
   0 < Client.closedStartTime (client_apply d op)).
Proof.
  intros Hpos Hd. destruct op as [[raw |] now | | cs r sf];
    cbn [client_apply]; try exact Hd.
  cbn in Hpos. unfold Client.processFrame.
  rewrite ClientFacts.check_alarm_eyeState,
    ClientFacts.check_alarm_closedStartTime.
  destruct (ClientFacts.calibrate_machine (Client.smooth d raw))
    as [Hs [Ht _]].
  cbn [Client.smooth Client.eyeState Client.closedStartTime] in Hs, Ht.
  destruct (client_state_machine_timer
              (Client.calibrate (Client.smooth d raw)) now)
    as [[-> ->] | [[_ [-> ->]] | [_ [-> ->]]]].
  - rewrite Hs, Ht. exact Hd.
  - split; [discriminate | intros _; exact Hpos].
  - split; [reflexivity | discriminate].
Qed.

(** X4.  In every client session whose clock readings are positive, the
    closed-start time is 0 exactly while the eye state is OPEN and positive
    while it is CLOSED, so that a CLOSED tracker always measures its closed
    duration. *)
Theorem client_timer_follows_state (ops : list ClientOp) :
  Forall client_clock_positive ops ->
  let d := client_exec Client.init ops in
  (Client.eyeState d = OPEN -> Client.closedStartTime d = 0) /\
  (Client.eyeState d = CLOSED -> 0 < Client.closedStartTime d) /\
  Client.closed_timed d = EyeState_eqb (Client.eyeState d) CLOSED.
Proof.
  intros Hall. cbv zeta.
  assert (H : (Client.eyeState (client_exec Client.init ops) = OPEN ->
               Client.closedStartTime (client_exec Client.init ops) = 0) /\
              (Client.eyeState (client_exec Client.init ops) = CLOSED ->
               0 < Client.closedStartTime (client_exec Client.init ops))).
  { apply (client_exec_invariant_when
             (fun d => (Client.eyeState d = OPEN ->
                        Client.closedStartTime d = 0) /\
                       (Client.eyeState d = CLOSED ->
                        0 < Client.closedStartTime d))
             client_clock_positive).
    - intros d op Hop Hd. apply client_apply_timer; assumption.
    - exact Hall.
    - cbn. split; [reflexivity | discriminate]. }
  destruct H as [Ho Hc]. split; [exact Ho |]. split; [exact Hc |].
  unfold Client.closed_timed.
  destruct (Client.eyeState (client_exec Client.init ops)) eqn:E;
    [reflexivity |].
  cbn [EyeState_eqb andb]. apply Qltb_true_iff, Hc. reflexivity.
Qed.

Lemma client_timer_follows_state_witness :
  Client.eyeState
    (client_exec Client.init
       [CFrame (Some 0) 1; CFrame (Some 0) 2; CFrame (Some 0) 3;
        CFrame (Some 0) 4; CFrame (Some 0) 5; CFrame (Some 0) 6]) = CLOSED /\
  0 < Client.closedStartTime
        (client_exec Client.init
           [CFrame (Some 0) 1; CFrame (Some 0) 2; CFrame (Some 0) 3;
            CFrame (Some 0) 4; CFrame (Some 0) 5; CFrame (Some 0) 6]).
Proof.
  assert (Hpos : Forall client_clock_positive
                   [CFrame (Some 0) 1; CFrame (Some 0) 2; CFrame (Some 0) 3;
                    CFrame (Some 0) 4; CFrame (Some 0) 5; CFrame (Some 0) 6])
    by (repeat constructor).
  assert (Hst : Client.eyeState
                  (client_exec Client.init
                     [CFrame (Some 0) 1; CFrame (Some 0) 2;
                      CFrame (Some 0) 3; CFrame (Some 0) 4;
                      CFrame (Some 0) 5; CFrame (Some 0) 6]) = CLOSED)
    by (vm_compute; reflexivity).
  split; [exact Hst |].
  exact (proj1 (proj2 (client_timer_follows_state _ Hpos)) Hst).
Defined.

(** ** Closing and reopening *)

(** The frame below TH_LOW that brings the closed streak of an OPEN client
    tracker to [FRAMES_REQUIRED] closes it at [now]. *)
Lemma client_closing_step (d : Client.EyeDetector) (raw now : Q) :
  Client.isCalibrating d = false ->
  Client.eyeState d = OPEN ->
  (Client.FRAMES_REQUIRED d <= Client.closedFrames d + 1)%Z ->
  let d' := fst (Client.processFrame d (Some raw) now) in
  Client.smoothedEye d' < Client.TH_LOW d ->
  Client.eyeState d' = CLOSED /\ Client.closedStartTime d' = now.
Proof.
  intros Hcal Hopen Hreq d'. unfold d', Client.processFrame.
  rewrite (ClientFacts.calibrate_idle (Client.smooth d raw) Hcal).
  rewrite ClientFacts.check_alarm_eyeState,
    ClientFacts.check_alarm_closedStartTime.
  destruct (ClientFacts.check_alarm_signal
              (Client.state_machine (Client.smooth d raw) now) now)
    as [-> _].
  destruct (ClientFacts.state_machine_signal (Client.smooth d raw) now)
    as [-> _].
  intros Hlo. unfold Client.state_machine.
  cbn [Client.smooth Client.smoothedEye Client.TH_LOW Client.TH_HIGH
       Client.closedFrames Client.FRAMES_REQUIRED Client.eyeState] in *.
  apply Qltb_true_iff in Hlo. rewrite Hlo, Hopen.
  apply Z.leb_le in Hreq. rewrite Hreq. cbn. split; reflexivity.
Qed.

(** A run of frames below TH_LOW on an OPEN client tracker whose streak is
    short of [FRAMES_REQUIRED] by the length of the run. *)
Lemma client_closing_run (fs : list (Q * Q)) :
  forall (d : Client.EyeDetector) (final : Q * Q),
    Client.isCalibrating d = false ->
    Client.eyeState d = OPEN ->
    Client.FRAMES_REQUIRED d
    = (Client.closedFrames d + Z.of_nat (length fs + 1))%Z ->
    Forall (fun r => Client.eye r < Client.TH_LOW d)
      (snd (Client.run d (face_frames (fs ++ [final])))) ->
    Client.eyeState (fst (Client.run d (face_frames (fs ++ [final]))))
    = CLOSED /\
    Client.closedStartTime
      (fst (Client.run d (face_frames (fs ++ [final])))) = snd final /\
    map Client.state (snd (Client.run d (face_frames (fs ++ [final]))))
    = repeat OPEN (length fs) ++ [CLOSED].
Proof.
  induction fs as [| [raw now] fs IH]; intros d final Hcal Hopen Hreq Hall.
  - destruct final as [raw now]. cbn [app face_frames map fst snd] in *.
    rewrite client_run_cons in *. cbn [Client.run fst snd] in *.
    inversion Hall as [| r rs Hr _]. subst r rs.
    destruct (client_closing_step d raw now Hcal Hopen) as [Hst Ht];
      [cbn in Hreq; lia | exact Hr |].
    cbn [length repeat app map]. repeat split; try assumption.
    f_equal. exact Hst.
  - cbn [app face_frames map fst snd length] in *.
    fold (face_frames (fs ++ [final])) in *.
    rewrite client_run_cons in *. cbn [fst snd] in *.
    inversion Hall as [| r rs Hr Hrest]. subst r rs.
    destruct (client_below_step d raw now Hcal Hopen) as
      [Hcal1 [Hopen1 [Hcf1 [Hfr1 [Hlo1 _]]]]]; [lia | exact Hr |].
    destruct (IH (fst (Client.processFrame d (Some raw) now)) final)
      as [Hst [Ht Hmap]]; try assumption.
    + rewrite Hfr1, Hcf1, Hreq. lia.
    + rewrite Hlo1. exact Hrest.
    + split; [exact Hst |]. split; [exact Ht |].
      cbn [map repeat app]. rewrite Hmap. f_equal. exact Hopen1.
Qed.

(** X5.  On an OPEN client tracker that is not calibrating and whose closed
    streak is 0, a run of exactly [FRAMES_REQUIRED] frames whose smoothed
    signal is below TH_LOW reports OPEN on every frame but the last and
    CLOSED on the last, and records the last frame's clock reading as the
    closed-start time. *)
Theorem client_closes_after_required_frames (d : Client.EyeDetector)
    (fs : list (Q * Q)) (final : Q * Q) :
  Client.isCalibrating d = false ->
  Client.eyeState d = OPEN ->
  Client.closedFrames d = 0%Z ->
  Client.FRAMES_REQUIRED d = Z.of_nat (length fs + 1) ->
  Forall (fun r => Client.eye r < Client.TH_LOW d)
    (snd (Client.run d (face_frames (fs ++ [final])))) ->
  Client.eyeState (fst (Client.run d (face_frames (fs ++ [final]))))
  = CLOSED /\
  Client.closedStartTime
    (fst (Client.run d (face_frames (fs ++ [final])))) = snd final /\
  map Client.state (snd (Client.run d (face_frames (fs ++ [final]))))
  = repeat OPEN (length fs) ++ [CLOSED].
Proof.
  intros Hcal Hopen Hcf Hreq Hall.
  apply client_closing_run; try assumption.
  rewrite Hcf, Hreq. lia.
Qed.

Lemma client_closes_after_required_frames_witness :
  map Client.state
    (snd (Client.run client_first
            (face_frames ([(0, 2); (0, 3); (0, 4); (0, 5)] ++ [(0, 6)]))))
  = repeat OPEN 4 ++ [CLOSED].
Proof.
  assert (Hall : Forall (fun r => Client.eye r < Client.TH_LOW client_first)
                   (snd (Client.run client_first
                           (face_frames ([(0, 2); (0, 3); (0, 4); (0, 5)]
                                         ++ [(0, 6)])))))
    by (vm_compute; repeat constructor).
  exact (proj2 (proj2 (client_closes_after_required_frames client_first
                         [(0, 2); (0, 3); (0, 4); (0, 5)] (0, 6)
                         eq_refl eq_refl eq_refl eq_refl Hall))).
Defined.

(** The client's state machine opens a CLOSED tracker only on a value above
    TH_HIGH (and not below TH_LOW) that brings the open streak to
    [FRAMES_REQUIRED]. *)
Lemma client_state_machine_opens (c : Client.EyeDetector) (now : Q) :
  Client.eyeState c = CLOSED ->
  Client.eyeState (Client.state_machine c now) = OPEN ->
  Client.TH_LOW c <= Client.smoothedEye c /\
  Client.TH_HIGH c < Client.smoothedEye c /\
  (Client.FRAMES_REQUIRED c <= Client.openFrames c + 1)%Z /\
  Client.openFrames (Client.state_machine c now)
  = (Client.openFrames c + 1)%Z /\
  Client.closedFrames (Client.state_machine c now) = 0%Z /\
  Client.closedStartTime (Client.state_machine c now) = 0.
Proof.
  intros Hclosed. unfold Client.state_machine. rewrite Hclosed. simpl.
  rewrite andb_true_r, andb_false_r.
  destruct (Qltb (Client.smoothedEye c) (Client.TH_LOW c)) eqn:Elo;
    [simpl; congruence |].
  destruct (Qltb (Client.TH_HIGH c) (Client.smoothedEye c)) eqn:Ehi;
    [| simpl; congruence].
  destruct (Client.FRAMES_REQUIRED c <=? Client.openFrames c + 1)%Z eqn:Efr;
    simpl; [| congruence].
  intros _. apply Qltb_false_iff in Elo. apply Qltb_true_iff in Ehi.
  apply Z.leb_le in Efr. repeat split; assumption.
Qed.

(** X6.  On the client, a CLOSED tracker becomes OPEN only on a frame whose
    smoothed signal is above TH_HIGH and not below TH_LOW and that brings
    the open streak to [FRAMES_REQUIRED]; that frame clears the closed
    streak and the closed-start time and reports [closed_for = 0] without an
    alarm. *)
Theorem client_reopens_debounced (d : Client.EyeDetector) (raw now : Q) :
  Client.eyeState d = CLOSED ->
  let d' := fst (Client.processFrame d (Some raw) now) in
  let r := snd (Client.processFrame d (Some raw) now) in
  Client.eyeState d' = OPEN ->
  Client.TH_HIGH d' < Client.smoothedEye d' /\
  Client.TH_LOW d' <= Client.smoothedEye d' /\
  Client.openFrames d' = (Client.openFrames d + 1)%Z /\
  (Client.FRAMES_REQUIRED d <= Client.openFrames d')%Z /\
  Client.closedFrames d' = 0%Z /\
  Client.closedStartTime d' = 0 /\
  Client.closed_for r = 0 /\
  Client.alarm r = false.
Proof.
  intros Hclosed d' r. unfold d', r, Client.processFrame.
  set (c := Client.calibrate (Client.smooth d raw)).
  destruct (ClientFacts.calibrate_machine (Client.smooth d raw))
    as [Hs [_ [_ [Hof _]]]]. fold c in Hs, Hof.
  destruct (ClientFacts.calibrate_config (Client.smooth d raw)) as [Hfr _].
  fold c in Hfr. cbn [Client.smooth Client.eyeState Client.openFrames
                      Client.FRAMES_REQUIRED] in Hs, Hof, Hfr.
  set (m := Client.state_machine c now).
  rewrite ClientFacts.check_alarm_eyeState,
    ClientFacts.check_alarm_closedStartTime.
  destruct (ClientFacts.check_alarm_counters m now) as [-> ->].
  destruct (ClientFacts.check_alarm_signal m now) as [-> [-> ->]].
  destruct (ClientFacts.state_machine_signal c now) as [Hsm [Hlo Hhi]].
  fold m in Hsm, Hlo, Hhi. rewrite Hsm, Hlo, Hhi.
  intros Hopen.
  destruct (client_state_machine_opens c now)
    as [H1 [H2 [H3 [H4 [H5 H6]]]]];
    [rewrite Hs; exact Hclosed | exact Hopen |].
  fold m in H4, H5, H6. rewrite H4, H5, H6, <- Hfr, <- Hof.
  repeat split; try assumption; try lia.
  - unfold Client.check_alarm, Client.closed_timed. cbn [snd Client.closed_for].
    fold m in Hopen. rewrite Hopen. reflexivity.
  - unfold Client.check_alarm, Client.closed_timed. cbn [snd Client.alarm].
    fold m in Hopen. rewrite Hopen. reflexivity.
Qed.

Lemma client_reopens_debounced_witness :
  Client.closedStartTime
    (fst (Client.processFrame
            (Client.set_machine 0 4 CLOSED 3 client_closed) (Some 1) 9)) = 0.
Proof.
  assert (Hopen : Client.eyeState
                    (fst (Client.processFrame
                            (Client.set_machine 0 4 CLOSED 3 client_closed)
                            (Some 1) 9)) = OPEN) by (vm_compute; reflexivity).
  exact (proj1 (proj2 (proj2 (proj2 (proj2 (proj2
           (client_reopens_debounced
              (Client.set_machine 0 4 CLOSED 3 client_closed) 1 9
              eq_refl Hopen))))))).
Defined.

(** X7.  The server does not debounce reopening: on a calibrated tracker
    with TH_LOW <= TH_HIGH, one frame whose smoothed signal is above TH_HIGH
    sets the state to OPEN, clears the closed-start time and the streak, and
    reports [closed_for = 0] without an alarm, whatever the state and the
    streak were. *)
Theorem server_reopens_at_once (d : Server.Detector) (raw now lo hi : Q) :
  Server.thresholds d = Some (lo, hi) ->
  lo <= hi ->
  let d' := fst (Server.process_frame d (Some raw) now) in
  let r := snd (Server.process_frame d (Some raw) now) in
  hi < Server.eye_openness r ->
  Server.current_state d' = OPEN /\
  Server.closed_start d' = None /\
  Server.consecutive_detections d' = 0%Z /\
  Server.closed_for r == 0 /\
  Server.alarm r = false.
Proof.
  intros Hth Hord d' r. unfold d', r.
  rewrite (ServerFacts.process_frame_calibrated d raw now lo hi Hth).
  rewrite ServerFacts.check_alarm_current_state,
    ServerFacts.check_alarm_consecutive,
    ServerFacts.check_alarm_closed_start.
  change (Server.eye_openness (snd (Server.check_alarm ?m ?s lo hi now)))
    with s.
  intros Hhi.
  assert (Hm : Server.state_machine
                 (Server.set_smoothed_eye (Some (Server.smooth d raw)) d)
                 (Server.smooth d raw) lo hi now
               = Server.set_consecutive_detections 0
                   (Server.set_closed_start None
                      (Server.set_current_state OPEN
                         (Server.set_smoothed_eye
                            (Some (Server.smooth d raw)) d)))).
  { unfold Server.state_machine.
    assert (Hlo : Qltb (Server.smooth d raw) lo = false)
      by (apply Qltb_false_iff; lra).
    apply Qltb_true_iff in Hhi. rewrite Hlo, Hhi. reflexivity. }
  rewrite Hm. split; [reflexivity |]. split; [reflexivity |].
  split; [reflexivity |].
  unfold Server.check_alarm, Server.closed_confirmed.
  cbn. split; reflexivity.
Qed.

Lemma server_reopens_at_once_witness :
  Server.current_state
    (fst (Server.process_frame server_closed (Some 1) 9)) = OPEN.
Proof.
  assert (Hord : 0.225 <= 0.255) by (intros H; discriminate H).
  assert (Hhi : 0.255 < Server.eye_openness
                          (snd (Server.process_frame server_closed
                                  (Some 1) 9))) by reflexivity.
  exact (proj1 (server_reopens_at_once server_closed 1 9 0.225 0.255
                  eq_refl Hord Hhi)).
Defined.

(** ** Invariants of server sessions *)

Lemma server_exec_invariant (P : Server.Detector -> Prop) :
  (forall d op, P d -> P (server_apply d op)) ->
  forall ops d, P d -> P (server_exec d ops).
Proof.
  intros Hstep ops. unfold server_exec.
  induction ops as [| op ops IH]; intros d Hd; [exact Hd |].
  cbn [fold_left]. apply IH, Hstep, Hd.
Qed.

(** The same for operations that meet a condition [C]. *)
Lemma server_exec_invariant_when (P : Server.Detector -> Prop)
    (C : ServerOp -> Prop) :
  (forall d op, C op -> P d -> P (server_apply d op)) ->
  forall ops, Forall C ops -> forall d, P d -> P (server_exec d ops).
Proof.
  intros Hstep ops Hall. unfold server_exec.
  induction Hall as [| op ops Hop _ IH]; intros d Hd; [exact Hd |].
  cbn [fold_left]. apply IH, Hstep; assumption.
Qed.

(** The server's state machine, by cases: a frame below TH_LOW closes an
    OPEN tracker at [now] with a streak of 1 or lengthens the streak of a
    CLOSED one; a frame above TH_HIGH opens and clears; the dead band leaves
    everything. *)
Lemma server_state_machine_cases (d : Server.Detector) (s lo hi now : Q) :
  let m := Server.state_machine d s lo hi now in
  (s < lo /\ Server.current_state d = OPEN /\
   Server.current_state m = CLOSED /\ Server.closed_start m = Some now /\
   Server.consecutive_detections m = 1%Z) \/
  (s < lo /\ Server.current_state d = CLOSED /\
   Server.current_state m = CLOSED /\
   Server.closed_start m = Server.closed_start d /\
   Server.consecutive_detections m
   = (Server.consecutive_detections d + 1)%Z) \/
  (lo <= s /\ hi < s /\
   Server.current_state m = OPEN /\ Server.closed_start m = None /\
   Server.consecutive_detections m = 0%Z) \/
  (lo <= s /\ s <= hi /\ m = d).
Proof.
  unfold Server.state_machine.
  destruct (Qltb s lo) eqn:Elo.
  - apply Qltb_true_iff in Elo.
    destruct (Server.current_state d) eqn:Est; [left | right; left];
      cbn; rewrite ?Est; auto.
  - apply Qltb_false_iff in Elo. right. right.
    destruct (Qltb hi s) eqn:Ehi.
    + apply Qltb_true_iff in Ehi. left. cbn. auto.
    + apply Qltb_false_iff in Ehi. right. auto.
Qed.

(** What a server frame with a face keeps of the configuration. *)
Lemma server_frame_config (d : Server.Detector) (raw : option Q) (now : Q) :
  Server.BASELINE_FRAMES (fst (Server.process_frame d raw now))
  = Server.BASELINE_FRAMES d /\
  Server.FRAMES_REQUIRED (fst (Server.process_frame d raw now))
  = Server.FRAMES_REQUIRED d /\
  Server.CLOSED_SECONDS (fst (Server.process_frame d raw now))
  = Server.CLOSED_SECONDS d /\
  Server.SMOOTHING_FACTOR (fst (Server.process_frame d raw now))
  = Server.SMOOTHING_FACTOR d.
Proof.
  destruct raw as [raw |]; [| repeat split].
  destruct (Server.thresholds d) as [[lo hi] |] eqn:Hth.
  - rewrite (ServerFacts.process_frame_calibrated d raw now lo hi Hth).
    set (m := Server.state_machine _ _ lo hi now).
    assert (Hm : Server.BASELINE_FRAMES m = Server.BASELINE_FRAMES d /\
                 Server.FRAMES_REQUIRED m = Server.FRAMES_REQUIRED d /\
                 Server.CLOSED_SECONDS m = Server.CLOSED_SECONDS d /\
                 Server.SMOOTHING_FACTOR m = Server.SMOOTHING_FACTOR d).
    { unfold m, Server.state_machine.
      destruct (Qltb (Server.smooth d raw) lo);
        [destruct (Server.current_state _) |
         destruct (Qltb hi (Server.smooth d raw))];
        cbn; repeat split. }
    destruct (ServerFacts.check_alarm_writes m (Server.smooth d raw)
                lo hi now) as [-> | [_ ->]]; exact Hm.
  - rewrite (ServerFacts.process_frame_uncalibrated d raw now Hth).
    cbn [fst]. unfold Server.calibrate.
    destruct (_ <=? _)%Z; cbn; repeat split.
Qed.

(** What every server operation keeps of eye state, closed-start time and
    streak. *)
Lemma server_apply_timer (d : Server.Detector) (op : ServerOp) :
  (Server.current_state d = OPEN <-> Server.closed_start d = None) /\
  (Server.current_state d = CLOSED ->
   (1 <= Server.consecutive_detections d)%Z) /\
  (0 <= Server.consecutive_detections d)%Z ->
  (Server.current_state (server_apply d op) = OPEN <->
   Server.closed_start (server_apply d op) = None) /\
  (Server.current_state (server_apply d op) = CLOSED ->
   (1 <= Server.consecutive_detections (server_apply d op))%Z) /\
  (0 <= Server.consecutive_detections (server_apply d op))%Z.
Proof.
  intros [Hiff [Hone Hnn]].
  destruct op as [[raw |] now | | cs r sf]; cbn [server_apply].
  - destruct (Server.thresholds d) as [[lo hi] |] eqn:Hth.
    + rewrite (ServerFacts.process_frame_calibrated d raw now lo hi Hth).
      rewrite ServerFacts.check_alarm_current_state,
        ServerFacts.check_alarm_consecutive,
        ServerFacts.check_alarm_closed_start.
      destruct (server_state_machine_cases
                  (Server.set_smoothed_eye (Some (Server.smooth d raw)) d)
                  (Server.smooth d raw) lo hi now)
        as [[_ [_ [-> [-> ->]]]] | [[_ [Hc [-> [-> ->]]]] |
            [[_ [_ [-> [-> ->]]]] | [_ [_ ->]]]]];
        cbn [Server.set_smoothed_eye Server.current_state
             Server.closed_start Server.consecutive_detections] in *.
      * repeat split; try discriminate; lia.
      * specialize (Hone Hc). repeat split; try lia.
        -- discriminate.
        -- intros Hn. apply Hiff in Hn. congruence.
      * repeat split; try discriminate; lia.
      * auto.
    + rewrite (ServerFacts.process_frame_uncalibrated d raw now Hth).
      cbn [fst]. unfold Server.calibrate.
      destruct (_ <=? _)%Z; cbn; auto.
  - auto.
  - cbn. repeat split; try discriminate; lia.
  - auto.
Qed.

(** X8.  In every server session, the eye state is OPEN exactly when no
    closed-start time is recorded, the streak counter is never negative,
    and it is at least 1 while the state is CLOSED. *)
Theorem server_timer_follows_state (cs r sf : Q) (bf fr : Z)
    (ops : list ServerOp) :
  let d := server_exec (Server.init cs r sf bf fr) ops in
  (Server.current_state d = OPEN <-> Server.closed_start d = None) /\
  (Server.current_state d = CLOSED ->
   (1 <= Server.consecutive_detections d)%Z) /\
  (0 <= Server.consecutive_detections d)%Z.
Proof.
  cbv zeta.
  apply (server_exec_invariant
           (fun d =>
              (Server.current_state d = OPEN <->
               Server.closed_start d = None) /\
              (Server.current_state d = CLOSED ->
               (1 <= Server.consecutive_detections d)%Z) /\
              (0 <= Server.consecutive_detections d)%Z)).
  - exact server_apply_timer.
  - cbn. repeat split; try discriminate; lia.
Qed.

Lemma server_timer_follows_state_witness :
  Z.le 1
    (Server.consecutive_detections
       (server_exec (Server.init 1.2 2.5 0.7 2 5)
          [SFrame (Some 0.3) 1; SFrame (Some 0.3) 2; SFrame (Some 0) 3])).
Proof.
  apply (proj1 (proj2 (server_timer_follows_state 1.2 2.5 0.7 2 5
                         [SFrame (Some 0.3) 1; SFrame (Some 0.3) 2;
                          SFrame (Some 0) 3]))).
  vm_compute. reflexivity.
Defined.

(** What every server operation keeps of thresholds and buffer. *)
Lemma server_apply_thresholds (d : Server.Detector) (op : ServerOp) :
  match Server.thresholds d with
  | Some (lo, hi) =>
      lo = Server.median (Server.baseline_buffer d) * 0.75 /\
      hi = Server.median (Server.baseline_buffer d) * 0.85 /\
      Z.of_nat (length (Server.baseline_buffer d))
      = Z.max 1 (Server.BASELINE_FRAMES d)
  | None =>
      Server.baseline_buffer d = [] \/
      (Z.of_nat (length (Server.baseline_buffer d))
       < Server.BASELINE_FRAMES d)%Z
  end ->
  match Server.thresholds (server_apply d op) with
  | Some (lo, hi) =>
      lo = Server.median (Server.baseline_buffer (server_apply d op)) * 0.75 /\
      hi = Server.median (Server.baseline_buffer (server_apply d op)) * 0.85 /\
      Z.of_nat (length (Server.baseline_buffer (server_apply d op)))
      = Z.max 1 (Server.BASELINE_FRAMES (server_apply d op))
  | None =>
      Server.baseline_buffer (server_apply d op) = [] \/
      (Z.of_nat (length (Server.baseline_buffer (server_apply d op)))
       < Server.BASELINE_FRAMES (server_apply d op))%Z
  end.
Proof.
  intros Hd. destruct op as [[raw |] now | | cs r sf]; cbn [server_apply].
  - destruct (server_frame_config d (Some raw) now) as [Hbf _].
    rewrite Hbf.
    destruct (Server.thresholds d) as [[lo hi] |] eqn:Hth.
    + destruct (server_frame_calibrated_keeps d raw now lo hi Hth)
        as [-> [-> _]]. exact Hd.
    + rewrite (ServerFacts.process_frame_uncalibrated d raw now Hth).
      cbn [fst]. unfold Server.calibrate.
      cbn [Server.set_baseline_buffer Server.BASELINE_FRAMES
           Server.baseline_buffer Server.set_smoothed_eye].
      destruct (Server.BASELINE_FRAMES d
                <=? Z.of_nat (length (Server.baseline_buffer d
                                        ++ [Server.smooth d raw])))%Z eqn:E.
      * apply Z.leb_le in E.
        cbn [Server.thresholds Server.set_thresholds Server.baseline_buffer
             Server.set_baseline_buffer].
        split; [reflexivity |]. split; [reflexivity |].
        rewrite length_app in *. cbn [length] in *.
        destruct Hd as [Hd | Hd]; [rewrite Hd in *; cbn [length] in * |];
          lia.
      * apply Z.leb_gt in E.
        cbn [Server.thresholds Server.set_baseline_buffer
             Server.set_smoothed_eye Server.baseline_buffer].
        rewrite Hth. right. exact E.
  - exact Hd.
  - cbn. left. reflexivity.
  - exact Hd.
Qed.

(** X9.  In every server session the thresholds in force are the median of
    the stored calibration buffer times 0.75 and 0.85: the buffer is kept,
    not cleared, when a calibration completes, and then holds
    [max 1 BASELINE_FRAMES] samples.  While the thresholds are absent the
    buffer is empty or shorter than [BASELINE_FRAMES]. *)
Theorem server_thresholds_from_buffer (cs r sf : Q) (bf fr : Z)
    (ops : list ServerOp) :
  let d := server_exec (Server.init cs r sf bf fr) ops in
  match Server.thresholds d with
  | Some (lo, hi) =>
      lo = Server.median (Server.baseline_buffer d) * 0.75 /\
      hi = Server.median (Server.baseline_buffer d) * 0.85 /\
      Z.of_nat (length (Server.baseline_buffer d))
      = Z.max 1 (Server.BASELINE_FRAMES d)
  | None =>
      Server.baseline_buffer d = [] \/
      (Z.of_nat (length (Server.baseline_buffer d))
       < Server.BASELINE_FRAMES d)%Z
  end.
Proof.
  cbv zeta.
  apply (server_exec_invariant
           (fun d =>
              match Server.thresholds d with
              | Some (lo, hi) =>
                  lo = Server.median (Server.baseline_buffer d) * 0.75 /\
                  hi = Server.median (Server.baseline_buffer d) * 0.85 /\
                  Z.of_nat (length (Server.baseline_buffer d))
                  = Z.max 1 (Server.BASELINE_FRAMES d)
              | None =>
                  Server.baseline_buffer d = [] \/
                  (Z.of_nat (length (Server.baseline_buffer d))
                   < Server.BASELINE_FRAMES d)%Z
              end)).
  - exact server_apply_thresholds.
  - cbn. left. reflexivity.
Qed.

(** ** The order of the thresholds *)

(** Every operation within the documented domain keeps the invariant. *)
Lemma server_apply_inv (d : Server.Detector) (op : ServerOp) :
  server_op_in_domain op -> server_inv d -> server_inv (server_apply d op).
Proof.
  intros Hop Hinv.
  destruct op as [[raw |] now | | cs r [a |]]; cbn [server_apply].
  - cbn in Hop.
    pose proof (server_smooth_pos d raw Hinv Hop) as Hs.
    pose proof (server_process_frame_smoothed d raw now) as Hsm.
    destruct Hinv as [Ha0 [Ha1 [_ [Hbuf Hord]]]].
    destruct (Server.thresholds d) as [[lo hi] |] eqn:Hth.
    + destruct (server_frame_calibrated_keeps d raw now lo hi Hth)
        as [Hth' [Hbuf' Hsf']].
      unfold server_inv. rewrite Hsm, Hth', Hbuf', Hsf'.
      repeat split; try assumption.
      intros p Hp. inversion Hp. subst p. exact Hs.
    + destruct (server_frame_uncalibrated_sets d raw now Hth)
        as [Hbuf' [Hsf' Hth']].
      assert (Hall : Forall (fun x => 0 < x)
                       (Server.baseline_buffer d ++ [Server.smooth d raw])).
      { apply Forall_app. split; [exact Hbuf |].
        constructor; [exact Hs | constructor]. }
      unfold server_inv. rewrite Hsm, Hsf'. rewrite Hbuf' in *.
      repeat split; try assumption.
      * intros p Hp. inversion Hp. subst p. exact Hs.
      * intros lo hi Heq. destruct Hth' as [Hnone | [_ Hsome]];
          [congruence |].
        rewrite Hsome in Heq. inversion Heq.
        apply scaled_thresholds_ordered, server_median_pos;
          [exact Hall |].
        destruct (Server.baseline_buffer d); simpl; congruence.
  - exact Hinv.
  - destruct Hinv as [Ha0 [Ha1 [Hsm [Hbuf Hord]]]].
    unfold server_inv. cbn. repeat split; try assumption.
    + constructor.
    + intros lo hi Heq. discriminate.
  - destruct Hinv as [Ha0 [Ha1 [Hsm [Hbuf Hord]]]]. destruct Hop.
    unfold server_inv. cbn [Server.update_params Server.SMOOTHING_FACTOR
      Server.smoothed_eye Server.baseline_buffer Server.thresholds].
    repeat split; assumption.
  - exact Hinv.
Qed.

(** A new server tracker with a smoothing factor in [0, 1] has it. *)
Lemma server_init_inv (cs r sf : Q) (bf fr : Z) :
  0 <= sf -> sf <= 1 -> server_inv (Server.init cs r sf bf fr).
Proof.
  intros H0 H1. unfold server_inv. cbn. repeat split; try assumption.
  - intros p Hp. discriminate.
  - constructor.
  - intros lo hi Heq. discriminate.
Qed.

Lemma server_session_inv (cs r sf : Q) (bf fr : Z) (ops : list ServerOp) :
  0 <= sf -> sf <= 1 -> Forall server_op_in_domain ops ->
  server_inv (server_exec (Server.init cs r sf bf fr) ops).
Proof.
  intros H0 H1 Hops.
  apply (server_exec_invariant_when server_inv server_op_in_domain);
    [exact server_apply_inv | exact Hops |].
  apply server_init_inv; assumption.
Qed.

Lemma client_apply_inv (d : Client.EyeDetector) (op : ClientOp) :
  client_op_in_domain op -> client_inv d -> client_inv (client_apply d op).
Proof.
  intros Hop Hinv.
  destruct op as [[raw |] now | | cs r [a |]]; cbn [client_apply].
  - cbn in Hop.
    destruct Hinv as [Ha0 [Ha1 [Hsm [Hbuf Hord]]]].
    destruct (client_frame_calibration d raw now)
      as [Hb [_ [Hlo [Hhi [Hs _]]]]].
    pose proof (client_frame_smoothingFactor d raw now) as Hsf.
    assert (Hpos : 0 < Client.smoothedEye (Client.smooth d raw))
      by (cbn; apply blend_pos; assumption).
    unfold client_inv. rewrite Hb, Hlo, Hhi, Hs, Hsf.
    destruct (client_calibrate_cases (Client.smooth d raw))
      as [_ [[_ ->] | [_ [Hbc Hth]]]].
    + repeat split; assumption.
    + assert (Hall : Forall (fun x => 0 < x)
                       (Client.baseline (Client.calibrate
                                           (Client.smooth d raw)))).
      { rewrite Hbc. apply Forall_app. split; [exact Hbuf |].
        constructor; [exact Hpos | constructor]. }
      destruct (ClientFacts.calibrate_machine (Client.smooth d raw))
        as [_ [_ [_ [_ Hsc]]]].
      rewrite Hsc.
      destruct Hth as [[_ [-> ->]] | [_ [Hlen [-> ->]]]].
      * repeat split; assumption.
      * repeat split; try assumption.
        apply scaled_thresholds_ordered, client_median_pos; [exact Hall |].
        intros Hnil. rewrite Hnil in Hlen. simpl in Hlen. lia.
  - exact Hinv.
  - destruct Hinv as [Ha0 [Ha1 [Hsm [Hbuf Hord]]]].
    unfold client_inv. cbn. repeat split; try assumption. constructor.
  - destruct Hinv as [Ha0 [Ha1 [Hsm [Hbuf Hord]]]]. destruct Hop.
    unfold client_inv. cbn [Client.updateSettings Client.smoothingFactor
      Client.smoothedEye Client.baseline Client.TH_LOW Client.TH_HIGH].
    repeat split; assumption.
  - exact Hinv.
Qed.

Lemma client_session_inv (ops : list ClientOp) :
  Forall client_op_in_domain ops -> client_inv (client_exec Client.init ops).
Proof.
  intros Hops.
  apply (client_exec_invariant_when client_inv client_op_in_domain);
    [exact client_apply_inv | exact Hops |].
  unfold client_inv.
  cbn [Client.init Client.smoothingFactor Client.smoothedEye
       Client.baseline Client.TH_LOW Client.TH_HIGH].
  split; [lra |]. split; [lra |]. split; [lra |].
  split; [constructor | lra].
Qed.

(** Neither tracker checks its inputs, and outside the documented domain
    the thresholds come out of order.  Two frames of raw value 0 give the
    server tracker the thresholds [0 * 0.75] and [0 * 0.85], which are
    equal.  With the smoothing factor set to 2 the smoothed signal
    overshoots below 0: the server's thresholds after frames of 0.1 and 0.5
    are [-0.1 * 0.75] and [-0.1 * 0.85], and the client's after twenty
    frames of 0.3 have TH_HIGH below TH_LOW too. *)
Lemma thresholds_out_of_order :
  (exists lo hi,
     Server.thresholds
       (server_exec (Server.init 1.2 2.5 0.7 2 5) server_zero_samples)
     = Some (lo, hi) /\ lo == 0 /\ hi == 0 /\ ~ lo < hi) /\
  (exists lo hi,
     Server.thresholds
       (server_exec (Server.init 1.2 2.5 0.7 2 5) server_overshoot)
     = Some (lo, hi) /\ hi < lo) /\
  (Client.isCalibrating (client_exec Client.init client_overshoot) = false /\
   Client.TH_HIGH (client_exec Client.init client_overshoot)
   < Client.TH_LOW (client_exec Client.init client_overshoot)).
Proof.
  split; [| split].
  - eexists _, _. split; [vm_compute; reflexivity |].
    vm_compute. repeat split; discriminate.
  - eexists _, _. split; [vm_compute; reflexivity |].
    vm_compute. reflexivity.
  - vm_compute. split; reflexivity.
Qed.

(** C9, amended.  Take a new tracker (on the server: constructed with a
    smoothing factor in [0, 1]) and any sequence of operations in which the
    raw samples are positive and every smoothing factor given lies in
    [0, 1].  In the state it reaches, the thresholds, where defined, satisfy
    TH_LOW < TH_HIGH.  On any tracker the thresholds are written only by a
    frame with a face during calibration: it appends the smoothed value to
    the buffer and, exactly when that fills the buffer, sets the thresholds
    to [median * 0.75] and [median * 0.85] of the buffer (its median is
    positive in the sessions above).  Frames on a calibrated tracker, frames
    without a face and parameter updates leave the thresholds as they are,
    and so does the client's [startCalibration]; the server's
    [reset_baseline] starts the next calibration by making them absent. *)
Theorem thresholds_ordered_and_stable :
  (forall (cs r sf : Q) (bf fr : Z) (ops : list ServerOp) (lo hi : Q),
      0 <= sf -> sf <= 1 -> Forall server_op_in_domain ops ->
      Server.thresholds (server_exec (Server.init cs r sf bf fr) ops)
      = Some (lo, hi) ->
      lo < hi) /\
  (forall (d : Server.Detector) (raw : option Q) (now lo hi : Q),
      Server.thresholds d = Some (lo, hi) ->
      Server.thresholds (fst (Server.process_frame d raw now))
      = Some (lo, hi)) /\
  (forall (d : Server.Detector) (now : Q),
      Server.thresholds (fst (Server.process_frame d None now))
      = Server.thresholds d) /\
  (forall (d : Server.Detector) (cs r sf : option Q),
      Server.thresholds (Server.update_params cs r sf d)
      = Server.thresholds d) /\
  (forall d : Server.Detector,
      Server.thresholds (Server.reset_baseline d) = None) /\
  (forall (d : Server.Detector) (raw now : Q),
      Server.thresholds d = None ->
      let d' := fst (Server.process_frame d (Some raw) now) in
      Server.baseline_buffer d'
      = Server.baseline_buffer d ++ [Server.smooth d raw] /\
      Server.thresholds d'
      = if (Server.BASELINE_FRAMES d
            <=? Z.of_nat (length (Server.baseline_buffer d')))%Z
        then Some (Server.median (Server.baseline_buffer d') * 0.75,
                   Server.median (Server.baseline_buffer d') * 0.85)
        else None) /\
  (forall (cs r sf : Q) (bf fr : Z) (ops : list ServerOp) (raw now : Q),
      0 <= sf -> sf <= 1 -> Forall server_op_in_domain ops -> 0 < raw ->
      let d := server_exec (Server.init cs r sf bf fr) ops in
      Server.thresholds d = None ->
      0 < Server.median
            (Server.baseline_buffer
               (fst (Server.process_frame d (Some raw) now)))) /\
  (forall ops : list ClientOp,
      Forall client_op_in_domain ops ->
      Client.TH_LOW (client_exec Client.init ops)
      < Client.TH_HIGH (client_exec Client.init ops)) /\
  (forall (d : Client.EyeDetector) (raw : option Q) (now : Q),
      Client.isCalibrating d = false ->
      Client.TH_LOW (fst (Client.processFrame d raw now)) = Client.TH_LOW d /\
      Client.TH_HIGH (fst (Client.processFrame d raw now))
      = Client.TH_HIGH d) /\
  (forall (d : Client.EyeDetector) (now : Q),
      Client.TH_LOW (fst (Client.processFrame d None now)) = Client.TH_LOW d /\
      Client.TH_HIGH (fst (Client.processFrame d None now))
      = Client.TH_HIGH d) /\
  (forall (d : Client.EyeDetector) (cs r sf : option Q),
      Client.TH_LOW (Client.updateSettings cs r sf d) = Client.TH_LOW d /\
      Client.TH_HIGH (Client.updateSettings cs r sf d) = Client.TH_HIGH d /\
      Client.TH_LOW (Client.startCalibration d) = Client.TH_LOW d /\
      Client.TH_HIGH (Client.startCalibration d) = Client.TH_HIGH d) /\
  (forall (d : Client.EyeDetector) (raw now : Q),
      Client.isCalibrating d = true ->
      let d' := fst (Client.processFrame d (Some raw) now) in
      Client.baseline d' = Client.baseline d ++ [Client.smoothedEye d'] /\
      if (20 <=? length (Client.baseline d'))%nat
      then Client.isCalibrating d' = false /\
           Client.TH_LOW d' = Client.median (Client.baseline d') * 0.75 /\
           Client.TH_HIGH d' = Client.median (Client.baseline d') * 0.85
      else Client.isCalibrating d' = true /\
           Client.TH_LOW d' = Client.TH_LOW d /\
           Client.TH_HIGH d' = Client.TH_HIGH d) /\
  (forall (ops : list ClientOp) (raw now : Q),
      Forall client_op_in_domain ops -> 0 < raw ->
      let d := client_exec Client.init ops in
      Client.isCalibrating d = true ->
      0 < Client.median
            (Client.baseline (fst (Client.processFrame d (Some raw) now)))).
Proof.
  repeat match goal with |- _ /\ _ => split end.
  - intros cs r sf bf fr ops lo hi H0 H1 Hops Hth.
    destruct (server_session_inv cs r sf bf fr ops H0 H1 Hops)
      as [_ [_ [_ [_ Hord]]]].
    exact (Hord lo hi Hth).
  - intros d [raw |] now lo hi Hth; [| exact Hth].
    destruct (server_frame_calibrated_keeps d raw now lo hi Hth) as [H _].
    exact H.
  - reflexivity.
  - reflexivity.
  - reflexivity.
  - intros d raw now Hth d'. unfold d'.
    rewrite (ServerFacts.process_frame_uncalibrated d raw now Hth).
    cbn [fst]. unfold Server.calibrate.
    cbn [Server.set_baseline_buffer Server.BASELINE_FRAMES
         Server.baseline_buffer Server.set_smoothed_eye].
    destruct (Server.BASELINE_FRAMES d
              <=? Z.of_nat (length (Server.baseline_buffer d
                                      ++ [Server.smooth d raw])))%Z eqn:E;
      cbn [Server.set_thresholds Server.set_baseline_buffer
           Server.baseline_buffer Server.thresholds Server.set_smoothed_eye];
      rewrite E; split; try reflexivity.
    exact Hth.
  - intros cs r sf bf fr ops raw now H0 H1 Hops Hraw d Hth.
    pose proof (server_session_inv cs r sf bf fr ops H0 H1 Hops) as Hinv.
    fold d in Hinv.
    pose proof (server_smooth_pos d raw Hinv Hraw) as Hs.
    destruct Hinv as [_ [_ [_ [Hbuf _]]]].
    destruct (server_frame_uncalibrated_sets d raw now Hth) as [Hb _].
    rewrite Hb. apply server_median_pos.
    + apply Forall_app. split; [exact Hbuf |].
      constructor; [exact Hs | constructor].
    + destruct (Server.baseline_buffer d); simpl; congruence.
  - intros ops Hops.
    destruct (client_session_inv ops Hops) as [_ [_ [_ [_ Hord]]]].
    exact Hord.
  - intros d raw now Hcal.
    destruct (client_frame_config d raw now) as [_ Hidle].
    destruct (Hidle Hcal) as [_ [Hlo Hhi]]. auto.
  - intros d now. split; reflexivity.
  - intros d cs r sf. repeat split; reflexivity.
  - intros d raw now Hcal d'.
    destruct (client_frame_calibration d raw now)
      as [Hb [Hc [Hlo [Hhi [Hs _]]]]].
    fold d' in Hb, Hc, Hlo, Hhi, Hs.
    rewrite Hb, Hc, Hlo, Hhi, Hs.
    unfold Client.calibrate.
    cbn [Client.smooth Client.isCalibrating Client.baseline
         Client.smoothedEye].
    rewrite Hcal.
    destruct (20 <=? length (Client.baseline d ++ _))%nat eqn:E;
      cbn [Client.baseline Client.isCalibrating Client.TH_LOW
           Client.TH_HIGH Client.smoothedEye Client.smooth];
      rewrite E; repeat split; reflexivity.
  - intros ops raw now Hops Hraw d Hcal.
    destruct (client_session_inv ops Hops) as [Ha0 [Ha1 [Hsm [Hbuf _]]]].
    fold d in Ha0, Ha1, Hsm, Hbuf.
    destruct (client_frame_calibration d raw now) as [Hb _].
    rewrite Hb.
    destruct (client_calibrate_cases (Client.smooth d raw))
      as [_ [[Hidle _] | [_ [Hbc _]]]].
    + cbn in Hidle. congruence.
    + rewrite Hbc. apply client_median_pos.
      * apply Forall_app. split; [exact Hbuf |].
        constructor; [| constructor].
        cbn. apply blend_pos; assumption.
      * intros Hnil. apply app_eq_nil in Hnil. destruct Hnil.
        discriminate.
Qed.

Lemma thresholds_ordered_and_stable_witness :
  (exists lo hi,
     Server.thresholds
       (server_exec (Server.init 1.2 2.5 0.7 2 5) server_two_frames)
     = Some (lo, hi) /\ lo < hi) /\
  Client.TH_LOW (client_exec Client.init client_one_frame)
  < Client.TH_HIGH (client_exec Client.init client_one_frame).
Proof.
  split.
  - eexists _, _. split; [vm_compute; reflexivity |].
    apply (proj1 thresholds_ordered_and_stable 1.2 2.5 0.7 2%Z 5%Z
             server_two_frames).
    + vm_compute. discriminate.
    + vm_compute. discriminate.
    + repeat constructor.
    + vm_compute. reflexivity.
  - apply (proj1 (proj2 (proj2 (proj2 (proj2 (proj2
             (proj2 (proj2 thresholds_ordered_and_stable)))))))
             client_one_frame).
    repeat constructor.
Defined.

(** ** Frames without a face within a session *)

(** X10.  Frames without a face are transparent in a server session: the
    tracker ends in the state it reaches on the frames with a face alone,
    and the results that report [detected] are the results of that shorter
    session. *)
Theorem server_no_face_transparent (frames : list (option Q * Q)) :
  forall d : Server.Detector,
    fst (Server.run d frames) = fst (Server.run d (filter has_face frames)) /\
    filter Server.detected (snd (Server.run d frames))
    = snd (Server.run d (filter has_face frames)).
Proof.
  induction frames as [| [[raw |] now] rest IH]; intros d.
  - split; reflexivity.
  - cbn [filter has_face fst]. rewrite !server_run_cons. cbn [fst snd].
    destruct (IH (fst (Server.process_frame d (Some raw) now))) as [H1 H2].
    split; [exact H1 |].
    assert (Hdet : Server.detected
                     (snd (Server.process_frame d (Some raw) now)) = true).
    { destruct (Server.thresholds d) as [[lo hi] |] eqn:Hth.
      - rewrite (ServerFacts.process_frame_calibrated d raw now lo hi Hth).
        reflexivity.
      - rewrite (ServerFacts.process_frame_uncalibrated d raw now Hth).
        reflexivity. }
    cbn [filter]. rewrite Hdet, H2. reflexivity.
  - cbn [filter has_face fst]. rewrite server_run_cons. cbn [fst snd filter].
    cbn [Server.process_frame fst snd Server.detected]. apply IH.
Qed.

(** X11.  The same holds of a client session. *)
Theorem client_no_face_transparent (frames : list (option Q * Q)) :
  forall d : Client.EyeDetector,
    fst (Client.run d frames) = fst (Client.run d (filter has_face frames)) /\
    filter Client.detected (snd (Client.run d frames))
    = snd (Client.run d (filter has_face frames)).
Proof.
  induction frames as [| [[raw |] now] rest IH]; intros d.
  - split; reflexivity.
  - cbn [filter has_face fst]. rewrite !client_run_cons. cbn [fst snd].
    destruct (IH (fst (Client.processFrame d (Some raw) now))) as [H1 H2].
    split; [exact H1 |].
    cbn [filter]. rewrite H2. reflexivity.
  - cbn [filter has_face fst]. rewrite client_run_cons. cbn [fst snd filter].
    cbn [Client.processFrame fst snd Client.detected]. apply IH.
Qed.

(** ** Parameter updates *)

(** X12.  Parameter updates compose: two updates in a row act as one update
    in which each parameter takes the later value given, or the earlier one
    when the later update leaves it out; an update that gives nothing leaves
    the tracker as it is.  This holds of the server's [update_params] and of
    the client's [updateSettings]. *)
Theorem parameter_updates_compose :
  (forall (d : Server.Detector) (a b c a' b' c' : option Q),
      Server.update_params a' b' c' (Server.update_params a b c d)
      = Server.update_params (later_or a a') (later_or b b') (later_or c c')
          d) /\
  (forall d : Server.Detector, Server.update_params None None None d = d) /\
  (forall (d : Client.EyeDetector) (a b c a' b' c' : option Q),
      Client.updateSettings a' b' c' (Client.updateSettings a b c d)
      = Client.updateSettings (later_or a a') (later_or b b')
          (later_or c c') d) /\
  (forall d : Client.EyeDetector, Client.updateSettings None None None d = d).
Proof.
  split; [| split; [| split]].
  - intros d a b c [a' |] [b' |] [c' |]; reflexivity.
  - intros []. reflexivity.
  - intros d a b c [a' |] [b' |] [c' |]; reflexivity.
  - intros []. reflexivity.
Qed.

(** ** Calibration on arbitrary samples *)

Lemma server_median_range (a b : Q) (l : list Q) :
  Forall (fun x => a <= x /\ x <= b) l -> l <> [] ->
  a <= Server.median l /\ Server.median l <= b.
Proof.
  intros Hall Hne. unfold Server.median. rewrite sort_length.
  assert (Hpos : (0 < length l)%nat)
    by (destruct l; [congruence | simpl; lia]).
  assert (Hmid : a <= nth (length l / 2) (sort l) 0 /\
                 nth (length l / 2) (sort l) 0 <= b)
    by (apply (sort_nth (fun x => a <= x /\ x <= b));
        [exact Hall | now apply half_lt]).
  destruct (Nat.even (length l)); [| exact Hmid].
  assert (Hlow : a <= nth (length l / 2 - 1) (sort l) 0 /\
                 nth (length l / 2 - 1) (sort l) 0 <= b).
  { apply (sort_nth (fun x => a <= x /\ x <= b)); [exact Hall |].
    pose proof (half_lt _ Hpos). lia. }
  destruct Hmid, Hlow. split.
  - apply Qle_shift_div_l; [reflexivity | lra].
  - apply Qle_shift_div_r; [reflexivity | lra].
Qed.

Lemma client_median_range (a b : Q) (l : list Q) :
  Forall (fun x => a <= x /\ x <= b) l -> l <> [] ->
  a <= Client.median l /\ Client.median l <= b.
Proof.
  intros Hall Hne. unfold Client.median. rewrite sort_length.
  apply (sort_nth (fun x => a <= x /\ x <= b)); [exact Hall |].
  apply half_lt. destruct l; [congruence | simpl; lia].
Qed.

(** The server's calibration from any point of it, for samples that keep a
    property [P] which blending preserves. *)
Lemma server_calibration_run_any (P : Q -> Prop) (fs : list (Q * Q)) :
  forall (d : Server.Detector) (final : Q * Q),
    Server.thresholds d = None ->
    Forall P (Server.baseline_buffer d) ->
    (forall p, Server.smoothed_eye d = Some p -> P p) ->
    (forall p v, P p -> P v ->
                 P (Server.SMOOTHING_FACTOR d * p
                    + (1 - Server.SMOOTHING_FACTOR d) * v)) ->
    Forall (fun f => P (fst f)) (fs ++ [final]) ->
    Server.BASELINE_FRAMES d
    = Z.of_nat (length (Server.baseline_buffer d) + length fs + 1) ->
    let out := Server.run d (face_frames (fs ++ [final])) in
    map Server.baseline_ready (snd out) = repeat false (length fs) ++ [true] /\
    Server.thresholds (fst out)
    = Some (Server.median (Server.baseline_buffer (fst out)) * 0.75,
            Server.median (Server.baseline_buffer (fst out)) * 0.85) /\
    length (Server.baseline_buffer (fst out))
    = (length (Server.baseline_buffer d) + length fs + 1)%nat /\
    Forall P (Server.baseline_buffer (fst out)).
Proof.
  induction fs as [| [raw now] fs IH];
    intros d final Hth Hbuf Hsm Hblend Hall Hlen; cbv zeta.
  - destruct final as [raw now]. cbn [app face_frames map fst snd] in *.
    rewrite server_run_cons. cbn [Server.run fst snd].
    inversion Hall as [| f l Hraw _]. subst f l. cbn [fst] in Hraw.
    assert (Hs : P (Server.smooth d raw)).
    { unfold Server.smooth. destruct (Server.smoothed_eye d) as [p |] eqn:E;
        [apply Hblend; [apply Hsm; reflexivity | exact Hraw] | exact Hraw]. }
    destruct (server_frame_uncalibrated_sets d raw now Hth)
      as [Hb [_ Hset]].
    rewrite (ServerFacts.process_frame_uncalibrated d raw now Hth) in *.
    cbn [fst snd] in *.
    set (d1 := Server.calibrate _ _) in *.
    assert (Hfull : Server.thresholds d1
                    = Some (Server.median (Server.baseline_buffer d1) * 0.75,
                            Server.median (Server.baseline_buffer d1) * 0.85)).
    { destruct Hset as [Hnone | [_ Hsome]]; [| exact Hsome].
      exfalso. revert Hnone. unfold d1, Server.calibrate.
      cbn [Server.set_baseline_buffer Server.BASELINE_FRAMES
           Server.baseline_buffer Server.set_smoothed_eye].
      replace (_ <=? _)%Z with true; [discriminate |].
      symmetry. apply Z.leb_le. rewrite Hlen, length_app. cbn. lia. }
    split.
    + cbn [map repeat length app]. f_equal.
      unfold Server._get_current_state, Server.TH_LOW.
      cbn [Server.baseline_ready]. rewrite Hfull. reflexivity.
    + split; [exact Hfull |]. rewrite Hb, length_app. cbn [length].
      split; [lia |].
      apply Forall_app. split; [exact Hbuf | constructor; [exact Hs |
        constructor]].
  - cbn [app face_frames map fst snd length] in *.
    fold (face_frames (fs ++ [final])) in *.
    rewrite server_run_cons. cbn [fst snd].
    inversion Hall as [| f l Hraw Hrest]. subst f l. cbn [fst] in Hraw.
    assert (Hs : P (Server.smooth d raw)).
    { unfold Server.smooth. destruct (Server.smoothed_eye d) as [p |] eqn:E;
        [apply Hblend; [apply Hsm; reflexivity | exact Hraw] | exact Hraw]. }
    destruct (server_frame_uncalibrated_sets d raw now Hth)
      as [Hb [Hsf Hset]].
    destruct (server_frame_config d (Some raw) now) as [Hbf _].
    pose proof (server_process_frame_smoothed d raw now) as Hsm1.
    assert (Hnone : Server.thresholds
                      (fst (Server.process_frame d (Some raw) now)) = None).
    { destruct Hset as [Hnone | [Hle _]]; [exact Hnone |].
      exfalso. rewrite Hb, length_app in Hle. cbn [length] in Hle. lia. }
    assert (Hready : Server.baseline_ready
                       (snd (Server.process_frame d (Some raw) now)) = false).
    { rewrite (ServerFacts.process_frame_uncalibrated d raw now Hth) in *.
      cbn [fst snd] in *.
      unfold Server._get_current_state, Server.TH_LOW.
      cbn [Server.baseline_ready]. rewrite Hnone. reflexivity. }
    destruct (IH (fst (Server.process_frame d (Some raw) now)) final)
      as [H1 [H2 [H3 H4]]]; try assumption.
    + rewrite Hb. apply Forall_app. split; [exact Hbuf |].
      constructor; [exact Hs | constructor].
    + rewrite Hsm1. intros p Hp. inversion Hp. subst p. exact Hs.
    + rewrite Hsf. exact Hblend.
    + rewrite Hbf, Hb, Hlen, length_app. cbn [length]. f_equal. lia.
    + split; [| split; [exact H2 | split; [| exact H4]]].
      * cbn [map repeat app]. rewrite H1, Hready. reflexivity.
      * rewrite H3, Hb, length_app. cbn [length]. lia.
Qed.

(** X14.  On the server, a calibration started with an empty buffer takes
    exactly [BASELINE_FRAMES] frames with a face, whatever their values:
    every frame but the last reports [baseline_ready = false], the last one
    reports true and sets the thresholds to the median of the buffered
    smoothed values times 0.75 and 0.85. *)
Theorem server_calibration_takes_all_frames (d : Server.Detector)
    (fs : list (Q * Q)) (final : Q * Q) :
  Server.thresholds d = None ->
  Server.baseline_buffer d = [] ->
  Server.BASELINE_FRAMES d = Z.of_nat (length fs + 1) ->
  let out := Server.run d (face_frames (fs ++ [final])) in
  map Server.baseline_ready (snd out) = repeat false (length fs) ++ [true] /\
  Server.thresholds (fst out)
  = Some (Server.median (Server.baseline_buffer (fst out)) * 0.75,
          Server.median (Server.baseline_buffer (fst out)) * 0.85) /\
  length (Server.baseline_buffer (fst out)) = (length fs + 1)%nat.
Proof.
  intros Hth Hbuf Hlen.
  destruct (server_calibration_run_any (fun _ => True) fs d final)
    as [H1 [H2 [H3 _]]]; auto.
  - rewrite Hbuf. constructor.
  - apply Forall_forall. auto.
  - rewrite Hbuf. exact Hlen.
  - rewrite Hbuf in H3. auto.
Qed.

Lemma server_calibration_takes_all_frames_witness :
  map Server.baseline_ready
    (snd (Server.run (Server.init 1.2 2.5 0.7 3 5)
            (face_frames ([(0.3, 1); (0.2, 2)] ++ [(0.4, 3)]))))
  = repeat false 2 ++ [true].
Proof.
  exact (proj1 (server_calibration_takes_all_frames
                  (Server.init 1.2 2.5 0.7 3 5) [(0.3, 1); (0.2, 2)] (0.4, 3)
                  eq_refl eq_refl eq_refl)).
Defined.

(** During a calibration the server's buffer grows by the smoothed value
    that each frame reports. *)
Lemma server_calibration_buffer (fs : list (Q * Q)) :
  forall d : Server.Detector,
    Server.thresholds d = None ->
    (Z.of_nat (length (Server.baseline_buffer d) + length fs)
     <= Server.BASELINE_FRAMES d)%Z ->
    Server.baseline_buffer (fst (Server.run d (face_frames fs)))
    = Server.baseline_buffer d
      ++ map Server.eye_openness (snd (Server.run d (face_frames fs))).
Proof.
  induction fs as [| [raw now] fs IH]; intros d Hth Hlen.
  - cbn. now rewrite app_nil_r.
  - cbn [face_frames map fst snd length] in *.
    fold (face_frames fs) in *.
    rewrite server_run_cons. cbn [fst snd map].
    destruct (server_frame_uncalibrated_sets d raw now Hth)
      as [Hb [_ Hset]].
    destruct (server_frame_config d (Some raw) now) as [Hbf _].
    assert (Heye : Server.eye_openness
                     (snd (Server.process_frame d (Some raw) now))
                   = Server.smooth d raw).
    { rewrite (ServerFacts.process_frame_uncalibrated d raw now Hth).
      unfold Server._get_current_state. cbn [snd Server.eye_openness].
      rewrite server_calibrate_smoothed. reflexivity. }
    rewrite Heye.
    destruct Hset as [Hnone | [Hle _]].
    + rewrite (IH _ Hnone).
      * rewrite Hb, <- app_assoc. reflexivity.
      * rewrite Hbf, Hb, length_app. cbn [length]. lia.
    + rewrite Hb, length_app in Hle. cbn [length] in Hle.
      assert (Hnil : fs = []) by (destruct fs; [reflexivity | cbn in *; lia]).
      subst fs. cbn. exact Hb.
Qed.

(** X15.  The thresholds that a server calibration sets lie within the
    range of the smoothed values its frames report: if every one of them
    lies in an interval [[a, b]], then TH_LOW lies in
    [[a * 0.75, b * 0.75]] and TH_HIGH in [[a * 0.85, b * 0.85]]. *)
Theorem server_thresholds_within_samples (d : Server.Detector)
    (fs : list (Q * Q)) (final : Q * Q) (a b : Q) :
  Server.thresholds d = None ->
  Server.baseline_buffer d = [] ->
  Server.BASELINE_FRAMES d = Z.of_nat (length fs + 1) ->
  Forall (fun r => a <= Server.eye_openness r /\ Server.eye_openness r <= b)
    (snd (Server.run d (face_frames (fs ++ [final])))) ->
  exists lo hi,
    Server.thresholds (fst (Server.run d (face_frames (fs ++ [final]))))
    = Some (lo, hi) /\
    a * 0.75 <= lo /\ lo <= b * 0.75 /\
    a * 0.85 <= hi /\ hi <= b * 0.85.
Proof.
  intros Hth Hbuf Hlen Hall.
  destruct (server_calibration_run_any (fun _ => True) fs d final)
    as [_ [H2 [H3 _]]]; auto.
  - rewrite Hbuf. constructor.
  - apply Forall_forall. auto.
  - rewrite Hbuf. exact Hlen.
  - cbv zeta in H2, H3.
    pose proof (server_calibration_buffer (fs ++ [final]) d Hth) as Hb.
    rewrite Hbuf, length_app in Hb. cbn [length app] in Hb.
    specialize (Hb ltac:(lia)).
    assert (Hin : Forall (fun x => a <= x /\ x <= b)
                    (Server.baseline_buffer
                       (fst (Server.run d (face_frames (fs ++ [final])))))).
    { rewrite Hb. apply Forall_map. exact Hall. }
    destruct (server_median_range a b _ Hin) as [Hm1 Hm2].
    + intros Hnil. rewrite Hnil in H3. cbn in H3. lia.
    + eexists _, _. split; [exact H2 |]. repeat split; lra.
Qed.

Lemma server_thresholds_within_samples_witness :
  exists lo hi,
    Server.thresholds
      (fst (Server.run (Server.init 1.2 2.5 0.7 3 5)
              (face_frames ([(0.3, 1); (0.2, 2)] ++ [(0.4, 3)]))))
    = Some (lo, hi) /\
    0.2 * 0.75 <= lo /\ lo <= 0.4 * 0.75 /\
    0.2 * 0.85 <= hi /\ hi <= 0.4 * 0.85.
Proof.
  apply (server_thresholds_within_samples
           (Server.init 1.2 2.5 0.7 3 5) [(0.3, 1); (0.2, 2)] (0.4, 3)
           0.2 0.4 eq_refl eq_refl eq_refl).
  vm_compute. repeat constructor; discriminate.
Defined.

(** The client's calibration from any point of it, for samples that keep a
    property [P] which blending preserves. *)
Lemma client_calibration_run_any (P : Q -> Prop) (fs : list (Q * Q)) :
  forall (d : Client.EyeDetector) (final : Q * Q),
    Client.isCalibrating d = true ->
    Forall P (Client.baseline d) ->
    P (Client.smoothedEye d) ->
    (forall p v, P p -> P v ->
                 P (Client.smoothingFactor d * p
                    + (1 - Client.smoothingFactor d) * v)) ->
    Forall (fun f => P (fst f)) (fs ++ [final]) ->
    (length (Client.baseline d) + length fs + 1 = 20)%nat ->
    let out := Client.run d (face_frames (fs ++ [final])) in
    map Client.baseline_ready (snd out) = repeat false (length fs) ++ [true] /\
    Client.isCalibrating (fst out) = false /\
    Client.TH_LOW (fst out) = Client.median (Client.baseline (fst out)) * 0.75 /\
    Client.TH_HIGH (fst out)
    = Client.median (Client.baseline (fst out)) * 0.85 /\
    length (Client.baseline (fst out)) = 20%nat /\
    Forall P (Client.baseline (fst out)).
Proof.
  induction fs as [| [raw now] fs IH];
    intros d final Hcal Hbuf Hsm Hblend Hall Hlen; cbv zeta.
  - destruct final as [raw now]. cbn [app face_frames map fst snd] in *.
    rewrite client_run_cons. cbn [Client.run fst snd].
    inversion Hall as [| f l Hraw _]. subst f l. cbn [fst] in Hraw.
    destruct (client_frame_calibration d raw now)
      as [Hb [Hc [Hlo [Hhi [_ Hr]]]]].
    destruct (client_calibrate_cases (Client.smooth d raw))
      as [_ [[Hidle _] | [_ [Hbc Hcases]]]];
      [cbn in Hidle; congruence |].
    cbn [Client.smooth Client.baseline Client.smoothedEye] in Hbc.
    assert (Hlen1 : length (Client.baseline
                              (Client.calibrate (Client.smooth d raw)))
                    = 20%nat)
      by (rewrite Hbc, length_app; cbn [length] in *; lia).
    destruct Hcases as [[Hc' _] | [Hc' [_ [Hlo' Hhi']]]].
    + exfalso. revert Hc'. unfold Client.calibrate.
      cbn [Client.smooth Client.isCalibrating Client.baseline
           Client.smoothedEye].
      rewrite Hcal.
      replace (20 <=? _)%nat with true; [discriminate |].
      symmetry. apply Nat.leb_le. rewrite length_app. cbn [length] in *. lia.
    + cbn [map repeat length app].
      rewrite Hb, Hc, Hlo, Hhi, Hr. unfold Client.baseline_full.
      rewrite Hlen1.
      repeat split; try assumption. rewrite Hbc.
      apply Forall_app. split; [exact Hbuf |].
      constructor; [apply Hblend; assumption | constructor].
  - cbn [app face_frames map fst snd length] in *.
    fold (face_frames (fs ++ [final])) in *.
    rewrite client_run_cons. cbn [fst snd].
    inversion Hall as [| f l Hraw Hrest]. subst f l. cbn [fst] in Hraw.
    destruct (client_frame_calibration d raw now)
      as [Hb [Hc [_ [_ [_ Hr]]]]].
    pose proof (client_frame_smoothingFactor d raw now) as Hsf.
    pose proof (client_process_frame_smoothed d raw now) as Hs1.
    assert (Hcal1 : Client.calibrate (Client.smooth d raw)
                    = Client.mkEyeDetector
                        (Client.baseline d
                         ++ [Client.smoothedEye (Client.smooth d raw)])
                        true (Client.TH_LOW d) (Client.TH_HIGH d)
                        (Client.smoothedEye (Client.smooth d raw))
                        (Client.smoothingFactor d) (Client.closedFrames d)
                        (Client.openFrames d) (Client.FRAMES_REQUIRED d)
                        (Client.eyeState d) (Client.closedStartTime d)
                        (Client.refractoryUntil d) (Client.CLOSED_SECONDS d)
                        (Client.REFRACTORY d)).
    { unfold Client.calibrate.
      cbn [Client.smooth Client.isCalibrating Client.baseline
           Client.smoothedEye Client.TH_LOW Client.TH_HIGH
           Client.smoothingFactor Client.closedFrames Client.openFrames
           Client.FRAMES_REQUIRED Client.eyeState Client.closedStartTime
           Client.refractoryUntil Client.CLOSED_SECONDS Client.REFRACTORY].
      rewrite Hcal.
      replace (20 <=? _)%nat with false; [reflexivity |].
      symmetry. apply Nat.leb_gt. rewrite length_app. cbn [length] in *.
      lia. }
    rewrite Hcal1 in Hb, Hc, Hr.
    cbn [Client.baseline Client.isCalibrating Client.smooth
         Client.smoothedEye Client.baseline_full] in Hb, Hc, Hr.
    assert (Hready : Client.baseline_ready
                       (snd (Client.processFrame d (Some raw) now)) = false).
    { rewrite Hr. unfold Client.baseline_full. cbn [Client.baseline].
      apply Nat.leb_gt. rewrite length_app. cbn [length] in *. lia. }
    destruct (IH (fst (Client.processFrame d (Some raw) now)) final)
      as [H1 H2]; try assumption.
    + rewrite Hb. apply Forall_app. split; [exact Hbuf |].
      constructor; [apply Hblend; assumption | constructor].
    + rewrite Hs1. apply Hblend; assumption.
    + rewrite Hsf. exact Hblend.
    + rewrite Hb, length_app. cbn [length] in *. lia.
    + split; [| exact H2].
      cbn [map repeat app]. rewrite H1, Hready. reflexivity.
Qed.

(** X16.  On the client, a calibration takes exactly 20 frames with a face
    after [startCalibration], whatever their values and whatever the tracker
    was doing: the first 19 report [baseline_ready = false], the 20th
    reports true, lowers the calibrating flag and sets the thresholds to
    0.75 and 0.85 times the median (the 11th smallest) of the 20 buffered
    smoothed values. *)
Theorem client_calibration_takes_20_frames (d0 : Client.EyeDetector)
    (fs : list (Q * Q)) (final : Q * Q) :
  length fs = 19%nat ->
  let out :=
    Client.run (Client.startCalibration d0) (face_frames (fs ++ [final])) in
  map Client.baseline_ready (snd out) = repeat false 19 ++ [true] /\
  Client.isCalibrating (fst out) = false /\
  Client.TH_LOW (fst out) = Client.median (Client.baseline (fst out)) * 0.75 /\
  Client.TH_HIGH (fst out) = Client.median (Client.baseline (fst out)) * 0.85 /\
  length (Client.baseline (fst out)) = 20%nat.
Proof.
  intros Hlen.
  destruct (client_calibration_run_any (fun _ => True) fs
              (Client.startCalibration d0) final)
    as [H1 [H2 [H3 [H4 [H5 _]]]]].
  - reflexivity.
  - constructor.
  - exact I.
  - intros p v _ _. exact I.
  - apply Forall_forall. intros f _. exact I.
  - cbn. lia.
  - rewrite Hlen in H1. auto.
Qed.

Lemma client_calibration_takes_20_frames_witness :
  Client.isCalibrating
    (fst (Client.run (Client.startCalibration client_closed)
            (face_frames (repeat (0.3, 1) 19 ++ [(0.2, 2)])))) = false.
Proof.
  exact (proj1 (proj2 (client_calibration_takes_20_frames client_closed
                         (repeat (0.3, 1) 19) (0.2, 2) eq_refl))).
Defined.

(** During a calibration the client's buffer grows by the smoothed value
    that each frame reports. *)
Lemma client_calibration_buffer (fs : list (Q * Q)) :
  forall d : Client.EyeDetector,
    Client.isCalibrating d = true ->
    (length (Client.baseline d) + length fs <= 20)%nat ->
    Client.baseline (fst (Client.run d (face_frames fs)))
    = Client.baseline d
      ++ map Client.eye (snd (Client.run d (face_frames fs))).
Proof.
  induction fs as [| [raw now] fs IH]; intros d Hcal Hlen.
  - cbn. now rewrite app_nil_r.
  - cbn [face_frames map fst snd length] in *.
    fold (face_frames fs) in *.
    rewrite client_run_cons. cbn [fst snd map].
    destruct (client_frame_calibration d raw now)
      as [Hb [Hc [_ [_ [Hs _]]]]].
    assert (Heye : Client.eye (snd (Client.processFrame d (Some raw) now))
                   = Client.smoothedEye
                       (fst (Client.processFrame d (Some raw) now)))
      by reflexivity.
    destruct (ClientFacts.calibrate_machine (Client.smooth d raw))
      as [_ [_ [_ [_ Hsc]]]].
    rewrite Heye, Hs, Hsc.
    destruct (client_calibrate_cases (Client.smooth d raw))
      as [_ [[Hidle _] | [_ [Hbc Hcases]]]];
      [cbn in Hidle; congruence |].
    cbn [Client.smooth Client.baseline] in Hbc.
    rewrite Hbc in Hb.
    destruct Hcases as [[Hc' _] | [_ [Hfull _]]].
    + rewrite IH.
      * rewrite Hb, <- app_assoc. reflexivity.
      * rewrite Hc. exact Hc'.
      * rewrite Hb, length_app. cbn [length]. lia.
    + rewrite Hbc, length_app in Hfull. cbn [length] in Hfull.
      assert (Hnil : fs = []) by (destruct fs; [reflexivity | cbn in *; lia]).
      subst fs. cbn. exact Hb.
Qed.

(** X17.  The thresholds that a client calibration sets lie within the
    range of the smoothed values its frames report: if every one of them
    lies in an interval [[a, b]], then TH_LOW lies in
    [[a * 0.75, b * 0.75]] and TH_HIGH in [[a * 0.85, b * 0.85]]. *)
Theorem client_thresholds_within_samples (d0 : Client.EyeDetector)
    (fs : list (Q * Q)) (final : Q * Q) (a b : Q) :
  length fs = 19%nat ->
  Forall (fun r => a <= Client.eye r /\ Client.eye r <= b)
    (snd (Client.run (Client.startCalibration d0)
            (face_frames (fs ++ [final])))) ->
  let d :=
    fst (Client.run (Client.startCalibration d0)
           (face_frames (fs ++ [final]))) in
  a * 0.75 <= Client.TH_LOW d /\ Client.TH_LOW d <= b * 0.75 /\
  a * 0.85 <= Client.TH_HIGH d /\ Client.TH_HIGH d <= b * 0.85.
Proof.
  intros Hlen Hall.
  destruct (client_calibration_run_any (fun _ => True) fs
              (Client.startCalibration d0) final)
    as [_ [_ [H3 [H4 [H5 _]]]]].
  - reflexivity.
  - constructor.
  - exact I.
  - intros p v _ _. exact I.
  - apply Forall_forall. intros f _. exact I.
  - cbn. lia.
  - cbv zeta in *.
    pose proof (client_calibration_buffer (fs ++ [final])
                  (Client.startCalibration d0) eq_refl) as Hb.
    rewrite length_app in Hb. cbn [length app Client.startCalibration
                                   Client.baseline] in Hb.
    specialize (Hb ltac:(lia)).
    assert (Hin : Forall (fun x => a <= x /\ x <= b)
                    (Client.baseline
                       (fst (Client.run (Client.startCalibration d0)
                               (face_frames (fs ++ [final])))))).
    { rewrite Hb. apply Forall_map. exact Hall. }
    destruct (client_median_range a b _ Hin) as [Hm1 Hm2].
    + intros Hnil. rewrite Hnil in H5. discriminate H5.
    + rewrite H3, H4. repeat split; lra.
Qed.

Lemma client_thresholds_within_samples_witness :
  0.03 * 0.75 <= Client.TH_LOW
    (fst (Client.run (Client.startCalibration Client.init)
            (face_frames (repeat (0.3, 1) 19 ++ [(0.2, 2)])))).
Proof.
  apply (client_thresholds_within_samples Client.init
           (repeat (0.3, 1) 19) (0.2, 2) 0.03 0.3 eq_refl).
  vm_compute. repeat constructor; discriminate.
Defined.

(** ** Calibration on identical samples *)





(** ** What a result reports *)

(** X18.  Every result reports the tracker as the call leaves it: its eye
    state, smoothed signal and thresholds (0 where the server has none yet),
    and [baseline_ready] tells whether the server has thresholds, and
    whether the client's buffer is full. *)
Theorem result_reports_tracker :
  (forall (d : Server.Detector) (raw : option Q) (now : Q),
      let d' := fst (Server.process_frame d raw now) in
      let r := snd (Server.process_frame d raw now) in
      Server.state r = Server.current_state d' /\
      Server.eye_openness r = Server.or_zero (Server.smoothed_eye d') /\
      Server.th_low r = Server.or_zero (Server.TH_LOW d') /\
      Server.th_high r = Server.or_zero (Server.TH_HIGH d') /\
      Server.baseline_ready r = Server.is_some (Server.TH_LOW d')) /\
  (forall (d : Client.EyeDetector) (raw : option Q) (now : Q),
      let d' := fst (Client.processFrame d raw now) in
      let r := snd (Client.processFrame d raw now) in
      Client.state r = Client.eyeState d' /\
      Client.eye r = Client.smoothedEye d' /\
      Client.th_low r = Client.TH_LOW d' /\
      Client.th_high r = Client.TH_HIGH d' /\
      Client.baseline_ready r = Client.baseline_full d').
Proof.
  split.
  - intros d [raw |] now; cbv zeta; [| repeat split].
    destruct (Server.thresholds d) as [[lo hi] |] eqn:Hth.
    + pose proof (server_process_frame_smoothed d raw now) as Hs.
      destruct (server_frame_calibrated_keeps d raw now lo hi Hth)
        as [Hth' _].
      unfold Server.TH_LOW, Server.TH_HIGH. rewrite Hs, Hth'.
      rewrite (ServerFacts.process_frame_calibrated d raw now lo hi Hth).
      repeat split.
    + rewrite (ServerFacts.process_frame_uncalibrated d raw now Hth).
      repeat split.
  - intros d [raw |] now; cbv zeta; repeat split.
Qed.

(** ** The WebSocket session *)




(** X20.  A WebSocket session of decodable frame messages stays open, sends
    exactly one state message per frame, carrying in order the results of
    [process_frame], and leaves the detector as the frames alone do. *)
Theorem frame_session_is_run (frames : list (option Q * Q)) :
  forall d : Server.Detector,
    ServerApp.serve d (frame_messages frames)
    = (fst (Server.run d frames),
       map ServerApp.State (snd (Server.run d frames)),
       true).
Proof.
  induction frames as [| [raw now] rest IH]; intros d; [reflexivity |].
  cbn [frame_messages map fst snd]. fold (frame_messages rest).
  rewrite server_run_cons. cbn [fst snd map].
  cbn [ServerApp.serve]. unfold ServerApp.handle.
  cbn. rewrite IH. reflexivity.
Qed.

(** X21.  Sessions compose, and a session that a message has ended takes
    no further message: serving [pre ++ post] is serving [pre] and then, if
    the session is still open, [post] from the detector reached, the
    replies in that order; if [pre] ended the session, nothing of [post] is
    handled or answered. *)
Theorem serve_app (pre post : list (ServerApp.Message * Q)) :
  forall d : Server.Detector,
    ServerApp.serve d (pre ++ post)
    = if snd (ServerApp.serve d pre)
      then (fst (fst (ServerApp.serve (fst (fst (ServerApp.serve d pre)))
                        post)),
            snd (fst (ServerApp.serve d pre))
            ++ snd (fst (ServerApp.serve (fst (fst (ServerApp.serve d pre)))
                           post)),
            snd (ServerApp.serve (fst (fst (ServerApp.serve d pre))) post))
      else ServerApp.serve d pre.
Proof.
  induction pre as [| [m now] pre IH]; intros d.
  - cbn [app ServerApp.serve fst snd].
    destruct (ServerApp.serve d post) as [[d2 replies] alive]. reflexivity.
  - cbn [app ServerApp.serve].
    destruct (ServerApp.handle d now m) as [[d' out] |]; [| reflexivity].
    rewrite IH.
    destruct (ServerApp.serve d' pre) as [[d1 r1] alive1]. cbn [fst snd].
    destruct alive1; [| reflexivity].
    destruct (ServerApp.serve d1 post) as [[d2 r2] alive2]. cbn [fst snd].
    rewrite app_assoc. reflexivity.
Qed.

(** ** The detection page's log *)

Lemma addLog_firstn (t m : String.string) (prev : list String.string) :
  DetectPage.addLog t m (firstn 10 prev) = firstn 10 (DetectPage.entry t m :: prev).
Proof.
  unfold DetectPage.addLog.
  change (firstn 10 (?e :: ?l)) with (e :: firstn 9 l).
  rewrite firstn_firstn. reflexivity.
Qed.

Lemma logs_after_firstn (calls : list (String.string * String.string)) :
  forall prev : list String.string,
    DetectPage.logs_after calls (firstn 10 prev)
    = firstn 10
        (rev (map (fun c => DetectPage.entry (fst c) (snd c)) calls) ++ prev).
Proof.
  unfold DetectPage.logs_after.
  induction calls as [| c calls IH]; intros prev; [reflexivity |].
  cbn [fold_left map rev]. rewrite addLog_firstn, IH, <- app_assoc.
  reflexivity.
Qed.

(** X22.  The log of the detection page, empty at first, always shows the
    ten most recent entries, newest first: after any calls of [addLog] it is
    the first ten of the entries in reverse order of the calls. *)
Theorem log_shows_ten_newest (calls : list (String.string * String.string)) :
  DetectPage.logs_after calls []
  = firstn 10 (rev (map (fun c => DetectPage.entry (fst c) (snd c)) calls)) /\
  (length (DetectPage.logs_after calls []) <= 10)%nat.
Proof.
  assert (H : DetectPage.logs_after calls []
              = firstn 10
                  (rev (map (fun c => DetectPage.entry (fst c) (snd c))
                          calls))).
  { change (@nil String.string) with (firstn 10 (@nil String.string)) at 1.
    rewrite logs_after_firstn, app_nil_r. reflexivity. }
  split; [exact H |]. rewrite H. apply firstn_le_length.
Qed.

(** ** The reported closed duration under a monotone clock *)

(** A client frame with a face keeps eye state and closed-start time, or
    closes at [now], or opens and clears the time; and it reports the time
    since the closed-start time, or 0. *)
Lemma client_frame_timer (d : Client.EyeDetector) (raw now : Q) :
  let d' := fst (Client.processFrame d (Some raw) now) in
  let r := snd (Client.processFrame d (Some raw) now) in
  ((Client.eyeState d' = Client.eyeState d /\
    Client.closedStartTime d' = Client.closedStartTime d) \/
   (Client.eyeState d' = CLOSED /\ Client.closedStartTime d' = now) \/
   (Client.eyeState d' = OPEN /\ Client.closedStartTime d' = 0)) /\
  Client.closed_for r
  = (if Client.closed_timed d' then now - Client.closedStartTime d' else 0).
Proof.
  cbv zeta. unfold Client.processFrame.
  set (m := Client.state_machine (Client.calibrate (Client.smooth d raw)) now).
  assert (Ht : Client.closed_timed (fst (Client.check_alarm m now))
               = Client.closed_timed m).
  { unfold Client.closed_timed.
    now rewrite ClientFacts.check_alarm_eyeState,
      ClientFacts.check_alarm_closedStartTime. }
  rewrite Ht, ClientFacts.check_alarm_eyeState,
    ClientFacts.check_alarm_closedStartTime.
  split; [| reflexivity].
  destruct (ClientFacts.calibrate_machine (Client.smooth d raw))
    as [Hs [Hst _]].
  cbn [Client.smooth Client.eyeState Client.closedStartTime] in Hs, Hst.
  destruct (client_state_machine_timer
              (Client.calibrate (Client.smooth d raw)) now)
    as [[H1 H2] | [[_ [H1 H2]] | [_ [H1 H2]]]]; fold m in H1, H2.
  - left. rewrite H1, H2. auto.
  - right. left. auto.
  - right. right. auto.
Qed.

Lemma client_closed_for_nonneg_run (frames : list (option Q * Q)) :
  forall d : Client.EyeDetector,
    StronglySorted Qle (map snd frames) ->
    (Client.closed_timed d = true ->
     Forall (fun f => Client.closedStartTime d <= snd f) frames) ->
    Forall (fun r => 0 <= Client.closed_for r) (snd (Client.run d frames)).
Proof.
  induction frames as [| [raw now] rest IH]; intros d Hsorted Hd;
    [constructor |].
  rewrite client_run_cons. cbn [snd fst].
  cbn [map snd] in Hsorted.
  apply StronglySorted_inv in Hsorted. destruct Hsorted as [Hs Hhead].
  rewrite Forall_map in Hhead.
  destruct raw as [raw |].
  - destruct (client_frame_timer d raw now) as [Hcases Hfor].
    constructor.
    + rewrite Hfor.
      destruct (Client.closed_timed
                  (fst (Client.processFrame d (Some raw) now))) eqn:Et;
        [| apply Qle_refl].
      destruct Hcases as [[H1 H2] | [[H1 H2] | [H1 H2]]].
      * assert (Hd' : Client.closed_timed d = true)
          by (revert Et; unfold Client.closed_timed;
              rewrite H1, H2; auto).
        specialize (Hd Hd'). inversion Hd as [| f l Hle _]. subst f l.
        cbn [snd] in Hle. rewrite H2. lra.
      * rewrite H2. lra.
      * unfold Client.closed_timed in Et. rewrite H1 in Et. discriminate Et.
    + apply IH; [exact Hs |]. intros Et.
      destruct Hcases as [[H1 H2] | [[H1 H2] | [H1 H2]]].
      * assert (Hd' : Client.closed_timed d = true)
          by (revert Et; unfold Client.closed_timed;
              rewrite H1, H2; auto).
        specialize (Hd Hd'). inversion Hd as [| f l _ Hrest]. subst f l.
        rewrite H2. exact Hrest.
      * rewrite H2. exact Hhead.
      * unfold Client.closed_timed in Et. rewrite H1 in Et. discriminate Et.
  - constructor; [cbn; apply Qle_refl |].
    apply IH; [exact Hs |]. cbn [Client.processFrame fst]. intros Et.
    specialize (Hd Et). inversion Hd. assumption.
Qed.

(** A server frame keeps the closed-start time, or sets it to [now], or
    clears it; and it reports 0 or the time since the closed-start time. *)
Lemma server_frame_timer (d : Server.Detector) (raw : option Q) (now : Q) :
  let d' := fst (Server.process_frame d raw now) in
  let r := snd (Server.process_frame d raw now) in
  (Server.closed_start d' = Server.closed_start d \/
   Server.closed_start d' = Some now \/
   Server.closed_start d' = None) /\
  (Server.closed_for r == 0 \/
   exists t0, Server.closed_start d' = Some t0 /\
              Server.closed_for r = now - t0).
Proof.
  cbv zeta. destruct raw as [raw |].
  2: { cbn. split; [left | left]; reflexivity. }
  destruct (Server.thresholds d) as [[lo hi] |] eqn:Hth.
  - rewrite (ServerFacts.process_frame_calibrated d raw now lo hi Hth).
    set (m := Server.state_machine _ _ lo hi now).
    rewrite ServerFacts.check_alarm_closed_start.
    split.
    + destruct (server_state_machine_cases
                  (Server.set_smoothed_eye (Some (Server.smooth d raw)) d)
                  (Server.smooth d raw) lo hi now)
        as [[_ [_ [_ [H _]]]] | [[_ [_ [_ [H _]]]] |
            [[_ [_ [_ [H _]]]] | [_ [_ H]]]]]; fold m in H.
      * right. left. exact H.
      * left. exact H.
      * right. right. exact H.
      * left. rewrite H. reflexivity.
    + unfold Server.check_alarm. cbn [snd Server.closed_for].
      destruct (Server.closed_confirmed m) eqn:Ec; [| left; reflexivity].
      apply server_closed_confirmed_iff in Ec.
      destruct Ec as [_ [[t0 [Ht0 _]] _]].
      right. exists t0. rewrite Ht0. split; reflexivity.
  - rewrite (ServerFacts.process_frame_uncalibrated d raw now Hth).
    cbn [fst snd]. split; [left | left; reflexivity].
    unfold Server.calibrate. destruct (_ <=? _)%Z; reflexivity.
Qed.

Lemma server_closed_for_nonneg_run (frames : list (option Q * Q)) :
  forall d : Server.Detector,
    StronglySorted Qle (map snd frames) ->
    (forall t0, Server.closed_start d = Some t0 ->
                Forall (fun f => t0 <= snd f) frames) ->
    Forall (fun r => 0 <= Server.closed_for r) (snd (Server.run d frames)).
Proof.
  induction frames as [| [raw now] rest IH]; intros d Hsorted Hd;
    [constructor |].
  rewrite server_run_cons. cbn [snd fst].
  cbn [map snd] in Hsorted.
  apply StronglySorted_inv in Hsorted. destruct Hsorted as [Hs Hhead].
  rewrite Forall_map in Hhead.
  destruct (server_frame_timer d raw now) as [Hcases Hfor].
  constructor.
  - destruct Hfor as [Hz | [t0 [Ht0 Hval]]]; [rewrite Hz; apply Qle_refl |].
    rewrite Hval.
    destruct Hcases as [H | [H | H]]; rewrite H in Ht0.
    + specialize (Hd t0 Ht0). inversion Hd as [| f l Hle _]. subst f l.
      cbn [snd] in Hle. lra.
    + inversion Ht0. lra.
    + discriminate Ht0.
  - apply IH; [exact Hs |]. intros t0 Ht0.
    destruct Hcases as [H | [H | H]]; rewrite H in Ht0.
    + specialize (Hd t0 Ht0). inversion Hd. assumption.
    + inversion Ht0. subst t0. exact Hhead.
    + discriminate Ht0.
Qed.

(** X23.  Under a clock that never runs backwards, a session of a new
    tracker never reports a negative closed duration; this holds of the
    server and of the client. *)
Theorem closed_for_never_negative (frames : list (option Q * Q)) :
  StronglySorted Qle (map snd frames) ->
  (forall (cs r sf : Q) (bf fr : Z),
      Forall (fun x => 0 <= Server.closed_for x)
        (snd (Server.run (Server.init cs r sf bf fr) frames))) /\
  Forall (fun x => 0 <= Client.closed_for x)
    (snd (Client.run Client.init frames)).
Proof.
  intros Hsorted. split.
  - intros cs r sf bf fr.
    apply server_closed_for_nonneg_run; [exact Hsorted |].
    intros t0 H. discriminate H.
  - apply client_closed_for_nonneg_run; [exact Hsorted |].
    intros H. discriminate H.
Qed.

Lemma closed_for_never_negative_witness :
  Forall (fun x => 0 <= Client.closed_for x)
    (snd (Client.run Client.init [(Some 0, 1); (None, 1); (Some 0, 2)])).
Proof.
  assert (Hsorted : StronglySorted Qle
                      (map snd [(Some 0, 1); (@None Q, 1); (Some 0, 2)]))
    by (repeat constructor; vm_compute; discriminate).
  exact (proj2 (closed_for_never_negative _ Hsorted)).
Defined.
